(** * E-commerce chat with AI: entities, context window, orchestrator, responder

    A shallow embedding of the Python sources
      - [src/domain/entities.py]            (Product, ChatMessage, ChatContext)
      - [src/application/dtos.py]           (ChatMessageRequestDTO, ChatMessageResponseDTO)
      - [src/application/chat_service.py]   (ChatService.process_message)
      - [src/infrastructure/llm_providers/gemini_service.py] (GeminiService)
      - [src/infrastructure/api/main.py]    (the POST /chat endpoint)
      - [tests/test_services.py]            (the in-memory collaborators)
    followed by the properties proved about them.

    Python values are modelled as follows: [str] is a list of Unicode code
    points, [int] is [Z], [float] is an IEEE-754 binary64 value
    ([spec_float]), an exception is a class together with the text [str(e)],
    and a call that may raise returns a [result].  Calls to collaborators
    (repositories, the AI service, the clock, the model provider) are nodes
    of a program tree that is run against a handler. *)

From Stdlib Require Import ZArith NArith List Bool String Ascii Lia SpecFloat.
From Stdlib Require DecimalString.
Import ListNotations.
Local Open Scope Z_scope.

(* ================================================================== *)
(** * The Python runtime the sources rely on                           *)
(* ================================================================== *)

Module Py.

(** A Python [str]: a sequence of code points. *)
Definition str := list N.

(** A literal of the source (the literals used below are ASCII; non-ASCII
    letters are written as explicit code points). *)
Definition py (s : string) : str :=
  List.map N_of_ascii (list_ascii_of_string s).

Definition NL : str := [10%N].

Fixpoint str_eqb (a b : str) : bool :=
  match a, b with
  | [], [] => true
  | x :: a', y :: b' => N.eqb x y && str_eqb a' b'
  | _, _ => false
  end.

(** Truthiness of a string: [not s]. *)
Definition py_not (s : str) : bool :=
  match s with [] => true | _ :: _ => false end.

(** [a or b] on strings. *)
Definition py_or (a b : str) : str := if py_not a then b else a.

(** [c.isspace()] for one code point, the set [str.strip()] removes. *)
Definition py_isspace (c : N) : bool :=
  ((9 <=? c) && (c <=? 13) || (28 <=? c) && (c <=? 32)
   || (c =? 133) || (c =? 160) || (c =? 5760)
   || (8192 <=? c) && (c <=? 8202)
   || (c =? 8232) || (c =? 8233) || (c =? 8239) || (c =? 8287)
   || (c =? 12288))%N.

Fixpoint lstrip (s : str) : str :=
  match s with
  | c :: s' => if py_isspace c then lstrip s' else s
  | [] => []
  end.

(** [s.strip()] *)
Definition py_strip (s : str) : str := rev (lstrip (rev (lstrip s))).

(** The test [not v or not v.strip()] of the validators. *)
Definition blank (v : str) : bool := py_not v || py_not (py_strip v).

Definition is_ascii (s : str) : bool := forallb (fun c => (c <? 128)%N) s.

Definition ascii_lower (c : N) : N :=
  if ((65 <=? c) && (c <=? 90))%N then (c + 32)%N else c.

(** What the interpreter supplies and the repository does not define:
    the Unicode case mapping used by [str.lower()] on a string that is not
    pure ASCII, and the rendering of a price by the format spec [.2f]. *)
Inductive num := PyInt (z : Z) | PyFloat (f : spec_float).

Class Runtime := {
  unicode_lower : str -> str;
  format_2f : num -> str
}.

(** [s.lower()]: CPython lowers an ASCII string bytewise and sends any
    other string through the Unicode database. *)
Definition py_lower `{Runtime} (s : str) : str :=
  if is_ascii s then List.map ascii_lower s else unicode_lower s.

Fixpoint startswith (p s : str) : bool :=
  match p, s with
  | [], _ => true
  | a :: p', b :: s' => N.eqb a b && startswith p' s'
  | _ :: _, [] => false
  end.

(** [needle in hay] *)
Fixpoint py_in (needle hay : str) : bool :=
  startswith needle hay ||
  match hay with
  | [] => false
  | _ :: hay' => py_in needle hay'
  end.

(** [sep.join(parts)] *)
Fixpoint py_join (sep : str) (parts : list str) : str :=
  match parts with
  | [] => []
  | [x] => x
  | x :: rest => x ++ sep ++ py_join sep rest
  end.

(** [l[start:]]: a negative start counts from the end, and both ends are
    clamped to the list. *)
Definition py_slice_from {A} (start : Z) (l : list A) : list A :=
  let n := Z.of_nat (List.length l) in
  let s := if start <? 0 then Z.max (start + n) 0 else Z.min start n in
  skipn (Z.to_nat s) l.

(** [d.get(k, default)] on a dict with string keys. *)
Fixpoint dict_get (d : list (str * str)) (k default : str) : str :=
  match d with
  | [] => default
  | (k', v) :: d' => if str_eqb k k' then v else dict_get d' k default
  end.

(** [str(n)] for an int. *)
Definition str_of_int (z : Z) : str :=
  py (DecimalString.NilZero.string_of_int (Z.to_int z)).

(** [len(l)] *)
Definition len {A} (l : list A) : Z := Z.of_nat (List.length l).

(** Numbers: [price <= 0], for a price that is an int or a float. *)
Definition num_le_zero (x : num) : bool :=
  match x with
  | PyInt z => z <=? 0
  | PyFloat f => SFleb f (S754_zero false)
  end.

(** The float literal [120.0]. *)
Definition float_120 : spec_float := S754_finite false 8444249301319680 (-46).

(** [datetime]: an instant, and whether the value carries a time zone
    ([datetime.now(UTC)] does, [datetime.utcnow()] does not). *)
Record datetime := { instant : Z; tz_aware : bool }.

(** Exceptions. *)
Inductive exn_class :=
| ValueError
| TypeError
| RuntimeError
| AttributeError
| ValidationError
| ChatServiceError
| HTTPException (status_code : Z)
| OtherError (class_name : str).

Record exn := Exn { exn_class_of : exn_class; exn_str : str }.

Inductive result (A : Type) : Type :=
| Ok (a : A)
| Err (e : exn).
Arguments Ok {A} a.
Arguments Err {A} e.

(** The call raised an exception of class [c]. *)
Definition raises {A} (c : exn_class) (r : result A) : Prop :=
  exists e, r = Err e /\ exn_class_of e = c.

(** A method that mutates [self]: the object after the call is returned
    whether the call returned or raised. *)
Definition method (S A : Type) : Type := S -> result A * S.

(** A keyword argument with a default value. *)
Definition with_default {A} (d : A) (arg : option A) : A :=
  match arg with Some a => a | None => d end.

End Py.
Import Py.

(* ================================================================== *)
(** * src/domain/entities.py                                           *)
(* ================================================================== *)

Module Product.

Record t := {
  id : option Z;
  name : str;
  brand : str;
  category : str;
  size : str;
  color : str;
  price : num;
  stock : Z;
  description : str
}.

Definition set_stock (self : t) (v : Z) : t :=
  {| id := id self; name := name self; brand := brand self;
     category := category self; size := size self; color := color self;
     price := price self; stock := v; description := description self |}.

(** The three checks run right after the fields are assigned.  ([price]
    and [stock] are numbers here, so the [is None] disjuncts of the source
    are not represented.) *)
Definition __post_init__ (self : t) : result unit :=
  if py_not (name self) || py_not (py_strip (name self)) then
    Err (Exn ValueError
           (py "El nombre del producto no puede estar vac" ++ [237%N] ++ py "o."))
  else if num_le_zero (price self) then
    Err (Exn ValueError (py "El precio debe ser mayor a 0."))
  else if stock self <? 0 then
    Err (Exn ValueError (py "El stock no puede ser negativo."))
  else Ok tt.

(** The dataclass constructor: [description] defaults to the empty string. *)
Definition init (id : option Z) (name brand category size color : str)
    (price : num) (stock : Z) (description : option str) : result t :=
  let self :=
    {| id := id; name := name; brand := brand; category := category;
       size := size; color := color; price := price; stock := stock;
       description := with_default [] description |} in
  match __post_init__ self with
  | Ok _ => Ok self
  | Err e => Err e
  end.

Definition is_available (self : t) : bool := 0 <? stock self.

Definition reduce_stock (quantity : Z) : method t unit := fun self =>
  if quantity <=? 0 then
    (Err (Exn ValueError (py "La cantidad a reducir debe ser positiva.")), self)
  else if stock self <? quantity then
    (Err (Exn ValueError (py "No hay stock suficiente para la operaci"
                            ++ [243%N] ++ py "n.")), self)
  else (Ok tt, set_stock self (stock self - quantity)).

Definition increase_stock (quantity : Z) : method t unit := fun self =>
  if quantity <=? 0 then
    (Err (Exn ValueError (py "La cantidad a aumentar debe ser positiva.")), self)
  else (Ok tt, set_stock self (stock self + quantity)).

End Product.

Module ChatMessage.

Record t := {
  id : option Z;
  session_id : str;
  role : str;
  message : str;
  timestamp : datetime
}.

Definition set_id (self : t) (v : option Z) : t :=
  {| id := v; session_id := session_id self; role := role self;
     message := message self; timestamp := timestamp self |}.

Definition __post_init__ (self : t) : result unit :=
  if negb (str_eqb (role self) (py "user") || str_eqb (role self) (py "assistant")) then
    Err (Exn ValueError (py "El rol debe ser 'user' o 'assistant'."))
  else if py_not (message self) || py_not (py_strip (message self)) then
    Err (Exn ValueError (py "El mensaje no puede estar vac" ++ [237%N] ++ py "o."))
  else if py_not (session_id self) || py_not (py_strip (session_id self)) then
    Err (Exn ValueError (py "El session_id no puede estar vac" ++ [237%N] ++ py "o."))
  else Ok tt.

Definition init (id : option Z) (session_id role message : str)
    (timestamp : datetime) : result t :=
  let self := {| id := id; session_id := session_id; role := role;
                 message := message; timestamp := timestamp |} in
  match __post_init__ self with
  | Ok _ => Ok self
  | Err e => Err e
  end.

Definition is_from_user (self : t) : bool := str_eqb (role self) (py "user").

Definition is_from_assistant (self : t) : bool :=
  str_eqb (role self) (py "assistant").

End ChatMessage.

Module ChatContext.

Record t := {
  messages : list ChatMessage.t;
  max_messages : Z
}.

(** The dataclass constructor: [max_messages] defaults to 6. *)
Definition init (messages : list ChatMessage.t) (max_messages : option Z) : t :=
  {| messages := messages; max_messages := with_default 6 max_messages |}.

(** [self.messages[-self.max_messages:]] *)
Definition get_recent_messages (self : t) : list ChatMessage.t :=
  py_slice_from (- max_messages self) (messages self).

Definition role_map : list (str * str) :=
  [ (py "user", py "user");
    (py "assistant", py "assistant");
    (py "usuario", py "user");
    (py "asistente", py "assistant") ].

(** The messages the transcript is built from:
    [self.messages[-self.max_messages:] if self.max_messages else self.messages]. *)
Definition msgs (self : t) : list ChatMessage.t :=
  if negb (max_messages self =? 0)
  then py_slice_from (- max_messages self) (messages self)
  else messages self.

Section WithRuntime.
Context `{Runtime}.

(** The key looked up in [role_map]: the role, or the empty string when the
    role is falsy, stripped and lowered. *)
Definition raw_role (m : ChatMessage.t) : str :=
  py_lower (py_strip (py_or (ChatMessage.role m) [])).

(** One pass of the loop body: the line appended for [m]. *)
Definition line (m : ChatMessage.t) : str :=
  let role := dict_get role_map (raw_role m) (py "user") in
  role ++ py ": " ++ ChatMessage.message m.

Definition format_for_prompt (self : t) : str :=
  let lines := fold_left (fun lines m => lines ++ [line m]) (msgs self) [] in
  py_join NL lines.

End WithRuntime.

End ChatContext.


(* ================================================================== *)
(** * src/application/dtos.py                                          *)
(* ================================================================== *)

Module ChatMessageRequestDTO.

Record t := {
  session_id : str;
  message : str
}.

(** The two field validators. *)
Definition message_not_empty (v : str) : result str :=
  if py_not v || py_not (py_strip v) then
    Err (Exn ValueError (py "El mensaje no puede estar vac" ++ [237%N] ++ py "o."))
  else Ok v.

Definition session_id_not_empty (v : str) : result str :=
  if py_not v || py_not (py_strip v) then
    Err (Exn ValueError (py "El session_id no puede estar vac" ++ [237%N] ++ py "o."))
  else Ok v.

Definition errors_of {A} (r : result A) : list str :=
  match r with Ok _ => [] | Err e => [exn_str e] end.

(** Building the model from its two inputs.  Pydantic runs the validators in
    field order and reports every failure in a single [ValidationError]; the
    text of that report is abbreviated here to the validators' messages, one
    per line. *)
Definition init (session_id message : str) : result t :=
  match session_id_not_empty session_id, message_not_empty message with
  | Ok s, Ok m => Ok {| session_id := s; message := m |}
  | rs, rm => Err (Exn ValidationError (py_join NL (errors_of rs ++ errors_of rm)))
  end.

End ChatMessageRequestDTO.

Module ChatMessageResponseDTO.

Record t := {
  session_id : str;
  user_message : str;
  assistant_message : str;
  timestamp : datetime
}.

End ChatMessageResponseDTO.

(* ================================================================== *)
(** * Programs that call collaborators                                 *)
(* ================================================================== *)

Module Effects.

(** The operations of the collaborators, each with the type it returns. *)
Record Sig := { op : Type; ret : op -> Type }.

(** A program either is done, or calls an operation and continues with what
    the call produced: a value, or the exception it raised. *)
Inductive Prog (S : Sig) (A : Type) : Type :=
| Return (a : A)
| Call (o : op S) (k : result (ret S o) -> Prog S A).
Arguments Return {S A} a.
Arguments Call {S A} o k.

(** The collaborators: how a world answers each operation. *)
Definition handler (S : Sig) (W : Type) : Type :=
  forall o : op S, W -> result (ret S o) * W.

(** Recording a call in front of what follows it. *)
Definition logged {O A W} (o : O) (x : A * W * list O) : A * W * list O :=
  let '(a, w, calls) := x in (a, w, o :: calls).

(** Running a program: its value, the world it leaves, and the calls it
    made, in order. *)
Fixpoint run {S W A} (h : handler S W) (p : Prog S A) (w : W)
  : A * W * list (op S) :=
  match p with
  | Return a => (a, w, [])
  | Call o k => let '(r, w1) := h o w in logged o (run h (k r) w1)
  end.

(** Programs that may raise. *)
Definition ProgE (S : Sig) (A : Type) : Type := Prog S (result A).

Definition raise {S A} (e : exn) : ProgE S A := Return (Err e).

(** A call whose exception is not caught here. *)
Definition perform {S} (o : op S) : ProgE S (ret S o) := Call o Return.

(** A local computation that may raise (a constructor with validation). *)
Definition lift {S A} (r : result A) : ProgE S A := Return r.

(** Sequencing. *)
Fixpoint seq {S A B} (p : Prog S A) (f : A -> Prog S B) : Prog S B :=
  match p with
  | Return a => f a
  | Call o k => Call o (fun r => seq (k r) f)
  end.

(** Sequencing of programs that may raise: an exception skips the rest. *)
Definition bind {S A B} (p : ProgE S A) (f : A -> ProgE S B) : ProgE S B :=
  seq p (fun r => match r with Ok a => f a | Err e => Return (Err e) end).

(** [try: p / except ... as e: h e], for the exceptions [catches] selects. *)
Definition try_except {S A} (p : ProgE S A) (catches : exn -> bool)
    (h : exn -> ProgE S A) : ProgE S A :=
  seq p (fun r =>
    match r with
    | Ok a => Return (Ok a)
    | Err e => if catches e then h e else Return (Err e)
    end).

End Effects.
Import Effects.

Notation "x <- c ;; k" := (bind c (fun x => k))
  (at level 61, c at next level, right associativity).

(* ================================================================== *)
(** * src/application/chat_service.py                                  *)
(* ================================================================== *)

Module ChatService.

(** The collaborators of the service: [self._product_repo],
    [self._chat_repo], [self._ai_service] and the clock; the last operation
    is the construction of the AI adapter, which the endpoint performs
    before it calls the service. *)
Inductive chat_op : Type :=
| product_repo_get_all
| chat_repo_get_recent_messages (session_id : str) (count : Z)
| chat_repo_save_message (message : ChatMessage.t)
| ai_service_generate_response (user_message : str) (products : list Product.t)
                               (context : str)
| datetime_now_UTC
| datetime_utcnow
| GeminiService_new.

Definition chat_ret (o : chat_op) : Type :=
  match o with
  | product_repo_get_all => list Product.t
  | chat_repo_get_recent_messages _ _ => list ChatMessage.t
  | chat_repo_save_message _ => ChatMessage.t
  | ai_service_generate_response _ _ _ => str
  | datetime_now_UTC => datetime
  | datetime_utcnow => datetime
  | GeminiService_new => unit
  end.

Definition ChatSig : Sig := {| op := chat_op; ret := chat_ret |}.

Section WithRuntime.
Context `{Runtime}.

Definition process_message (request : ChatMessageRequestDTO.t)
  : ProgE ChatSig ChatMessageResponseDTO.t :=
  let session_id := ChatMessageRequestDTO.session_id request in
  let message := ChatMessageRequestDTO.message request in
  products <- perform (S := ChatSig) product_repo_get_all ;;
  recent <- perform (S := ChatSig) (chat_repo_get_recent_messages session_id 6) ;;
  let context :=
    ChatContext.format_for_prompt (ChatContext.init recent (Some 6)) in
  assistant_text <-
    perform (S := ChatSig) (ai_service_generate_response message products context) ;;
  now <- perform (S := ChatSig) datetime_now_UTC ;;
  user_msg <- lift (ChatMessage.init None session_id (py "user") message now) ;;
  _ <- perform (S := ChatSig) (chat_repo_save_message user_msg) ;;
  utcnow <- perform (S := ChatSig) datetime_utcnow ;;
  assistant_msg <-
    lift (ChatMessage.init None session_id (py "assistant") assistant_text utcnow) ;;
  _ <- perform (S := ChatSig) (chat_repo_save_message assistant_msg) ;;
  now' <- perform (S := ChatSig) datetime_now_UTC ;;
  lift (Ok {| ChatMessageResponseDTO.session_id := session_id;
              ChatMessageResponseDTO.user_message := message;
              ChatMessageResponseDTO.assistant_message := assistant_text;
              ChatMessageResponseDTO.timestamp := now' |}).

End WithRuntime.

(** The two auxiliary methods hand their arguments to the chat repository. *)
Inductive history_op : Type :=
| chat_repo_get_session_history (session_id : str) (limit : option Z)
| chat_repo_delete_session_history (session_id : str).

Definition history_ret (o : history_op) : Type :=
  match o with
  | chat_repo_get_session_history _ _ => list ChatMessage.t
  | chat_repo_delete_session_history _ => Z
  end.

Definition HistorySig : Sig := {| op := history_op; ret := history_ret |}.

Definition get_session_history (session_id : str) (limit : option Z)
  : ProgE HistorySig (list ChatMessage.t) :=
  perform (S := HistorySig) (chat_repo_get_session_history session_id limit).

Definition clear_session_history (session_id : str) : ProgE HistorySig Z :=
  perform (S := HistorySig) (chat_repo_delete_session_history session_id).

End ChatService.

(* ================================================================== *)
(** * src/infrastructure/llm_providers/gemini_service.py               *)
(* ================================================================== *)

Module GeminiService.

(** [genai.GenerativeModel(name)] *)
Record GenerativeModel := { gm_model_name : str }.

(** What [generate_content] returns: an object whose [text] attribute may be
    missing, may hold a value (a string or something else), or may raise
    when read. *)
Inductive pyobj := PyStr (s : str) | PyOther.
Inductive attr := Missing | Value (v : pyobj) | Raises (e : exn).
Record Response := { text : attr }.

(** The provider behind the adapter. *)
Inductive gemini_op : Type :=
| generate_content (model : GenerativeModel) (prompt : str).

Definition GeminiSig : Sig := {| op := gemini_op; ret := fun _ => Response |}.

(** The model identifier a provider call is addressed to. *)
Definition target (o : gemini_op) : str :=
  match o with generate_content model _ => gm_model_name model end.

Record t := {
  model_name : str;
  model : GenerativeModel
}.

Definition set_model (self : t) (m : GenerativeModel) : t :=
  {| model_name := model_name self; model := m |}.

Definition getenv (environ : str -> option str) (key default : str) : str :=
  match environ key with Some v => v | None => default end.

Definition __init__ (environ : str -> option str) (model_name : option str)
  : result t :=
  let api_key := environ (py "GEMINI_API_KEY") in
  if match api_key with None => true | Some k => py_not k end then
    Err (Exn RuntimeError (py "GEMINI_API_KEY no configurada."))
  else
    let name :=
      match model_name with
      | Some n => if py_not n
                  then getenv environ (py "GEMINI_MODEL") (py "gemini-2.5-flash")
                  else n
      | None => getenv environ (py "GEMINI_MODEL") (py "gemini-2.5-flash")
      end in
    Ok {| model_name := name; model := {| gm_model_name := name |} |}.

(** The [context] argument: a [ChatContext] or an already formatted string. *)
Inductive context := CtxObj (c : ChatContext.t) | CtxStr (s : str).

(** The two constants of [_call]. *)
Definition fallback : str := py "gemini-1.5-flash".
Definition PLACEHOLDER : str := py "No pude generar una respuesta en este momento.".

(** [genai.GenerativeModel(fallback)] *)
Definition fallback_model : GenerativeModel := {| gm_model_name := fallback |}.

(** [getattr(resp, "text", <empty string>)]: the default stands in for a
    missing attribute only (an [AttributeError]); any other exception raised
    by the attribute escapes. *)
Definition getattr_text (resp : Response) : result pyobj :=
  match text resp with
  | Missing => Ok (PyStr [])
  | Value v => Ok v
  | Raises e =>
      match exn_class_of e with
      | AttributeError => Ok (PyStr [])
      | _ => Err e
      end
  end.

(** [text.strip() if isinstance(text, str) and text.strip() else PLACEHOLDER] *)
Definition text_or_placeholder (text : pyobj) : str :=
  match text with
  | PyStr s => if negb (py_not (py_strip s)) then py_strip s else PLACEHOLDER
  | PyOther => PLACEHOLDER
  end.

(** One attempt: the provider call and the reading of its text. *)
Definition attempt (r : result Response) : result str :=
  match r with
  | Err e => Err e
  | Ok resp =>
      match getattr_text resp with
      | Ok text => Ok (text_or_placeholder text)
      | Err e => Err e
      end
  end.

Section WithRuntime.
Context `{Runtime}.

Definition format_products_info (products : list Product.t) : str :=
  let lines :=
    List.map (fun p =>
      py "- " ++ Product.name p ++ py " | " ++ Product.brand p
      ++ py " | $" ++ format_2f (Product.price p)
      ++ py " | Stock: " ++ str_of_int (Product.stock p)
      ++ py " | Talla: " ++ Product.size p
      ++ py " | Color: " ++ Product.color p) products in
  match lines with
  | [] => py "- (sin productos)"
  | _ :: _ => py_join NL lines
  end.

Definition _build_prompt (user_message : str) (products : list Product.t)
    (context : context) : str :=
  let history :=
    match context with
    | CtxObj c => ChatContext.format_for_prompt c
    | CtxStr s => py_or s []
    end in
  let products_txt := format_products_info products in
  py "Eres un asistente virtual experto en ventas de zapatos para un e-commerce." ++ NL
  ++ py "Tu objetivo es ayudar a los clientes a encontrar los zapatos perfectos." ++ NL ++ NL
  ++ py "PRODUCTOS DISPONIBLES:" ++ NL ++ products_txt ++ NL ++ NL
  ++ py "INSTRUCCIONES:" ++ NL
  ++ py "- S" ++ [233%N] ++ py " amigable y profesional" ++ NL
  ++ py "- Usa el contexto de la conversaci" ++ [243%N] ++ py "n anterior" ++ NL
  ++ py "- Recomienda productos espec" ++ [237%N] ++ py "ficos cuando sea apropiado" ++ NL
  ++ py "- Menciona precios, tallas y disponibilidad" ++ NL
  ++ py "- Si no tienes informaci" ++ [243%N] ++ py "n, s" ++ [233%N] ++ py " honesto" ++ NL ++ NL
  ++ history ++ NL ++ NL
  ++ py "Usuario: " ++ user_message ++ NL ++ NL ++ py "Asistente:".

(** The test of the [except] branch on [str(e).lower()]. *)
Definition model_unavailable (e : exn) : bool :=
  py_in (py "not found") (py_lower (exn_str e))
  || py_in (py "unsupported") (py_lower (exn_str e)).

(** The inner function [_call]; it may replace [self.model], so the adapter
    after the call is returned next to the outcome. *)
Definition _call (self : t) (prompt : str) : Prog GeminiSig (result str * t) :=
  Call (S := GeminiSig) (generate_content (model self) prompt) (fun r =>
    match attempt r with
    | Ok s => Return (Ok s, self)
    | Err e =>
        if model_unavailable e then
          let self' := set_model self fallback_model in
          Call (S := GeminiSig) (generate_content (model self') prompt) (fun r2 =>
            Return (attempt r2, self'))
        else Return (Err e, self)
    end).

Definition generate_response (user_message : str) (products : list Product.t)
    (context : context) (self : t) : Prog GeminiSig (result str * t) :=
  _call self (_build_prompt user_message products context).

(** Successive calls on one adapter instance. *)
Fixpoint generate_responses (requests : list (str * list Product.t * context))
    (self : t) : Prog GeminiSig (list (result str) * t) :=
  match requests with
  | [] => Return ([], self)
  | (user_message, products, context) :: rest =>
      seq (generate_response user_message products context self) (fun '(r, self1) =>
      seq (generate_responses rest self1) (fun '(rs, self2) =>
      Return (r :: rs, self2)))
  end.

End WithRuntime.

End GeminiService.

(* ================================================================== *)
(** * src/infrastructure/api/main.py: POST /chat                       *)
(* ================================================================== *)

Module Api.

Import ChatService.

Section WithRuntime.
Context `{Runtime}.

Definition is_ChatServiceError (e : exn) : bool :=
  match exn_class_of e with ChatServiceError => true | _ => false end.

(** The endpoint, from the request body on: the framework builds the
    request model (and answers with the validation error when that fails)
    before the body of [chat] runs. *)
Definition chat (session_id message : str)
  : ProgE ChatSig ChatMessageResponseDTO.t :=
  match ChatMessageRequestDTO.init session_id message with
  | Err e => raise e
  | Ok request =>
      _ <- perform (S := ChatSig) GeminiService_new ;;
      try_except (process_message request) is_ChatServiceError
        (fun e => raise (Exn (HTTPException 500) (exn_str e)))
  end.

End WithRuntime.

End Api.

(* ================================================================== *)
(** * tests/test_services.py: the in-memory collaborators              *)
(* ================================================================== *)

Module FakeChatRepo.

(** [self._msgs] *)
Definition t := list ChatMessage.t.

Definition truthy_ids (_msgs : t) : list Z :=
  flat_map (fun m =>
    match ChatMessage.id m with
    | Some i => if i =? 0 then [] else [i]
    | None => []
    end) _msgs.

(** The identifier given to a saved message: one more than the largest of
    the truthy identifiers and 0. *)
Definition next_id (_msgs : t) : Z := fold_right Z.max 0 (truthy_ids _msgs) + 1.

Definition save_message (message : ChatMessage.t) : method t ChatMessage.t :=
  fun _msgs =>
    let message := ChatMessage.set_id message (Some (next_id _msgs)) in
    (Ok message, _msgs ++ [message]).

Definition items (session_id : str) (_msgs : t) : list ChatMessage.t :=
  filter (fun m => str_eqb (ChatMessage.session_id m) session_id) _msgs.

Definition get_recent_messages (session_id : str) (count : Z) (_msgs : t)
  : list ChatMessage.t :=
  py_slice_from (- count) (items session_id _msgs).

(** [items if limit is None else items[-limit:]] *)
Definition get_session_history (session_id : str) (limit : option Z) (_msgs : t)
  : list ChatMessage.t :=
  match limit with
  | None => items session_id _msgs
  | Some l => py_slice_from (- l) (items session_id _msgs)
  end.

Definition delete_session_history (session_id : str) : method t Z :=
  fun _msgs =>
    let before := len _msgs in
    let _msgs' :=
      filter (fun m => negb (str_eqb (ChatMessage.session_id m) session_id)) _msgs in
    (Ok (before - len _msgs'), _msgs').

End FakeChatRepo.

Module InMemory.

Import ChatService.

(** An AI service: any object with a [generate_response] method, with a
    state of its own. *)
Definition responder (A : Type) : Type :=
  str -> list Product.t -> str -> A -> result str * A.

(** [FakeAI] and [FailingAI]. *)
Definition FakeAI : responder unit := fun user_message products context a =>
  (Ok (py "[AI] " ++ user_message ++ py " (" ++ str_of_int (len products)
       ++ py " productos)"), a).

Definition FailingAI : responder unit := fun user_message products context a =>
  (Err (Exn RuntimeError (py "IA ca" ++ [237%N] ++ py "da")), a).

(** The products [FakeProductRepo] starts with. *)
Definition Pegasus : Product.t :=
  {| Product.id := Some 1; Product.name := py "Pegasus"; Product.brand := py "Nike";
     Product.category := py "Running"; Product.size := py "42";
     Product.color := py "Negro"; Product.price := PyFloat float_120;
     Product.stock := 5; Product.description := [] |}.

Definition Ultraboost : Product.t :=
  {| Product.id := Some 2; Product.name := py "Ultraboost"; Product.brand := py "Adidas";
     Product.category := py "Running"; Product.size := py "42";
     Product.color := py "Blanco";
     Product.price := PyFloat (S754_finite false 5277655813324800 (-45));
     Product.stock := 0; Product.description := [] |}.

(** The world a turn runs in: the product list, the message list, the state
    of the AI service and a clock that advances at each reading. *)
Record World (A : Type) := {
  _data : list Product.t;
  _msgs : FakeChatRepo.t;
  ai_state : A;
  clock : Z
}.
Arguments _data {A} w.
Arguments _msgs {A} w.
Arguments ai_state {A} w.
Arguments clock {A} w.

Definition set_msgs {A} (w : World A) (v : FakeChatRepo.t) : World A :=
  {| _data := _data w; _msgs := v; ai_state := ai_state w; clock := clock w |}.

Definition set_ai_state {A} (w : World A) (v : A) : World A :=
  {| _data := _data w; _msgs := _msgs w; ai_state := v; clock := clock w |}.

Definition tick {A} (w : World A) : World A :=
  {| _data := _data w; _msgs := _msgs w; ai_state := ai_state w;
     clock := clock w + 1 |}.

Definition collaborators {A} (ai : responder A) : handler ChatSig (World A) :=
  fun o w =>
    match o as o' return result (chat_ret o') * World A with
    | product_repo_get_all => (Ok (_data w), w)
    | chat_repo_get_recent_messages session_id count =>
        (Ok (FakeChatRepo.get_recent_messages session_id count (_msgs w)), w)
    | chat_repo_save_message message =>
        let '(r, msgs') := FakeChatRepo.save_message message (_msgs w) in
        (r, set_msgs w msgs')
    | ai_service_generate_response user_message products context =>
        let '(r, a') := ai user_message products context (ai_state w) in
        (r, set_ai_state w a')
    | datetime_now_UTC =>
        (Ok {| instant := clock w; tz_aware := true |}, tick w)
    | datetime_utcnow =>
        (Ok {| instant := clock w; tz_aware := false |}, tick w)
    | GeminiService_new => (Ok tt, w)
    end.

(** A runtime for closed examples: every string they lower is ASCII and no
    price is rendered in them, so neither field is consulted. *)
Definition ascii_runtime : Runtime :=
  {| unicode_lower := fun s => s; format_2f := fun _ => [] |}.

(** The in-memory chat repository behind the two auxiliary methods. *)
Definition history_collaborators {A} : handler HistorySig (World A) :=
  fun o w =>
    match o as o' return result (history_ret o') * World A with
    | chat_repo_get_session_history session_id limit =>
        (Ok (FakeChatRepo.get_session_history session_id limit (_msgs w)), w)
    | chat_repo_delete_session_history session_id =>
        let '(r, msgs') := FakeChatRepo.delete_session_history session_id (_msgs w) in
        (r, set_msgs w msgs')
    end.

(** The AI service of main.py: a [GeminiService] instance in front of a
    provider.  The chat service calls its [generate_response] with the
    context already formatted, and the instance keeps what the call did to
    it. *)
Definition gemini_responder `{Runtime} {P : Type}
    (provider : handler GeminiService.GeminiSig P)
  : responder (GeminiService.t * P) :=
  fun user_message products context st =>
    let '(out, self', p', _) :=
      run provider
        (GeminiService.generate_response user_message products
           (GeminiService.CtxStr context) (fst st)) (snd st) in
    (out, (self', p')).

End InMemory.

(* ================================================================== *)
(** * Sample data, after tests/test_entities.py                        *)
(* ================================================================== *)

Module Samples.

Definition at_minute (i : Z) : datetime := {| instant := 60 * i; tz_aware := true |}.

Definition msg (i : Z) (role text : string) : ChatMessage.t :=
  {| ChatMessage.id := Some i; ChatMessage.session_id := py "s";
     ChatMessage.role := py role; ChatMessage.message := py text;
     ChatMessage.timestamp := at_minute i |}.

(** Eight messages [m1] .. [m8], roles alternating from [user]. *)
Definition eight : list ChatMessage.t :=
  [ msg 1 "user" "m1"; msg 2 "assistant" "m2"; msg 3 "user" "m3";
    msg 4 "assistant" "m4"; msg 5 "user" "m5"; msg 6 "assistant" "m6";
    msg 7 "user" "m7"; msg 8 "assistant" "m8" ].

(** Messages whose role is not spelled canonically. *)
Definition odd_roles : list ChatMessage.t :=
  [ msg 1 "User" "a"; msg 2 " ASSISTANT " "b"; msg 3 "Usuario" "c";
    msg 4 "system" "d" ].

(** A world for a turn: the two products of the fake repository, the eight
    messages of session [s], the fake AI, and a clock. *)
Definition world : InMemory.World unit :=
  {| InMemory._data := [InMemory.Pegasus; InMemory.Ultraboost];
     InMemory._msgs := eight; InMemory.ai_state := tt; InMemory.clock := 1000 |}.

Definition hola : ChatMessageRequestDTO.t :=
  {| ChatMessageRequestDTO.session_id := py "s";
     ChatMessageRequestDTO.message := py "hola" |}.

(** A provider that answers from a script, one entry per call. *)
Definition scripted
  : handler GeminiService.GeminiSig (list (result GeminiService.Response)) :=
  fun _ script =>
    match script with
    | r :: rest => (r, rest)
    | [] => (Err (Exn RuntimeError (py "script exhausted")), [])
    end.

Definition said (s : string) : result GeminiService.Response :=
  Ok {| GeminiService.text := GeminiService.Value (GeminiService.PyStr (py s)) |}.

Definition model_not_found : exn :=
  Exn (OtherError (py "NotFound"))
      (py "404 models/gemini-2.5-flash is not found for API version v1beta").

Definition quota_exceeded : exn :=
  Exn (OtherError (py "ResourceExhausted")) (py "429 quota exceeded").

(** An adapter built with its default model name. *)
Definition adapter : GeminiService.t :=
  {| GeminiService.model_name := py "gemini-2.5-flash";
     GeminiService.model :=
       {| GeminiService.gm_model_name := py "gemini-2.5-flash" |} |}.

End Samples.

(* ================================================================== *)
(** * src/domain/exceptions.py                                         *)
(* ================================================================== *)

Module Exceptions.

Definition ProductNotFoundError_class : exn_class :=
  OtherError (py "ProductNotFoundError").

Definition InvalidProductDataError_class : exn_class :=
  OtherError (py "InvalidProductDataError").

Definition ProductNotFoundError (product_id : option Z) : exn :=
  Exn ProductNotFoundError_class
    match product_id with
    | Some i => py "Producto con ID " ++ str_of_int i ++ py " no encontrado"
    | None => py "Producto no encontrado"
    end.

Definition InvalidProductDataError (message : option str) : exn :=
  Exn InvalidProductDataError_class
    (with_default (py "Datos de producto inv" ++ [225%N] ++ py "lidos") message).

Definition is_ValueError (e : exn) : bool :=
  match exn_class_of e with ValueError => true | _ => false end.

End Exceptions.

(* ================================================================== *)
(** * src/application/dtos.py: ProductDTO                              *)
(* ================================================================== *)

Module ProductDTO.

(** The fields after validation: [price] is a float, [stock] an int. *)
Record t := {
  id : option Z;
  name : str;
  brand : str;
  category : str;
  size : str;
  color : str;
  price : spec_float;
  stock : Z;
  description : str
}.

Definition price_must_be_positive (v : spec_float) : result spec_float :=
  if SFleb v (S754_zero false) then
    Err (Exn ValueError (py "El precio debe ser mayor a 0."))
  else Ok v.

Definition stock_must_be_non_negative (v : Z) : result Z :=
  if v <? 0 then
    Err (Exn ValueError (py "El stock no puede ser negativo."))
  else Ok v.

(** Building the model from values of the declared types: the two
    validators run in field order and every failure is reported in one
    [ValidationError] (its text abbreviated as for the chat request). *)
Definition init (id : option Z) (name brand category size color : str)
    (price : spec_float) (stock : Z) (description : str) : result t :=
  match price_must_be_positive price, stock_must_be_non_negative stock with
  | Ok p, Ok s =>
      Ok {| id := id; name := name; brand := brand; category := category;
            size := size; color := color; price := p; stock := s;
            description := description |}
  | rp, rs =>
      Err (Exn ValidationError
             (py_join NL (ChatMessageRequestDTO.errors_of rp
                          ++ ChatMessageRequestDTO.errors_of rs)))
  end.

End ProductDTO.

(* ================================================================== *)
(** * src/application/product_service.py                               *)
(* ================================================================== *)

Module ProductService.

(** [self._repo]: the operations of [IProductRepository]. *)
Inductive repo_op : Type :=
| repo_get_all
| repo_get_by_id (product_id : Z)
| repo_get_by_brand (brand : str)
| repo_get_by_category (category : str)
| repo_save (product : Product.t)
| repo_delete (product_id : Z).

Definition repo_ret (o : repo_op) : Type :=
  match o with
  | repo_get_all => list Product.t
  | repo_get_by_id _ => option Product.t
  | repo_get_by_brand _ => list Product.t
  | repo_get_by_category _ => list Product.t
  | repo_save _ => Product.t
  | repo_delete _ => bool
  end.

Definition RepoSig : Sig := {| op := repo_op; ret := repo_ret |}.

Definition get_all_products : ProgE RepoSig (list Product.t) :=
  perform (S := RepoSig) repo_get_all.

Definition get_product_by_id (product_id : Z) : ProgE RepoSig Product.t :=
  prod <- perform (S := RepoSig) (repo_get_by_id product_id) ;;
  match prod with
  | None => raise (Exceptions.ProductNotFoundError (Some product_id))
  | Some p => lift (Ok p)
  end.

(** [try: Product(...)  except ValueError as e: raise
    InvalidProductDataError(str(e))] *)
Definition entity_of_dto (id : option Z) (product_dto : ProductDTO.t)
  : result Product.t :=
  match
    Product.init id (ProductDTO.name product_dto) (ProductDTO.brand product_dto)
      (ProductDTO.category product_dto) (ProductDTO.size product_dto)
      (ProductDTO.color product_dto) (PyFloat (ProductDTO.price product_dto))
      (ProductDTO.stock product_dto) (Some (ProductDTO.description product_dto))
  with
  | Ok prod => Ok prod
  | Err e =>
      if Exceptions.is_ValueError e
      then Err (Exceptions.InvalidProductDataError (Some (exn_str e)))
      else Err e
  end.

Definition create_product (product_dto : ProductDTO.t) : ProgE RepoSig Product.t :=
  prod <- lift (entity_of_dto None product_dto) ;;
  perform (S := RepoSig) (repo_save prod).

Definition update_product (product_id : Z) (product_dto : ProductDTO.t)
  : ProgE RepoSig Product.t :=
  existing <- perform (S := RepoSig) (repo_get_by_id product_id) ;;
  match existing with
  | None => raise (Exceptions.ProductNotFoundError (Some product_id))
  | Some _ =>
      updated <- lift (entity_of_dto (Some product_id) product_dto) ;;
      perform (S := RepoSig) (repo_save updated)
  end.

Definition delete_product (product_id : Z) : ProgE RepoSig bool :=
  existed <- perform (S := RepoSig) (repo_delete product_id) ;;
  if negb existed
  then raise (Exceptions.ProductNotFoundError (Some product_id))
  else lift (Ok true).

Definition get_available_products : ProgE RepoSig (list Product.t) :=
  all <- perform (S := RepoSig) repo_get_all ;;
  lift (Ok (filter Product.is_available all)).

(** The filters of [search_products], for values of the documented kinds:
    strings for [brand], [category], [size] and [color], floats for
    [min_price] and [max_price]; a key that is missing is [None]. *)
Record filters := {
  f_brand : option str;
  f_category : option str;
  f_size : option str;
  f_color : option str;
  f_min_price : option spec_float;
  f_max_price : option spec_float
}.

(** [filters or {}] *)
Definition no_filters : filters :=
  {| f_brand := None; f_category := None; f_size := None; f_color := None;
     f_min_price := None; f_max_price := None |}.

(** Truthiness of [filters.get(key)] for a string key. *)
Definition given (v : option str) : bool :=
  match v with Some s => negb (py_not s) | None => false end.

Definition id_eqb (a b : option Z) : bool :=
  match a, b with
  | Some x, Some y => x =? y
  | None, None => true
  | _, _ => false
  end.

(** An int against a float, compared exactly as the interpreter does. *)
Definition int_compare_float (z : Z) (f : spec_float) : option comparison :=
  match f with
  | S754_nan => None
  | S754_infinity s => Some (if s then Gt else Lt)
  | S754_zero _ => Some (z ?= 0)
  | S754_finite s m e =>
      let v := if s then Z.neg m else Z.pos m in
      if 0 <=? e then Some (z ?= v * 2 ^ e) else Some (z * 2 ^ (- e) ?= v)
  end.

(** [p.price < x] and [p.price > x] for a float [x]. *)
Definition price_lt (price : num) (x : spec_float) : bool :=
  match price with
  | PyFloat a => SFltb a x
  | PyInt z => match int_compare_float z x with Some Lt => true | _ => false end
  end.

Definition price_gt (price : num) (x : spec_float) : bool :=
  match price with
  | PyFloat a => SFltb x a
  | PyInt z => match int_compare_float z x with Some Gt => true | _ => false end
  end.

(** The inner function [ok]. *)
Definition ok (f : filters) (p : Product.t) : bool :=
  if given (f_size f)
     && negb (str_eqb (Product.size p) (with_default [] (f_size f))) then false
  else if given (f_color f)
     && negb (str_eqb (Product.color p) (with_default [] (f_color f))) then false
  else if match f_min_price f with
          | Some x => price_lt (Product.price p) x
          | None => false
          end then false
  else if match f_max_price f with
          | Some x => price_gt (Product.price p) x
          | None => false
          end then false
  else true.

Definition search_products (filters : option filters)
  : ProgE RepoSig (list Product.t) :=
  let filters := with_default no_filters filters in
  let brand := f_brand filters in
  let category := f_category filters in
  result <-
    (if given brand && given category then
       by_brand <- perform (S := RepoSig) (repo_get_by_brand (with_default [] brand)) ;;
       by_category <-
         perform (S := RepoSig) (repo_get_by_category (with_default [] category)) ;;
       lift (Ok (filter (fun p =>
                   existsb (fun q => id_eqb (Product.id q) (Product.id p)) by_brand)
                 by_category))
     else if given brand then
       perform (S := RepoSig) (repo_get_by_brand (with_default [] brand))
     else if given category then
       perform (S := RepoSig) (repo_get_by_category (with_default [] category))
     else perform (S := RepoSig) repo_get_all) ;;
  lift (Ok (filter (ok filters) result)).

End ProductService.

(* ================================================================== *)
(** * tests/test_services.py: FakeProductRepo                          *)
(* ================================================================== *)

Module FakeProductRepo.

(** [self._data] *)
Definition t := list Product.t.

Definition id_is (product_id : Z) (p : Product.t) : bool :=
  match Product.id p with Some i => i =? product_id | None => false end.

Definition get_all (_data : t) : list Product.t := _data.

(** [next((p for p in self._data if p.id == product_id), None)] *)
Definition get_by_id (product_id : Z) (_data : t) : option Product.t :=
  find (id_is product_id) _data.

Definition get_by_brand (brand : str) (_data : t) : list Product.t :=
  filter (fun p => str_eqb (Product.brand p) brand) _data.

Definition get_by_category (category : str) (_data : t) : list Product.t :=
  filter (fun p => str_eqb (Product.category p) category) _data.

(** [max(p.id for p in self._data) + 1], as the interpreter runs it: the
    first identifier is the running maximum, each later one is compared
    with it by [>], and 1 is added at the end.  An empty list has no
    maximum, and [None] can be neither compared nor incremented. *)
Definition type_name (v : option Z) : str :=
  match v with Some _ => py "int" | None => py "NoneType" end.

Fixpoint max_from (maxitem : option Z) (rest : list (option Z))
  : result (option Z) :=
  match rest with
  | [] => Ok maxitem
  | item :: rest' =>
      match item, maxitem with
      | Some a, Some b => max_from (if b <? a then item else maxitem) rest'
      | _, _ =>
          Err (Exn TypeError
                 (py "'>' not supported between instances of '" ++ type_name item
                  ++ py "' and '" ++ type_name maxitem ++ py "'"))
      end
  end.

Definition next_id (_data : t) : result Z :=
  match List.map Product.id _data with
  | [] => Err (Exn ValueError (py "max() iterable argument is empty"))
  | first :: rest =>
      match max_from first rest with
      | Err e => Err e
      | Ok (Some m) => Ok (m + 1)
      | Ok None =>
          Err (Exn TypeError
                 (py "unsupported operand type(s) for +: 'NoneType' and 'int'"))
      end
  end.

(** [self._data[i] = product] at the first [i] whose product has the
    identifier; [None] when no product has it. *)
Fixpoint replace_first (product_id : Z) (product : Product.t) (_data : t)
  : option t :=
  match _data with
  | [] => None
  | p :: rest =>
      if id_is product_id p then Some (product :: rest)
      else match replace_first product_id product rest with
           | Some rest' => Some (p :: rest')
           | None => None
           end
  end.

Definition set_id (p : Product.t) (v : option Z) : Product.t :=
  {| Product.id := v; Product.name := Product.name p;
     Product.brand := Product.brand p; Product.category := Product.category p;
     Product.size := Product.size p; Product.color := Product.color p;
     Product.price := Product.price p; Product.stock := Product.stock p;
     Product.description := Product.description p |}.

Definition save (product : Product.t) : method t Product.t := fun _data =>
  match Product.id product with
  | None =>
      match next_id _data with
      | Err e => (Err e, _data)
      | Ok i =>
          let product := set_id product (Some i) in
          (Ok product, _data ++ [product])
      end
  | Some i =>
      match replace_first i product _data with
      | Some _data' => (Ok product, _data')
      | None => (Ok product, _data ++ [product])
      end
  end.

Definition delete (product_id : Z) : method t bool := fun _data =>
  let before := len _data in
  let _data' := filter (fun p => negb (id_is product_id p)) _data in
  (Ok (len _data' <? before), _data').

Definition repo : handler ProductService.RepoSig t :=
  fun o _data =>
    match o as o' return result (ProductService.repo_ret o') * t with
    | ProductService.repo_get_all => (Ok (get_all _data), _data)
    | ProductService.repo_get_by_id product_id =>
        (Ok (get_by_id product_id _data), _data)
    | ProductService.repo_get_by_brand brand => (Ok (get_by_brand brand _data), _data)
    | ProductService.repo_get_by_category category =>
        (Ok (get_by_category category _data), _data)
    | ProductService.repo_save product => save product _data
    | ProductService.repo_delete product_id => delete product_id _data
    end.

End FakeProductRepo.

(* ================================================================== *)
(** * src/infrastructure/repositories: the row-entity converters       *)
(* ================================================================== *)

Module SQLProductRepository.

(** A [ProductModel] row object: [id] is [None] until the row is inserted,
    and [description] may be [None]. *)
Record ProductModel := {
  id : option Z;
  name : str;
  brand : str;
  category : str;
  size : str;
  color : str;
  price : num;
  stock : Z;
  description : option str
}.

Definition _model_to_entity (m : ProductModel) : result Product.t :=
  Product.init (id m) (name m) (brand m) (category m) (size m) (color m)
    (price m) (stock m)
    (Some (match description m with Some d => py_or d [] | None => [] end)).

Definition _entity_to_model (e : Product.t) : ProductModel :=
  {| id := Product.id e; name := Product.name e; brand := Product.brand e;
     category := Product.category e; size := Product.size e;
     color := Product.color e; price := Product.price e;
     stock := Product.stock e;
     description := Some (py_or (Product.description e) []) |}.

End SQLProductRepository.

Module SQLChatRepository.

Record ChatMemoryModel := {
  id : option Z;
  session_id : str;
  role : str;
  message : str;
  timestamp : datetime
}.

Definition _model_to_entity (m : ChatMemoryModel) : result ChatMessage.t :=
  ChatMessage.init (id m) (session_id m) (role m) (message m) (timestamp m).

Definition _entity_to_model (e : ChatMessage.t) : ChatMemoryModel :=
  {| id := ChatMessage.id e; session_id := ChatMessage.session_id e;
     role := ChatMessage.role e; message := ChatMessage.message e;
     timestamp := ChatMessage.timestamp e |}.

End SQLChatRepository.

(* ================================================================== *)
(** * More sample data                                                 *)
(* ================================================================== *)

Module MoreSamples.

(** A valid product description, as the tests create it. *)
Definition VaporFly : ProductDTO.t :=
  {| ProductDTO.id := None; ProductDTO.name := py "VaporFly";
     ProductDTO.brand := py "Nike"; ProductDTO.category := py "Running";
     ProductDTO.size := py "42"; ProductDTO.color := py "Azul";
     ProductDTO.price := S754_finite false 7036874417766400 (-45);
     ProductDTO.stock := 3; ProductDTO.description := py "Ligera" |}.

(** The same with a blank name. *)
Definition nameless : ProductDTO.t :=
  {| ProductDTO.id := None; ProductDTO.name := py "  ";
     ProductDTO.brand := py "Nike"; ProductDTO.category := py "Running";
     ProductDTO.size := py "42"; ProductDTO.color := py "Azul";
     ProductDTO.price := float_120;
     ProductDTO.stock := 1; ProductDTO.description := [] |}.

Definition catalog : FakeProductRepo.t := [InMemory.Pegasus; InMemory.Ultraboost].

(** A store with two sessions. *)
Definition other (i : Z) (role text : string) : ChatMessage.t :=
  {| ChatMessage.id := Some i; ChatMessage.session_id := py "t";
     ChatMessage.role := py role; ChatMessage.message := py text;
     ChatMessage.timestamp := Samples.at_minute i |}.

Definition mixed : FakeChatRepo.t :=
  [ Samples.msg 1 "user" "m1"; other 2 "user" "n1";
    Samples.msg 3 "assistant" "m2"; other 4 "assistant" "n2";
    Samples.msg 5 "user" "m3" ].

Definition mixed_world : InMemory.World unit :=
  {| InMemory._data := catalog; InMemory._msgs := mixed;
     InMemory.ai_state := tt; InMemory.clock := 1000 |}.

(** An AI service that answers with spaces only. *)
Definition BlankAI : InMemory.responder unit := fun _ _ _ a => (Ok (py "   "), a).

(** A process environment with the API key only, and one that also names a
    model. *)
Definition env_key_only (key : str) : option str :=
  if str_eqb key (py "GEMINI_API_KEY") then Some (py "k") else None.

Definition env_with_model (key : str) : option str :=
  if str_eqb key (py "GEMINI_API_KEY") then Some (py "k")
  else if str_eqb key (py "GEMINI_MODEL") then Some (py "gemini-2.0-pro")
  else None.

End MoreSamples.

(* ================================================================== *)
(** * Sequences of calls                                               *)
(* ================================================================== *)

Module Scenarios.

(** Stock operations applied one after the other to one product; one that
    raises leaves the product as it is and the next one runs. *)
Inductive stock_op := Reduce (quantity : Z) | Increase (quantity : Z).

Definition apply_op (p : Product.t) (o : stock_op) : Product.t :=
  match o with
  | Reduce quantity => snd (Product.reduce_stock quantity p)
  | Increase quantity => snd (Product.increase_stock quantity p)
  end.

Definition apply_ops (ops : list stock_op) (p : Product.t) : Product.t :=
  fold_left apply_op ops p.

End Scenarios.

(* ================================================================== *)
(** * Properties                                                       *)
(* ================================================================== *)

(** ** Strings and slices *)

Lemma str_eqb_eq (a b : str) : str_eqb a b = true <-> a = b.
Proof.
  revert b; induction a as [|x a IH]; intros [|y b]; simpl; split;
    try congruence; try reflexivity.
  - intros E. apply andb_true_iff in E as [E1 E2].
    apply N.eqb_eq in E1. apply IH in E2. congruence.
  - intros E. inversion E; subst. apply andb_true_iff. split.
    + apply N.eqb_refl.
    + now apply IH.
Qed.

Lemma str_eqb_neq (a b : str) : a <> b -> str_eqb a b = false.
Proof.
  intros N. destruct (str_eqb a b) eqn:E; [|reflexivity].
  apply str_eqb_eq in E. contradiction.
Qed.

Lemma py_or_empty (s : str) : py_or s [] = s.
Proof. now destruct s. Qed.

Lemma len_nonneg {A} (l : list A) : 0 <= len l.
Proof. unfold len. lia. Qed.

(** A slice from a negative start [-k], [k >= 1], drops all but the last
    [min (len l) k] elements. *)
Lemma py_slice_from_neg {A} (k : Z) (l : list A) :
  1 <= k ->
  py_slice_from (- k) l = skipn (Z.to_nat (len l - Z.min (len l) k)) l.
Proof.
  intros Hk. unfold py_slice_from, len.
  destruct (- k <? 0) eqn:E; [|apply Z.ltb_ge in E; lia].
  f_equal. lia.
Qed.

Lemma py_slice_from_zero {A} (l : list A) : py_slice_from (- 0) l = l.
Proof.
  unfold py_slice_from. cbn [Z.opp Z.ltb Z.compare].
  rewrite Z.min_l by lia. reflexivity.
Qed.

Lemma len_skipn {A} (n : nat) (l : list A) :
  len (skipn n l) = len l - Z.min (len l) (Z.of_nat n).
Proof. unfold len. rewrite length_skipn. lia. Qed.

(** The loop of [format_for_prompt] appends one line per message, in order. *)
Lemma lines_loop {A} (f : A -> str) (l : list A) (acc : list str) :
  fold_left (fun lines m => lines ++ [f m]) l acc = acc ++ List.map f l.
Proof.
  revert acc; induction l as [|m l IH]; intros acc; simpl.
  - now rewrite app_nil_r.
  - rewrite IH, <- app_assoc. reflexivity.
Qed.

(** ** ChatContext *)

Section ChatContextFacts.
Context `{Runtime}.

(** The transcript is built from the same window [get_recent_messages]
    returns, whatever the bound. *)
Lemma msgs_recent (ctx : ChatContext.t) :
  ChatContext.msgs ctx = ChatContext.get_recent_messages ctx.
Proof.
  unfold ChatContext.msgs, ChatContext.get_recent_messages.
  destruct (ChatContext.max_messages ctx =? 0) eqn:E; simpl; [|reflexivity].
  apply Z.eqb_eq in E. rewrite E. symmetry. apply py_slice_from_zero.
Qed.

Lemma format_for_prompt_lines (ctx : ChatContext.t) :
  ChatContext.format_for_prompt ctx
  = py_join NL (List.map ChatContext.line (ChatContext.get_recent_messages ctx)).
Proof.
  unfold ChatContext.format_for_prompt. rewrite lines_loop, msgs_recent.
  reflexivity.
Qed.

Lemma line_of_key (m : ChatMessage.t) (key : str) :
  ChatContext.raw_role m = key ->
  ChatContext.line m
  = dict_get ChatContext.role_map key (py "user") ++ py ": " ++ ChatMessage.message m.
Proof. intros <-. reflexivity. Qed.

Lemma line_unknown (m : ChatMessage.t) :
  ChatContext.raw_role m <> py "user" ->
  ChatContext.raw_role m <> py "assistant" ->
  ChatContext.raw_role m <> py "usuario" ->
  ChatContext.raw_role m <> py "asistente" ->
  ChatContext.line m = py "user" ++ py ": " ++ ChatMessage.message m.
Proof.
  intros N1 N2 N3 N4. unfold ChatContext.line, ChatContext.role_map.
  cbn [dict_get].
  rewrite (str_eqb_neq _ _ N1), (str_eqb_neq _ _ N2),
          (str_eqb_neq _ _ N3), (str_eqb_neq _ _ N4).
  reflexivity.
Qed.

End ChatContextFacts.

(** The eight-message test: with bound 6 the transcript runs from [m3] to
    [m8]. *)
Example format_eight `{Runtime} :
  ChatContext.format_for_prompt (ChatContext.init Samples.eight (Some 6))
  = py "user: m3" ++ NL ++ py "assistant: m4" ++ NL ++ py "user: m5" ++ NL
    ++ py "assistant: m6" ++ NL ++ py "user: m7" ++ NL ++ py "assistant: m8".
Proof. vm_compute. reflexivity. Qed.

(** The window for a bound of at least one. *)
Lemma recent_window (messages : list ChatMessage.t) (K : Z) :
  1 <= K ->
  let recent :=
    ChatContext.get_recent_messages
      {| ChatContext.messages := messages; ChatContext.max_messages := K |} in
  len recent = Z.min (len messages) K
  /\ recent = skipn (Z.to_nat (len messages - Z.min (len messages) K)) messages.
Proof.
  intros HK recent. subst recent. unfold ChatContext.get_recent_messages. simpl.
  rewrite py_slice_from_neg by assumption.
  pose proof (len_nonneg messages) as HN.
  split; [|reflexivity].
  rewrite len_skipn. lia.
Qed.

(** C3, as amended: for every list of messages of length N and every window
    bound K >= 1, [get_recent_messages] returns exactly min(N, K) messages,
    and they are the last min(N, K) elements of the list in their original
    order (the list is some older messages followed by the result). *)
Theorem get_recent_messages_last_min (messages : list ChatMessage.t) (K : Z) :
  1 <= K ->
  let recent :=
    ChatContext.get_recent_messages
      {| ChatContext.messages := messages; ChatContext.max_messages := K |} in
  len recent = Z.min (len messages) K
  /\ recent = skipn (Z.to_nat (len messages - Z.min (len messages) K)) messages
  /\ exists older, messages = older ++ recent.
Proof.
  intros HK recent.
  destruct (recent_window messages K HK) as [Hlen Hrec]. fold recent in Hlen, Hrec.
  split; [exact Hlen|]. split; [exact Hrec|].
  exists (firstn (Z.to_nat (len messages - Z.min (len messages) K)) messages).
  rewrite Hrec. symmetry. apply firstn_skipn.
Qed.

Lemma get_recent_messages_last_min_witness :
  1 <= 6
  /\ len (ChatContext.get_recent_messages
            {| ChatContext.messages := Samples.eight;
               ChatContext.max_messages := 6 |}) = Z.min (len Samples.eight) 6.
Proof.
  split; [lia|].
  apply (get_recent_messages_last_min Samples.eight 6). lia.
Defined.

(** C3 as stated fails at K = 0: the slice [messages[-0:]] is the whole
    list, so one message comes back where min(1, 0) = 0 were promised. *)
Lemma get_recent_messages_zero_bound_counterexample :
  let ctx := {| ChatContext.messages := [Samples.msg 1 "user" "m1"];
                ChatContext.max_messages := 0 |} in
  0 <= ChatContext.max_messages ctx
  /\ ChatContext.get_recent_messages ctx = [Samples.msg 1 "user" "m1"]
  /\ len (ChatContext.get_recent_messages ctx)
     <> Z.min (len (ChatContext.messages ctx)) (ChatContext.max_messages ctx).
Proof.
  simpl. split; [lia|]. split; [reflexivity|]. vm_compute. discriminate.
Qed.

(** C5, as amended: when the window bound is zero, [get_recent_messages]
    returns the entire list and [format_for_prompt] renders every message.
    A bound left unset is the default, six, and the window is then the last
    min(N, 6) messages. *)
Theorem zero_bound_is_unbounded `{Runtime} (messages : list ChatMessage.t) :
  (let ctx := ChatContext.init messages (Some 0) in
   ChatContext.get_recent_messages ctx = messages
   /\ ChatContext.format_for_prompt ctx
      = py_join NL (List.map ChatContext.line messages))
  /\ (let ctx := ChatContext.init messages None in
      ChatContext.max_messages ctx = 6
      /\ len (ChatContext.get_recent_messages ctx) = Z.min (len messages) 6).
Proof.
  split; cbn zeta.
  - split.
    + unfold ChatContext.get_recent_messages. simpl. apply py_slice_from_zero.
    + rewrite format_for_prompt_lines.
      unfold ChatContext.get_recent_messages. simpl.
      now rewrite py_slice_from_zero.
  - split; [reflexivity|].
    apply (recent_window messages 6). lia.
Qed.

(** C5 as stated fails for an unset bound: the dataclass default is 6, so of
    eight messages only the last six come back. *)
Lemma unset_bound_counterexample :
  ChatContext.max_messages (ChatContext.init Samples.eight None) = 6
  /\ len (ChatContext.get_recent_messages (ChatContext.init Samples.eight None)) = 6
  /\ ChatContext.get_recent_messages (ChatContext.init Samples.eight None)
     <> Samples.eight.
Proof.
  split; [reflexivity|]. split; [reflexivity|]. vm_compute. discriminate.
Qed.

Section RoleNormalization.
Context `{Runtime}.

Lemma raw_role_unfold (m : ChatMessage.t) :
  ChatContext.raw_role m = py_lower (py_strip (ChatMessage.role m)).
Proof. unfold ChatContext.raw_role. now rewrite py_or_empty. Qed.

Lemma line_user (m : ChatMessage.t) :
  ChatContext.raw_role m = py "user" \/ ChatContext.raw_role m = py "usuario" ->
  ChatContext.line m = py "user" ++ py ": " ++ ChatMessage.message m.
Proof. intros [E|E]; rewrite (line_of_key m _ E); reflexivity. Qed.

Lemma line_assistant (m : ChatMessage.t) :
  ChatContext.raw_role m = py "assistant" \/ ChatContext.raw_role m = py "asistente" ->
  ChatContext.line m = py "assistant" ++ py ": " ++ ChatMessage.message m.
Proof. intros [E|E]; rewrite (line_of_key m _ E); reflexivity. Qed.

Lemma format_for_prompt_nil (K : Z) :
  ChatContext.format_for_prompt
    {| ChatContext.messages := []; ChatContext.max_messages := K |} = [].
Proof.
  rewrite format_for_prompt_lines. unfold ChatContext.get_recent_messages.
  unfold py_slice_from. cbn [ChatContext.messages]. now rewrite skipn_nil.
Qed.

(** The line of a message, from the role it stores: [assistant] for a role
    that strips and lowers to [assistant] or [asistente], [user] for every
    other role. *)
Lemma line_from_stored_role (m : ChatMessage.t) :
  ChatContext.line m
  = (if str_eqb (py_lower (py_strip (ChatMessage.role m))) (py "assistant")
        || str_eqb (py_lower (py_strip (ChatMessage.role m))) (py "asistente")
     then py "assistant" else py "user")
    ++ py ": " ++ ChatMessage.message m.
Proof.
  unfold ChatContext.line. rewrite raw_role_unfold.
  set (r := py_lower (py_strip (ChatMessage.role m))).
  unfold ChatContext.role_map. cbn [dict_get].
  destruct (str_eqb r (py "user")) eqn:E1.
  - apply str_eqb_eq in E1. rewrite E1. reflexivity.
  - destruct (str_eqb r (py "assistant")) eqn:E2; [reflexivity|].
    destruct (str_eqb r (py "usuario")) eqn:E3.
    + apply str_eqb_eq in E3. rewrite E3. reflexivity.
    + destruct (str_eqb r (py "asistente")); reflexivity.
Qed.

(** C4: [format_for_prompt] returns the lines of the windowed messages, one
    per message and in input order, joined by newlines; each line is the
    normalized role, then [": "], then the message text.  The normalized
    role is read off the role the message stores, stripped and lowered:
    [user] for [user] and [usuario], [assistant] for [assistant] and
    [asistente], and [user] for any role that is none of the four.  An
    empty list of messages gives the empty string. *)
Theorem format_for_prompt_transcript (ctx : ChatContext.t) :
  let window := ChatContext.get_recent_messages ctx in
  let stored_role := fun m => py_lower (py_strip (ChatMessage.role m)) in
  let rendered := fun m =>
    (if str_eqb (stored_role m) (py "assistant")
        || str_eqb (stored_role m) (py "asistente")
     then py "assistant" else py "user")
    ++ py ": " ++ ChatMessage.message m in
  ChatContext.format_for_prompt ctx = py_join NL (List.map rendered window)
  /\ List.length (List.map rendered window) = List.length window
  /\ (forall i m, nth_error window i = Some m ->
        nth_error (List.map rendered window) i = Some (rendered m))
  /\ (forall m,
        stored_role m = py "user" \/ stored_role m = py "usuario" ->
        rendered m = py "user" ++ py ": " ++ ChatMessage.message m)
  /\ (forall m,
        stored_role m = py "assistant" \/ stored_role m = py "asistente" ->
        rendered m = py "assistant" ++ py ": " ++ ChatMessage.message m)
  /\ (forall m,
        stored_role m <> py "user" -> stored_role m <> py "assistant" ->
        stored_role m <> py "usuario" -> stored_role m <> py "asistente" ->
        rendered m = py "user" ++ py ": " ++ ChatMessage.message m)
  /\ (ChatContext.messages ctx = [] -> ChatContext.format_for_prompt ctx = []).
Proof.
  intros window stored_role rendered.
  split.
  { rewrite format_for_prompt_lines. fold window. f_equal.
    apply map_ext. intros m. apply line_from_stored_role. }
  split; [apply length_map|].
  split; [intros i m Hi; now apply map_nth_error|].
  split.
  { intros m [E|E]; unfold rendered; rewrite E; reflexivity. }
  split.
  { intros m [E|E]; unfold rendered; rewrite E; reflexivity. }
  split.
  { intros m _ N2 _ N4. unfold rendered.
    now rewrite (str_eqb_neq _ _ N2), (str_eqb_neq _ _ N4). }
  intros E. destruct ctx as [ms K]. simpl in E. subst ms.
  apply format_for_prompt_nil.
Qed.

(** C10: role normalization ignores case and surrounding whitespace.  A
    message whose role, stripped and lowered, is [user] or [usuario] is
    rendered with the role [user], and one whose role then is [assistant]
    or [asistente] with the role [assistant]; so the roles [User],
    [ ASSISTANT ] and [Usuario] are rendered canonically, whatever the
    text. *)
Theorem role_normalization_insensitive (m : ChatMessage.t) :
  (py_lower (py_strip (ChatMessage.role m)) = py "user"
   \/ py_lower (py_strip (ChatMessage.role m)) = py "usuario" ->
   ChatContext.line m = py "user: " ++ ChatMessage.message m)
  /\ (py_lower (py_strip (ChatMessage.role m)) = py "assistant"
      \/ py_lower (py_strip (ChatMessage.role m)) = py "asistente" ->
      ChatContext.line m = py "assistant: " ++ ChatMessage.message m)
  /\ (ChatMessage.role m = py "User" ->
      ChatContext.line m = py "user: " ++ ChatMessage.message m)
  /\ (ChatMessage.role m = py " ASSISTANT " ->
      ChatContext.line m = py "assistant: " ++ ChatMessage.message m)
  /\ (ChatMessage.role m = py "Usuario" ->
      ChatContext.line m = py "user: " ++ ChatMessage.message m).
Proof.
  rewrite <- raw_role_unfold.
  split; [intros E; now rewrite (line_user m E)|].
  split; [intros E; now rewrite (line_assistant m E)|].
  split; [|split]; intros E.
  - rewrite (line_user m); [reflexivity|].
    rewrite raw_role_unfold, E. left. vm_compute. reflexivity.
  - rewrite (line_assistant m); [reflexivity|].
    rewrite raw_role_unfold, E. left. vm_compute. reflexivity.
  - rewrite (line_user m); [reflexivity|].
    rewrite raw_role_unfold, E. right. vm_compute. reflexivity.
Qed.

End RoleNormalization.

Lemma format_for_prompt_transcript_witness :
  let rt := InMemory.ascii_runtime in
  let ctx := ChatContext.init Samples.odd_roles None in
  let m2 := Samples.msg 2 " ASSISTANT " "b" in
  let m4 := Samples.msg 4 "system" "d" in
  (py_lower (py_strip (ChatMessage.role m2)) = py "assistant"
   \/ py_lower (py_strip (ChatMessage.role m2)) = py "asistente")
  /\ (py_lower (py_strip (ChatMessage.role m4)) <> py "user"
      /\ py_lower (py_strip (ChatMessage.role m4)) <> py "assistant"
      /\ py_lower (py_strip (ChatMessage.role m4)) <> py "usuario"
      /\ py_lower (py_strip (ChatMessage.role m4)) <> py "asistente")
  /\ ChatContext.format_for_prompt ctx
     = py "user: a" ++ NL ++ py "assistant: b" ++ NL ++ py "user: c" ++ NL
       ++ py "user: d"
  /\ ChatContext.format_for_prompt (ChatContext.init Samples.eight (Some 2))
     = py "user: m7" ++ NL ++ py "assistant: m8".
Proof.
  intros rt ctx m2 m4.
  assert (H2 : py_lower (py_strip (ChatMessage.role m2)) = py "assistant"
               \/ py_lower (py_strip (ChatMessage.role m2)) = py "asistente")
    by (left; vm_compute; reflexivity).
  assert (H4 : py_lower (py_strip (ChatMessage.role m4)) <> py "user"
               /\ py_lower (py_strip (ChatMessage.role m4)) <> py "assistant"
               /\ py_lower (py_strip (ChatMessage.role m4)) <> py "usuario"
               /\ py_lower (py_strip (ChatMessage.role m4)) <> py "asistente")
    by (repeat split; vm_compute; discriminate).
  split; [exact H2|]. split; [exact H4|].
  destruct (format_for_prompt_transcript ctx) as (Hfmt & _ & _ & Hu & Ha & Hx & _).
  destruct (format_for_prompt_transcript
              (ChatContext.init Samples.eight (Some 2))) as (Hfmt8 & _).
  destruct H4 as (N1 & N3 & N5 & N6).
  pose proof (Ha m2 H2) as L2. pose proof (Hx m4 N1 N3 N5 N6) as L4.
  pose proof (Hu (Samples.msg 1 "User" "a") (or_introl eq_refl)) as L1.
  pose proof (Hu (Samples.msg 3 "Usuario" "c") (or_intror eq_refl)) as L3.
  split.
  - rewrite Hfmt.
    change (ChatContext.get_recent_messages ctx) with Samples.odd_roles.
    unfold Samples.odd_roles. cbn [List.map].
    fold m2 m4. rewrite L1, L2, L3, L4. reflexivity.
  - rewrite Hfmt8. reflexivity.
Defined.

Lemma role_normalization_insensitive_witness :
  let rt := InMemory.ascii_runtime in
  let m := Samples.msg 2 " ASSISTANT " "b" in
  (py_lower (py_strip (ChatMessage.role m)) = py "assistant"
   \/ py_lower (py_strip (ChatMessage.role m)) = py "asistente")
  /\ ChatContext.line m = py "assistant: " ++ py "b".
Proof.
  intros rt m.
  assert (Hk : py_lower (py_strip (ChatMessage.role m)) = py "assistant"
               \/ py_lower (py_strip (ChatMessage.role m)) = py "asistente")
    by (left; vm_compute; reflexivity).
  split; [exact Hk|].
  exact (proj1 (proj2 (role_normalization_insensitive m)) Hk).
Defined.

(** ** Product *)

Lemma float_120_is_120 :
  valid_binary 53 1024 float_120 = true
  /\ float_120 = S754_finite false (Z.to_pos (120 * 2 ^ 46)) (-46).
Proof. split; reflexivity. Qed.

Section ProductFacts.

(** The fields no check looks at. *)
Variables (id : option Z) (brand category size color : str)
          (description : option str).

Lemma init_blank_name (name : str) (price : num) (stock : Z) :
  name = [] \/ py_strip name = [] ->
  raises ValueError
    (Product.init id name brand category size color price stock description).
Proof.
  intros Hb. unfold Product.init, Product.__post_init__. cbn [Product.name].
  assert (E : py_not name || py_not (py_strip name) = true)
    by (destruct Hb as [-> | ->]; [reflexivity | apply orb_true_r]).
  rewrite E. eexists; split; reflexivity.
Qed.

Lemma init_bad_price (name : str) (price : num) (stock : Z) :
  num_le_zero price = true ->
  raises ValueError
    (Product.init id name brand category size color price stock description).
Proof.
  intros Hp. unfold Product.init, Product.__post_init__.
  cbn [Product.name Product.price].
  destruct (py_not name || py_not (py_strip name)).
  - eexists; split; reflexivity.
  - rewrite Hp. eexists; split; reflexivity.
Qed.

Lemma init_bad_stock (name : str) (price : num) (stock : Z) :
  stock < 0 ->
  raises ValueError
    (Product.init id name brand category size color price stock description).
Proof.
  intros Hs. unfold Product.init, Product.__post_init__.
  cbn [Product.name Product.price Product.stock].
  destruct (py_not name || py_not (py_strip name)).
  - eexists; split; reflexivity.
  - destruct (num_le_zero price).
    + eexists; split; reflexivity.
    + apply Z.ltb_lt in Hs. rewrite Hs. eexists; split; reflexivity.
Qed.

Lemma reduce_stock_rejects (self : Product.t) (quantity : Z) :
  quantity <= 0 \/ quantity > Product.stock self ->
  exists e, Product.reduce_stock quantity self = (Err e, self)
            /\ exn_class_of e = ValueError.
Proof.
  intros Hq. unfold Product.reduce_stock.
  destruct (quantity <=? 0) eqn:E1.
  - eexists; split; reflexivity.
  - destruct (Product.stock self <? quantity) eqn:E2.
    + eexists; split; reflexivity.
    + apply Z.leb_gt in E1. apply Z.ltb_ge in E2. lia.
Qed.

Lemma increase_stock_rejects (self : Product.t) (quantity : Z) :
  quantity <= 0 ->
  exists e, Product.increase_stock quantity self = (Err e, self)
            /\ exn_class_of e = ValueError.
Proof.
  intros Hq. unfold Product.increase_stock.
  apply Z.leb_le in Hq. rewrite Hq. eexists; split; reflexivity.
Qed.

Lemma reduce_stock_accepts (self : Product.t) (quantity : Z) :
  0 < quantity <= Product.stock self ->
  Product.reduce_stock quantity self
  = (Ok tt, Product.set_stock self (Product.stock self - quantity)).
Proof.
  intros Hq. unfold Product.reduce_stock.
  destruct (quantity <=? 0) eqn:E1; [apply Z.leb_le in E1; lia|].
  destruct (Product.stock self <? quantity) eqn:E2; [apply Z.ltb_lt in E2; lia|].
  reflexivity.
Qed.

(** C9: constructing a Product with a price of 0 or any price <= 0 (an int
    or a float), with a stock of -1 or any stock < 0, or with a blank name
    fails validation; with price 120.0, stock 5 and name Pegasus it
    succeeds and [is_available] is true; on a product with stock 5,
    [reduce_stock(6)] fails and leaves the product as it was, and
    [reduce_stock(2)] succeeds and leaves stock 3; [reduce_stock] fails for
    every quantity <= 0 or above the stock and [increase_stock] for every
    quantity <= 0, the product being unchanged in both cases. *)
Theorem product_validation_and_stock_operations :
  (forall name stock z, z <= 0 ->
     raises ValueError
       (Product.init id name brand category size color (PyInt z) stock description))
  /\ (forall name stock f, SFleb f (S754_zero false) = true ->
        raises ValueError
          (Product.init id name brand category size color (PyFloat f) stock
             description))
  /\ (forall name price stock, stock < 0 ->
        raises ValueError
          (Product.init id name brand category size color price stock description))
  /\ (forall name price stock, name = [] \/ py_strip name = [] ->
        raises ValueError
          (Product.init id name brand category size color price stock description))
  /\ (exists p,
        Product.init id (py "Pegasus") brand category size color
          (PyFloat float_120) 5 description = Ok p
        /\ Product.name p = py "Pegasus" /\ Product.stock p = 5
        /\ Product.is_available p = true)
  /\ (forall self, Product.stock self = 5 ->
        (exists e, Product.reduce_stock 6 self = (Err e, self))
        /\ exists self', Product.reduce_stock 2 self = (Ok tt, self')
                         /\ Product.stock self' = 3)
  /\ (forall self quantity,
        quantity <= 0 \/ quantity > Product.stock self ->
        exists e, Product.reduce_stock quantity self = (Err e, self)
                  /\ exn_class_of e = ValueError)
  /\ (forall self quantity,
        quantity <= 0 ->
        exists e, Product.increase_stock quantity self = (Err e, self)
                  /\ exn_class_of e = ValueError).
Proof.
  split; [|split; [|split; [|split; [|split; [|split; [|split]]]]]].
  - intros name stock z Hz. apply init_bad_price. simpl. now apply Z.leb_le.
  - intros name stock f Hf. apply init_bad_price. exact Hf.
  - intros name price stock. apply init_bad_stock.
  - intros name price stock. apply init_blank_name.
  - eexists. split; [reflexivity|]. repeat split.
  - intros self H5. split.
    + destruct (reduce_stock_rejects self 6) as (e & He & _); [right; lia|].
      now exists e.
    + eexists. split; [apply reduce_stock_accepts; lia|]. simpl. lia.
  - apply reduce_stock_rejects.
  - apply increase_stock_rejects.
Qed.

End ProductFacts.

Lemma product_validation_and_stock_operations_witness :
  (6 <= 0 \/ 6 > Product.stock InMemory.Pegasus)
  /\ exists e, Product.reduce_stock 6 InMemory.Pegasus = (Err e, InMemory.Pegasus)
               /\ exn_class_of e = ValueError.
Proof.
  assert (Hq : 6 <= 0 \/ 6 > Product.stock InMemory.Pegasus) by (right; simpl; lia).
  split; [exact Hq|].
  exact (proj1 (proj2 (proj2 (proj2 (proj2 (proj2 (proj2
           (product_validation_and_stock_operations None [] [] [] [] None)))))))
         InMemory.Pegasus 6 Hq).
Defined.

(** ** Running programs *)

Lemma run_seq {S W A B} (h : handler S W) (p : Prog S A) (f : A -> Prog S B)
    (w : W) :
  run h (seq p f) w
  = let '(a, w1, calls1) := run h p w in
    let '(b, w2, calls2) := run h (f a) w1 in
    (b, w2, calls1 ++ calls2).
Proof.
  revert w; induction p as [a | o k IH]; intros w; simpl.
  - destruct (run h (f a) w) as [[b w2] calls2]. reflexivity.
  - destruct (h o w) as [r w1]. rewrite IH.
    destruct (run h (k r) w1) as [[a w2] calls1]. simpl.
    destruct (run h (f a) w2) as [[b w3] calls2]. reflexivity.
Qed.

Lemma logged_inv {O A W} (o : O) (x : A * W * list O) a w calls :
  logged o x = (a, w, calls) ->
  exists calls', calls = o :: calls' /\ x = (a, w, calls').
Proof.
  destruct x as [[a0 w0] c0]. simpl. intros E. inversion E; subst.
  now exists c0.
Qed.

(** A validation failure on the way in: the request model is not built. *)
Lemma request_init_blank (session_id message : str) :
  blank session_id = true \/ blank message = true ->
  raises ValidationError (ChatMessageRequestDTO.init session_id message).
Proof.
  intros Hb. unfold ChatMessageRequestDTO.init,
    ChatMessageRequestDTO.session_id_not_empty,
    ChatMessageRequestDTO.message_not_empty.
  unfold blank in Hb.
  destruct (py_not session_id || py_not (py_strip session_id));
    destruct (py_not message || py_not (py_strip message));
    try (eexists; split; reflexivity).
  destruct Hb; discriminate.
Qed.

Lemma request_init_ok (session_id message : str) :
  blank session_id = false -> blank message = false ->
  ChatMessageRequestDTO.init session_id message
  = Ok {| ChatMessageRequestDTO.session_id := session_id;
          ChatMessageRequestDTO.message := message |}.
Proof.
  unfold blank, ChatMessageRequestDTO.init,
    ChatMessageRequestDTO.session_id_not_empty,
    ChatMessageRequestDTO.message_not_empty.
  intros -> ->. reflexivity.
Qed.

Section EndpointFacts.
Context `{Runtime}.

(** C8: for every submit-message input whose session identifier is empty or
    blank, or whose message is empty or whitespace-only, the turn fails with
    a validation failure before any collaborator is invoked: whatever the
    collaborators are, no operation of theirs is called and the world is as
    it was. *)
Theorem chat_rejects_blank_input_untouched {W} (h : handler ChatService.ChatSig W)
    (w : W) (session_id message : str) :
  blank session_id = true \/ blank message = true ->
  exists e,
    run h (Api.chat session_id message) w = (Err e, w, [])
    /\ exn_class_of e = ValidationError.
Proof.
  intros Hb. destruct (request_init_blank session_id message Hb) as (e & He & Hc).
  exists e. split; [|exact Hc].
  unfold Api.chat. rewrite He. reflexivity.
Qed.

End EndpointFacts.

Lemma chat_rejects_blank_input_untouched_witness :
  let rt := InMemory.ascii_runtime in
  let w := {| InMemory._data := [InMemory.Pegasus; InMemory.Ultraboost];
              InMemory._msgs := Samples.eight;
              InMemory.ai_state := tt; InMemory.clock := 0 |} in
  (blank (py "s1") = true \/ blank (py "   ") = true)
  /\ exists e,
       run (InMemory.collaborators InMemory.FakeAI) (Api.chat (py "s1") (py "   ")) w
       = (Err e, w, [])
       /\ exn_class_of e = ValidationError.
Proof.
  intros rt w.
  assert (Hb : blank (py "s1") = true \/ blank (py "   ") = true)
    by (right; reflexivity).
  split; [exact Hb|].
  exact (chat_rejects_blank_input_untouched
           (InMemory.collaborators InMemory.FakeAI) w (py "s1") (py "   ") Hb).
Defined.

(** ** ChatMessage construction *)

Lemma chat_message_init_inv id session_id role message timestamp m :
  ChatMessage.init id session_id role message timestamp = Ok m ->
  m = {| ChatMessage.id := id; ChatMessage.session_id := session_id;
         ChatMessage.role := role; ChatMessage.message := message;
         ChatMessage.timestamp := timestamp |}
  /\ blank message = false /\ blank session_id = false.
Proof.
  unfold ChatMessage.init, ChatMessage.__post_init__, blank.
  cbn [ChatMessage.role ChatMessage.message ChatMessage.session_id].
  destruct (negb _); [discriminate|].
  destruct (py_not message || py_not (py_strip message)); [discriminate|].
  destruct (py_not session_id || py_not (py_strip session_id)); [discriminate|].
  intros E. inversion E. auto.
Qed.

Lemma chat_message_init_ok id session_id role message timestamp :
  role = py "user" \/ role = py "assistant" ->
  blank message = false -> blank session_id = false ->
  ChatMessage.init id session_id role message timestamp
  = Ok {| ChatMessage.id := id; ChatMessage.session_id := session_id;
          ChatMessage.role := role; ChatMessage.message := message;
          ChatMessage.timestamp := timestamp |}.
Proof.
  unfold ChatMessage.init, ChatMessage.__post_init__, blank.
  cbn [ChatMessage.role ChatMessage.message ChatMessage.session_id].
  intros Hr -> ->. destruct Hr as [-> | ->]; reflexivity.
Qed.

(** ** The window the orchestrator builds *)

Lemma py_slice_from_short {A} (k : Z) (l : list A) :
  len l <= k -> py_slice_from (- k) l = l.
Proof.
  intros Hk. pose proof (len_nonneg l) as Hn. unfold len in *.
  unfold py_slice_from.
  destruct (- k <? 0) eqn:E.
  - replace (Z.max (- k + Z.of_nat (List.length l)) 0) with 0 by lia. reflexivity.
  - apply Z.ltb_ge in E. replace (Z.min (- k) (Z.of_nat (List.length l))) with 0 by lia.
    reflexivity.
Qed.

Lemma fake_recent_window (session_id : str) (_msgs : FakeChatRepo.t) :
  let items := FakeChatRepo.items session_id _msgs in
  let recent := FakeChatRepo.get_recent_messages session_id 6 _msgs in
  len recent = Z.min (len items) 6
  /\ recent = skipn (Z.to_nat (len items - Z.min (len items) 6)) items
  /\ ChatContext.get_recent_messages (ChatContext.init recent (Some 6)) = recent.
Proof.
  intros items recent. subst recent. unfold FakeChatRepo.get_recent_messages.
  fold items. pose proof (len_nonneg items) as Hn.
  rewrite (py_slice_from_neg 6 items) by lia.
  assert (Hl : len (skipn (Z.to_nat (len items - Z.min (len items) 6)) items)
               = Z.min (len items) 6) by (rewrite len_skipn; lia).
  split; [exact Hl|]. split; [reflexivity|].
  unfold ChatContext.get_recent_messages. cbn [ChatContext.init with_default
    ChatContext.messages ChatContext.max_messages].
  apply py_slice_from_short. lia.
Qed.

(** ** The orchestrator *)

Ltac run_step H :=
  cbn [bind perform lift seq run op ret ChatService.ChatSig ChatService.chat_ret
       logged InMemory.collaborators FakeChatRepo.save_message] in H.

Section OrchestratorFacts.
Context `{Runtime}.
Import ChatService.

(** Whatever the collaborators are, a turn that completes has made exactly
    these calls, in this order, and returns the text the AI service gave. *)
Lemma process_message_calls {W} (h : handler ChatSig W) (w w' : W)
    (request : ChatMessageRequestDTO.t) dto calls :
  run h (process_message request) w = (Ok dto, w', calls) ->
  let session_id := ChatMessageRequestDTO.session_id request in
  let message := ChatMessageRequestDTO.message request in
  exists products recent T now utcnow wa wb,
    let context := ChatContext.format_for_prompt (ChatContext.init recent (Some 6)) in
    h (ai_service_generate_response message products context) wa = (Ok T, wb)
    /\ calls =
       [ product_repo_get_all;
         chat_repo_get_recent_messages session_id 6;
         ai_service_generate_response message products context;
         datetime_now_UTC;
         chat_repo_save_message
           {| ChatMessage.id := None; ChatMessage.session_id := session_id;
              ChatMessage.role := py "user"; ChatMessage.message := message;
              ChatMessage.timestamp := now |};
         datetime_utcnow;
         chat_repo_save_message
           {| ChatMessage.id := None; ChatMessage.session_id := session_id;
              ChatMessage.role := py "assistant"; ChatMessage.message := T;
              ChatMessage.timestamp := utcnow |};
         datetime_now_UTC ]
    /\ ChatMessageResponseDTO.assistant_message dto = T
    /\ ChatMessageResponseDTO.user_message dto = message
    /\ ChatMessageResponseDTO.session_id dto = session_id.
Proof.
  intros Hrun session_id message. unfold process_message in Hrun.
  fold session_id message in Hrun. run_step Hrun.
  destruct (h product_repo_get_all w) as [[products|e1] w1] eqn:E1;
    run_step Hrun; [|discriminate].
  destruct (h (chat_repo_get_recent_messages _ _) w1) as [[recent|e2] w2] eqn:E2;
    run_step Hrun; [|discriminate].
  destruct (h (ai_service_generate_response _ _ _) w2) as [[T|e3] w3] eqn:E3;
    run_step Hrun; [|discriminate].
  destruct (h datetime_now_UTC w3) as [[now1|e4] w4] eqn:E4;
    run_step Hrun; [|discriminate].
  destruct (ChatMessage.init None _ (py "user") _ now1) as [u0|e] eqn:Eu;
    run_step Hrun; [|discriminate].
  destruct (h (chat_repo_save_message u0) w4) as [[u|e5] w5] eqn:E5;
    run_step Hrun; [|discriminate].
  destruct (h datetime_utcnow w5) as [[now2|e6] w6] eqn:E6;
    run_step Hrun; [|discriminate].
  destruct (ChatMessage.init None _ (py "assistant") _ now2) as [a0|e] eqn:Ea;
    run_step Hrun; [|discriminate].
  destruct (h (chat_repo_save_message a0) w6) as [[a|e7] w7] eqn:E7;
    run_step Hrun; [|discriminate].
  destruct (h datetime_now_UTC w7) as [[now3|e8] w8] eqn:E8;
    run_step Hrun; [|discriminate].
  apply chat_message_init_inv in Eu as (-> & _ & _).
  apply chat_message_init_inv in Ea as (-> & _ & _).
  inversion Hrun; subst.
  exists products, recent, T, now1, now2, w2, w3. cbn zeta.
  split; [exact E3|]. repeat split.
Qed.

(** Whatever the collaborators are, when the AI service raises after the two
    reads, the turn ends there: the exception is the result, the world is
    the one the AI service left, and no further call is made. *)
Lemma process_message_stops_at_failure {W} (h : handler ChatSig W)
    (w w1 w2 w3 : W) (request : ChatMessageRequestDTO.t) products recent e :
  let session_id := ChatMessageRequestDTO.session_id request in
  let message := ChatMessageRequestDTO.message request in
  let context := ChatContext.format_for_prompt (ChatContext.init recent (Some 6)) in
  h product_repo_get_all w = (Ok products, w1) ->
  h (chat_repo_get_recent_messages session_id 6) w1 = (Ok recent, w2) ->
  h (ai_service_generate_response message products context) w2 = (Err e, w3) ->
  run h (process_message request) w
  = (Err e, w3,
     [ product_repo_get_all;
       chat_repo_get_recent_messages session_id 6;
       ai_service_generate_response message products context ]).
Proof.
  intros session_id message context E1 E2 E3.
  unfold process_message. fold session_id message.
  cbn [bind perform lift seq run op ret ChatSig chat_ret logged].
  rewrite E1. cbn [bind perform lift seq run op ret ChatSig chat_ret logged].
  rewrite E2. cbn [bind perform lift seq run op ret ChatSig chat_ret logged].
  fold context. rewrite E3. reflexivity.
Qed.

End OrchestratorFacts.

Section InMemoryTurn.
Context `{Runtime}.
Context {A : Type} (ai : InMemory.responder A).
Import ChatService InMemory.

(** In the in-memory world, what a turn does once the AI service has
    answered [T]. *)
Lemma in_memory_turn (w : World A) (request : ChatMessageRequestDTO.t)
    (T : str) (a' : A) :
  let session_id := ChatMessageRequestDTO.session_id request in
  let message := ChatMessageRequestDTO.message request in
  let recent := FakeChatRepo.get_recent_messages session_id 6 (_msgs w) in
  let context := ChatContext.format_for_prompt (ChatContext.init recent (Some 6)) in
  let user_msg :=
    {| ChatMessage.id := None; ChatMessage.session_id := session_id;
       ChatMessage.role := py "user"; ChatMessage.message := message;
       ChatMessage.timestamp := {| instant := clock w; tz_aware := true |} |} in
  let assistant_msg :=
    {| ChatMessage.id := None; ChatMessage.session_id := session_id;
       ChatMessage.role := py "assistant"; ChatMessage.message := T;
       ChatMessage.timestamp := {| instant := clock w + 1; tz_aware := false |} |} in
  let u := ChatMessage.set_id user_msg (Some (FakeChatRepo.next_id (_msgs w))) in
  let a := ChatMessage.set_id assistant_msg
             (Some (FakeChatRepo.next_id (_msgs w ++ [u]))) in
  blank session_id = false -> blank message = false -> blank T = false ->
  ai message (_data w) context (ai_state w) = (Ok T, a') ->
  run (collaborators ai) (process_message request) w
  = (Ok {| ChatMessageResponseDTO.session_id := session_id;
           ChatMessageResponseDTO.user_message := message;
           ChatMessageResponseDTO.assistant_message := T;
           ChatMessageResponseDTO.timestamp :=
             {| instant := clock w + 1 + 1; tz_aware := true |} |},
     {| _data := _data w; _msgs := (_msgs w ++ [u]) ++ [a]; ai_state := a';
        clock := clock w + 1 + 1 + 1 |},
     [ product_repo_get_all;
       chat_repo_get_recent_messages session_id 6;
       ai_service_generate_response message (_data w) context;
       datetime_now_UTC;
       chat_repo_save_message user_msg;
       datetime_utcnow;
       chat_repo_save_message assistant_msg;
       datetime_now_UTC ]).
Proof.
  intros session_id message recent context user_msg assistant_msg u a Hs Hm HT Hai.
  unfold process_message. fold session_id message.
  cbn [bind perform lift seq run op ret ChatSig chat_ret logged collaborators].
  fold recent. fold context. rewrite Hai.
  cbn [bind perform lift seq run op ret ChatSig chat_ret logged collaborators].
  rewrite (chat_message_init_ok None session_id (py "user") message _
             (or_introl eq_refl) Hm Hs).
  cbn [bind perform lift seq run op ret ChatSig chat_ret logged collaborators
       FakeChatRepo.save_message].
  rewrite (chat_message_init_ok None session_id (py "assistant") T _
             (or_intror eq_refl) HT Hs).
  reflexivity.
Qed.

(** A blank answer stops the turn at the construction of the assistant
    message, so a turn that completed had a non-blank answer. *)
Lemma in_memory_completed_answer (w w' : World A)
    (request : ChatMessageRequestDTO.t) (T : str) (a' : A) dto calls :
  let session_id := ChatMessageRequestDTO.session_id request in
  let message := ChatMessageRequestDTO.message request in
  let recent := FakeChatRepo.get_recent_messages session_id 6 (_msgs w) in
  let context := ChatContext.format_for_prompt (ChatContext.init recent (Some 6)) in
  ai message (_data w) context (ai_state w) = (Ok T, a') ->
  run (collaborators ai) (process_message request) w = (Ok dto, w', calls) ->
  blank T = false.
Proof.
  intros session_id message recent context Hai Hrun.
  unfold process_message in Hrun. fold session_id message in Hrun.
  run_step Hrun. fold recent in Hrun. fold context in Hrun. rewrite Hai in Hrun.
  run_step Hrun.
  destruct (ChatMessage.init None _ (py "user") _ _) as [u0|e] eqn:Eu;
    run_step Hrun; [|discriminate].
  destruct (ChatMessage.init None _ (py "assistant") _ _) as [a0|e] eqn:Ea;
    run_step Hrun; [|discriminate].
  now apply chat_message_init_inv in Ea as (_ & Hb & _).
Qed.

(** In the in-memory world, a completed turn leaves the store with the
    user message and then the assistant message appended, and its context
    was the transcript of the session's last min(n, 6) messages. *)
Lemma in_memory_completed_turn (w w' : World A)
    (request : ChatMessageRequestDTO.t) (T : str) (a' : A) dto calls :
  let session_id := ChatMessageRequestDTO.session_id request in
  let message := ChatMessageRequestDTO.message request in
  let items := FakeChatRepo.items session_id (_msgs w) in
  let recent := FakeChatRepo.get_recent_messages session_id 6 (_msgs w) in
  let context := ChatContext.format_for_prompt (ChatContext.init recent (Some 6)) in
  blank session_id = false -> blank message = false ->
  ai message (_data w) context (ai_state w) = (Ok T, a') ->
  run (collaborators ai) (process_message request) w = (Ok dto, w', calls) ->
  (exists u a,
     _msgs w' = _msgs w ++ [u; a]
     /\ (ChatMessage.role u = py "user" /\ ChatMessage.message u = message
         /\ ChatMessage.session_id u = session_id)
     /\ (ChatMessage.role a = py "assistant" /\ ChatMessage.message a = T
         /\ ChatMessage.session_id a = session_id)
     /\ calls =
        [ product_repo_get_all;
          chat_repo_get_recent_messages session_id 6;
          ai_service_generate_response message (_data w) context;
          datetime_now_UTC;
          chat_repo_save_message (ChatMessage.set_id u None);
          datetime_utcnow;
          chat_repo_save_message (ChatMessage.set_id a None);
          datetime_now_UTC ])
  /\ ChatMessageResponseDTO.assistant_message dto = T
  /\ len recent = Z.min (len items) 6
  /\ (exists older, items = older ++ recent)
  /\ context = py_join NL (List.map ChatContext.line recent).
Proof.
  intros session_id message items recent context Hs Hm Hai Hrun.
  pose proof (in_memory_completed_answer w w' request T a' dto calls Hai Hrun) as HT.
  pose proof (in_memory_turn w request T a' Hs Hm HT Hai) as Hturn.
  cbn zeta in Hturn. fold session_id message recent context in Hturn.
  rewrite Hturn in Hrun. inversion Hrun; subst dto w' calls. clear Hrun Hturn.
  destruct (fake_recent_window session_id (_msgs w)) as (Hlen & Hrec & Hwin).
  fold items recent in Hlen, Hrec, Hwin.
  split; [|split; [|split; [|split]]].
  - eexists. eexists. split; [cbn [_msgs]; rewrite <- app_assoc; reflexivity|].
    repeat split.
  - reflexivity.
  - exact Hlen.
  - exists (firstn (Z.to_nat (len items - Z.min (len items) 6)) items).
    rewrite Hrec. symmetry. apply firstn_skipn.
  - unfold context. rewrite format_for_prompt_lines, Hwin. reflexivity.
Qed.

(** In the in-memory world, a turn whose AI call raises leaves the store as
    it was. *)
Lemma in_memory_failed_turn (w : World A)
    (request : ChatMessageRequestDTO.t) (e : exn) (a' : A) :
  let session_id := ChatMessageRequestDTO.session_id request in
  let message := ChatMessageRequestDTO.message request in
  let recent := FakeChatRepo.get_recent_messages session_id 6 (_msgs w) in
  let context := ChatContext.format_for_prompt (ChatContext.init recent (Some 6)) in
  ai message (_data w) context (ai_state w) = (Err e, a') ->
  exists w',
    run (collaborators ai) (process_message request) w
    = (Err e, w',
       [ product_repo_get_all;
         chat_repo_get_recent_messages session_id 6;
         ai_service_generate_response message (_data w) context ])
    /\ _msgs w' = _msgs w
    /\ _data w' = _data w.
Proof.
  intros session_id message recent context Hai.
  exists (set_ai_state w a'). split; [|split; reflexivity].
  apply (process_message_stops_at_failure (collaborators ai) w w w).
  - reflexivity.
  - reflexivity.
  - cbn [collaborators]. fold session_id message recent context.
    rewrite Hai. reflexivity.
Qed.

End InMemoryTurn.

Section TurnClaims.
Context `{Runtime}.
Import ChatService InMemory.

(** C1: for every valid request (non-blank session identifier, non-blank
    message) in which the AI service returns the text T, a completed call
    of [process_message] appends exactly two messages to the conversation
    store, first one with role [user] carrying the request text and then
    one with role [assistant] carrying T, both with the request's session
    identifier, and the result's [assistant_message] is T; the history
    consulted for the context is bounded to the six most recent messages of
    the session.  First for any collaborators: a completed call has made
    exactly two [save_message] calls, in that order and with those
    messages, after asking for the last 6 messages of the session, and
    returns what the AI service answered.  Then for the in-memory store:
    the store afterwards is the store before followed by those two
    messages, and the context was the transcript of the last min(n, 6) of
    the session's n messages. *)
Theorem process_message_appends_user_then_assistant :
  (forall W (h : handler ChatSig W) (w w' : W) request dto calls,
     run h (process_message request) w = (Ok dto, w', calls) ->
     let session_id := ChatMessageRequestDTO.session_id request in
     let message := ChatMessageRequestDTO.message request in
     exists products recent T now utcnow wa wb,
       let context :=
         ChatContext.format_for_prompt (ChatContext.init recent (Some 6)) in
       h (ai_service_generate_response message products context) wa = (Ok T, wb)
       /\ calls =
          [ product_repo_get_all;
            chat_repo_get_recent_messages session_id 6;
            ai_service_generate_response message products context;
            datetime_now_UTC;
            chat_repo_save_message
              {| ChatMessage.id := None; ChatMessage.session_id := session_id;
                 ChatMessage.role := py "user"; ChatMessage.message := message;
                 ChatMessage.timestamp := now |};
            datetime_utcnow;
            chat_repo_save_message
              {| ChatMessage.id := None; ChatMessage.session_id := session_id;
                 ChatMessage.role := py "assistant"; ChatMessage.message := T;
                 ChatMessage.timestamp := utcnow |};
            datetime_now_UTC ]
       /\ ChatMessageResponseDTO.assistant_message dto = T
       /\ ChatMessageResponseDTO.user_message dto = message
       /\ ChatMessageResponseDTO.session_id dto = session_id)
  /\ (forall A (ai : responder A) (w w' : World A) request T a' dto calls,
        let session_id := ChatMessageRequestDTO.session_id request in
        let message := ChatMessageRequestDTO.message request in
        let items := FakeChatRepo.items session_id (_msgs w) in
        let recent := FakeChatRepo.get_recent_messages session_id 6 (_msgs w) in
        let context :=
          ChatContext.format_for_prompt (ChatContext.init recent (Some 6)) in
        blank session_id = false -> blank message = false ->
        ai message (_data w) context (ai_state w) = (Ok T, a') ->
        run (collaborators ai) (process_message request) w = (Ok dto, w', calls) ->
        (exists u a,
           _msgs w' = _msgs w ++ [u; a]
           /\ (ChatMessage.role u = py "user" /\ ChatMessage.message u = message
               /\ ChatMessage.session_id u = session_id)
           /\ (ChatMessage.role a = py "assistant" /\ ChatMessage.message a = T
               /\ ChatMessage.session_id a = session_id)
           /\ calls =
              [ product_repo_get_all;
                chat_repo_get_recent_messages session_id 6;
                ai_service_generate_response message (_data w) context;
                datetime_now_UTC;
                chat_repo_save_message (ChatMessage.set_id u None);
                datetime_utcnow;
                chat_repo_save_message (ChatMessage.set_id a None);
                datetime_now_UTC ])
        /\ ChatMessageResponseDTO.assistant_message dto = T
        /\ len recent = Z.min (len items) 6
        /\ (exists older, items = older ++ recent)
        /\ context = py_join NL (List.map ChatContext.line recent)).
Proof.
  split.
  - intros W h w w' request dto calls Hrun.
    exact (process_message_calls h w w' request dto calls Hrun).
  - intros A ai w w' request T a' dto calls.
    exact (in_memory_completed_turn ai w w' request T a' dto calls).
Qed.

(** C2: for every request, if the AI service's [generate_response] raises,
    [process_message] propagates that exception and appends nothing.  First
    for any collaborators: after the two reads and the failed call no
    further call is made, so no [save_message], and the world is the one
    the failed call left.  Then for the in-memory store: the store holds
    exactly what it held when the turn started. *)
Theorem process_message_failure_appends_nothing :
  (forall W (h : handler ChatSig W) (w w1 w2 w3 : W) request products recent e,
     let session_id := ChatMessageRequestDTO.session_id request in
     let message := ChatMessageRequestDTO.message request in
     let context :=
       ChatContext.format_for_prompt (ChatContext.init recent (Some 6)) in
     h product_repo_get_all w = (Ok products, w1) ->
     h (chat_repo_get_recent_messages session_id 6) w1 = (Ok recent, w2) ->
     h (ai_service_generate_response message products context) w2 = (Err e, w3) ->
     run h (process_message request) w
     = (Err e, w3,
        [ product_repo_get_all;
          chat_repo_get_recent_messages session_id 6;
          ai_service_generate_response message products context ]))
  /\ (forall A (ai : responder A) (w : World A) request e a',
        let session_id := ChatMessageRequestDTO.session_id request in
        let message := ChatMessageRequestDTO.message request in
        let recent := FakeChatRepo.get_recent_messages session_id 6 (_msgs w) in
        let context :=
          ChatContext.format_for_prompt (ChatContext.init recent (Some 6)) in
        ai message (_data w) context (ai_state w) = (Err e, a') ->
        exists w',
          run (collaborators ai) (process_message request) w
          = (Err e, w',
             [ product_repo_get_all;
               chat_repo_get_recent_messages session_id 6;
               ai_service_generate_response message (_data w) context ])
          /\ _msgs w' = _msgs w
          /\ _data w' = _data w).
Proof.
  split.
  - intros W h w w1 w2 w3 request products recent e.
    exact (process_message_stops_at_failure h w w1 w2 w3 request products recent e).
  - intros A ai w request e a'.
    exact (in_memory_failed_turn ai w request e a').
Qed.

End TurnClaims.

Lemma process_message_appends_user_then_assistant_witness :
  let rt := InMemory.ascii_runtime in
  let T := py "[AI] hola (2 productos)" in
  (blank (py "s") = false /\ blank (py "hola") = false)
  /\ exists dto w' calls,
       run (InMemory.collaborators InMemory.FakeAI)
           (ChatService.process_message Samples.hola) Samples.world
       = (Ok dto, w', calls)
       /\ (exists u a,
             InMemory._msgs w' = Samples.eight ++ [u; a]
             /\ ChatMessage.role u = py "user" /\ ChatMessage.message u = py "hola"
             /\ ChatMessage.role a = py "assistant" /\ ChatMessage.message a = T)
       /\ ChatMessageResponseDTO.assistant_message dto = T.
Proof.
  intros rt T.
  assert (Hs : blank (py "s") = false) by reflexivity.
  assert (Hm : blank (py "hola") = false) by reflexivity.
  split; [split; assumption|].
  pose proof (in_memory_turn InMemory.FakeAI Samples.world Samples.hola T tt
                Hs Hm eq_refl eq_refl) as Hturn.
  cbn zeta in Hturn.
  eexists. eexists. eexists. split; [exact Hturn|].
  destruct (proj2 process_message_appends_user_then_assistant unit InMemory.FakeAI
              Samples.world _ Samples.hola T tt _ _ Hs Hm eq_refl Hturn)
    as ((u & a & Hmsgs & (Hu1 & Hu2 & _) & (Ha1 & Ha2 & _) & _) & Hdto & _).
  split; [|exact Hdto].
  exists u, a. repeat split; assumption.
Defined.

Lemma process_message_failure_appends_nothing_witness :
  let rt := InMemory.ascii_runtime in
  let e := Exn RuntimeError (py "IA ca" ++ [237%N] ++ py "da") in
  InMemory.FailingAI (py "hola") (InMemory._data Samples.world)
    (ChatContext.format_for_prompt
       (ChatContext.init
          (FakeChatRepo.get_recent_messages (py "s") 6 Samples.eight) (Some 6)))
    tt = (Err e, tt)
  /\ exists w' calls,
       run (InMemory.collaborators InMemory.FailingAI)
           (ChatService.process_message Samples.hola) Samples.world
       = (Err e, w', calls)
       /\ InMemory._msgs w' = Samples.eight.
Proof.
  intros rt e. split; [reflexivity|].
  destruct (proj2 process_message_failure_appends_nothing unit InMemory.FailingAI
              Samples.world Samples.hola e tt eq_refl) as (w' & Hrun & Hmsgs & _).
  exists w'. eexists. split; [exact Hrun|exact Hmsgs].
Defined.

(** ** The Gemini adapter *)

Lemma placeholder_not_blank :
  GeminiService.PLACEHOLDER <> [] /\ blank GeminiService.PLACEHOLDER = false.
Proof. split; [discriminate|reflexivity]. Qed.

Lemma attempt_blank_text (s : str) :
  blank s = true ->
  GeminiService.attempt
    (Ok {| GeminiService.text := GeminiService.Value (GeminiService.PyStr s) |})
  = Ok GeminiService.PLACEHOLDER.
Proof.
  unfold blank. intros Hb. cbn.
  destruct s as [|c s]; [reflexivity|]. cbn [py_not orb] in Hb.
  now rewrite Hb.
Qed.

Lemma attempt_text (s : str) :
  blank s = false ->
  GeminiService.attempt
    (Ok {| GeminiService.text := GeminiService.Value (GeminiService.PyStr s) |})
  = Ok (py_strip s).
Proof.
  unfold blank. intros Hb. apply orb_false_iff in Hb as [_ Hb]. cbn.
  now rewrite Hb.
Qed.

Section GeminiFacts.
Context `{Runtime}.
Context {W : Type} (h : handler GeminiService.GeminiSig W).
Import GeminiService.

(** The three ways one [_call] can go, by the outcome of the first attempt. *)
Lemma call_first_attempt_ok (self : t) (prompt : str) (w w1 : W) r1 s :
  h (generate_content (model self) prompt) w = (r1, w1) ->
  attempt r1 = Ok s ->
  run h (_call self prompt) w
  = ((Ok s, self), w1, [generate_content (model self) prompt]).
Proof.
  intros E1 Ha. unfold _call. cbn [run op ret GeminiSig]. rewrite E1, Ha.
  reflexivity.
Qed.

Lemma call_other_failure (self : t) (prompt : str) (w w1 : W) r1 e :
  h (generate_content (model self) prompt) w = (r1, w1) ->
  attempt r1 = Err e -> model_unavailable e = false ->
  run h (_call self prompt) w
  = ((Err e, self), w1, [generate_content (model self) prompt]).
Proof.
  intros E1 Ha Hu. unfold _call. cbn [run op ret GeminiSig]. rewrite E1, Ha, Hu.
  reflexivity.
Qed.

Lemma call_falls_back (self : t) (prompt : str) (w w1 w2 : W) r1 r2 e :
  h (generate_content (model self) prompt) w = (r1, w1) ->
  attempt r1 = Err e -> model_unavailable e = true ->
  h (generate_content fallback_model prompt) w1 = (r2, w2) ->
  run h (_call self prompt) w
  = ((attempt r2, set_model self fallback_model), w2,
     [generate_content (model self) prompt;
      generate_content fallback_model prompt]).
Proof.
  intros E1 Ha Hu E2. unfold _call. cbn [run op ret GeminiSig].
  rewrite E1, Ha, Hu. cbn [run op ret GeminiSig set_model model].
  rewrite E2. reflexivity.
Qed.

(** An adapter whose active model is the fallback stays on it, and calls
    nothing else. *)
Lemma call_stays_on_fallback (self : t) (prompt : str) (w : W) :
  model self = fallback_model ->
  forall out self' w' calls,
    run h (_call self prompt) w = ((out, self'), w', calls) ->
    model self' = fallback_model
    /\ model_name self' = model_name self
    /\ Forall (fun o => target o = fallback) calls.
Proof.
  intros Hm out self' w' calls Hrun.
  destruct (h (generate_content (model self) prompt) w) as [r1 w1] eqn:E1.
  destruct (attempt r1) as [s|e] eqn:Ha.
  - rewrite (call_first_attempt_ok self prompt w w1 r1 s E1 Ha) in Hrun.
    inversion Hrun; subst. repeat split; [assumption|].
    constructor; [|constructor]. cbn. now rewrite Hm.
  - destruct (model_unavailable e) eqn:Hu.
    + destruct (h (generate_content fallback_model prompt) w1) as [r2 w2] eqn:E2.
      rewrite (call_falls_back self prompt w w1 w2 r1 r2 e E1 Ha Hu E2) in Hrun.
      inversion Hrun; subst. repeat split.
      constructor; [cbn; now rewrite Hm|]. constructor; [reflexivity|constructor].
    + rewrite (call_other_failure self prompt w w1 r1 e E1 Ha Hu) in Hrun.
      inversion Hrun; subst. repeat split; [assumption|].
      constructor; [|constructor]. cbn. now rewrite Hm.
Qed.

Lemma responses_stay_on_fallback
    (requests : list (str * list Product.t * context)) :
  forall (self : t) (w : W),
    model self = fallback_model ->
    forall outs self' w' calls,
      run h (generate_responses requests self) w = ((outs, self'), w', calls) ->
      model self' = fallback_model
      /\ model_name self' = model_name self
      /\ Forall (fun o => target o = fallback) calls.
Proof.
  induction requests as [|[[user_message products] context] rest IH];
    intros self w Hm outs self' w' calls Hrun.
  - cbn in Hrun. inversion Hrun; subst. repeat split; [assumption|constructor].
  - cbn [generate_responses] in Hrun. rewrite run_seq in Hrun.
    destruct (run h (generate_response user_message products context self) w)
      as [[[r self1] w1] calls1] eqn:E1.
    destruct (call_stays_on_fallback self _ w Hm _ _ _ _ E1) as (Hm1 & Hn1 & Hc1).
    rewrite run_seq in Hrun.
    destruct (run h (generate_responses rest self1) w1)
      as [[[rs self2] w2] calls2] eqn:E2.
    destruct (IH self1 w1 Hm1 _ _ _ _ E2) as (Hm2 & Hn2 & Hc2).
    cbn in Hrun. inversion Hrun; subst.
    split; [assumption|]. split; [congruence|].
    apply Forall_app. split; [assumption|]. rewrite app_nil_r. assumption.
Qed.

End GeminiFacts.

Section GeminiClaims.
Context `{Runtime}.
Context {W : Type} (h : handler GeminiService.GeminiSig W).
Import GeminiService.

(** C6, as amended: for every prompt, if the primary attempt fails with a
    missing-model or unsupported-model error, [generate_response] retries
    exactly once, against the fixed fallback model identifier and with the
    same prompt, and the outcome of that retry is the outcome of the call:
    its text, the placeholder if the text is blank, or its failure, which
    propagates to the caller.  If the primary attempt returns blank or
    whitespace-only text the fixed, non-empty placeholder sentence is
    returned.  Any other failure is not retried and propagates. *)
Theorem generate_response_fallback_policy (self : t) (user_message : str)
    (products : list Product.t) (ctx : context) (w w1 : W) r1 :
  let prompt := _build_prompt user_message products ctx in
  let primary := generate_content (model self) prompt in
  let retry := generate_content fallback_model prompt in
  h primary w = (r1, w1) ->
  (forall e, attempt r1 = Err e -> model_unavailable e = true ->
     forall r2 w2, h retry w1 = (r2, w2) ->
       run h (generate_response user_message products ctx self) w
       = ((attempt r2, set_model self fallback_model), w2, [primary; retry])
       /\ target retry = py "gemini-1.5-flash"
       /\ (forall e2, r2 = Err e2 -> attempt r2 = Err e2)
       /\ (forall s, r2 = Ok {| text := Value (PyStr s) |} -> blank s = true ->
             attempt r2 = Ok PLACEHOLDER)
       /\ (forall s, r2 = Ok {| text := Value (PyStr s) |} -> blank s = false ->
             attempt r2 = Ok (py_strip s)))
  /\ (forall s, r1 = Ok {| text := Value (PyStr s) |} -> blank s = true ->
        run h (generate_response user_message products ctx self) w
        = ((Ok PLACEHOLDER, self), w1, [primary]))
  /\ (forall e, attempt r1 = Err e -> model_unavailable e = false ->
        run h (generate_response user_message products ctx self) w
        = ((Err e, self), w1, [primary]))
  /\ (PLACEHOLDER <> [] /\ blank PLACEHOLDER = false).
Proof.
  intros prompt primary retry E1.
  split; [|split; [|split]].
  - intros e Ha Hu r2 w2 E2.
    split; [exact (call_falls_back h self prompt w w1 w2 r1 r2 e E1 Ha Hu E2)|].
    split; [reflexivity|].
    split; [intros e2 ->; reflexivity|].
    split; intros s -> Hb; [now apply attempt_blank_text|now apply attempt_text].
  - intros s -> Hb.
    exact (call_first_attempt_ok h self prompt w w1 _ _ E1 (attempt_blank_text s Hb)).
  - intros e Ha Hu.
    exact (call_other_failure h self prompt w w1 r1 e E1 Ha Hu).
  - exact placeholder_not_blank.
Qed.

(** C7: once a call of [generate_response] has triggered the fallback (its
    primary attempt failed with a missing-model or unsupported-model
    error), the adapter's active model is the fallback model, and it stays
    so through every later call on that adapter: each provider call of
    those later calls is addressed to the fallback identifier, so none is
    addressed to the original primary model (when that is a different
    model). *)
Theorem fallback_is_sticky (self : t) (user_message : str)
    (products : list Product.t) (ctx : context) (w w1 : W) r1 e :
  let prompt := _build_prompt user_message products ctx in
  h (generate_content (model self) prompt) w = (r1, w1) ->
  attempt r1 = Err e -> model_unavailable e = true ->
  forall out self1 w2 calls1,
    run h (generate_response user_message products ctx self) w
    = ((out, self1), w2, calls1) ->
    model self1 = fallback_model
    /\ forall requests outs selfN wN callsN,
         run h (generate_responses requests self1) w2 = ((outs, selfN), wN, callsN) ->
         model selfN = fallback_model
         /\ Forall (fun o => target o = py "gemini-1.5-flash") callsN
         /\ (gm_model_name (model self) <> py "gemini-1.5-flash" ->
             forall p, ~ In (generate_content (model self) p) callsN).
Proof.
  intros prompt E1 Ha Hu out self1 w2 calls1 Hrun.
  destruct (h (generate_content fallback_model prompt) w1) as [r2 w2'] eqn:E2.
  unfold generate_response in Hrun. fold prompt in Hrun.
  rewrite (call_falls_back h self prompt w w1 w2' r1 r2 e E1 Ha Hu E2) in Hrun.
  inversion Hrun; subst. clear Hrun.
  split; [reflexivity|].
  intros requests outs selfN wN callsN HrunN.
  destruct (responses_stay_on_fallback h requests (set_model self fallback_model)
              w2 eq_refl _ _ _ _ HrunN) as (Hm & _ & Hall).
  split; [exact Hm|]. split; [exact Hall|].
  intros Hne p Hin.
  rewrite Forall_forall in Hall. apply Hall in Hin. cbn in Hin.
  apply Hne. exact Hin.
Qed.

End GeminiClaims.

(** C6 as stated fails where it promises the placeholder after a failed
    retry: the primary call is rejected as not found, the retry against the
    fallback model fails with a quota error, and that error is what the
    caller gets. *)
Lemma failed_retry_propagates_counterexample :
  let rt := InMemory.ascii_runtime in
  let script := [Err Samples.model_not_found; Err Samples.quota_exceeded] in
  let prompt := GeminiService._build_prompt (py "hola") [] (GeminiService.CtxStr []) in
  GeminiService.model_unavailable Samples.model_not_found = true
  /\ run Samples.scripted
       (GeminiService.generate_response (py "hola") [] (GeminiService.CtxStr [])
          Samples.adapter) script
     = ((Err Samples.quota_exceeded,
         GeminiService.set_model Samples.adapter GeminiService.fallback_model),
        [],
        [ GeminiService.generate_content (GeminiService.model Samples.adapter) prompt;
          GeminiService.generate_content GeminiService.fallback_model prompt ])
  /\ Err Samples.quota_exceeded <> Ok GeminiService.PLACEHOLDER.
Proof.
  intros rt script prompt.
  split; [vm_compute; reflexivity|]. split; [vm_compute; reflexivity|discriminate].
Qed.

Lemma generate_response_fallback_policy_witness :
  let rt := InMemory.ascii_runtime in
  let script := [Err Samples.model_not_found; Samples.said "   "] in
  let prompt := GeminiService._build_prompt (py "hola") [] (GeminiService.CtxStr []) in
  Samples.scripted
    (GeminiService.generate_content (GeminiService.model Samples.adapter) prompt)
    script
  = (Err Samples.model_not_found, [Samples.said "   "])
  /\ run Samples.scripted
       (GeminiService.generate_response (py "hola") [] (GeminiService.CtxStr [])
          Samples.adapter) script
     = ((Ok GeminiService.PLACEHOLDER,
         GeminiService.set_model Samples.adapter GeminiService.fallback_model),
        [],
        [ GeminiService.generate_content (GeminiService.model Samples.adapter) prompt;
          GeminiService.generate_content GeminiService.fallback_model prompt ]).
Proof.
  intros rt script prompt.
  assert (E1 : Samples.scripted
                 (GeminiService.generate_content
                    (GeminiService.model Samples.adapter) prompt) script
               = (Err Samples.model_not_found, [Samples.said "   "]))
    by reflexivity.
  split; [exact E1|].
  destruct (generate_response_fallback_policy Samples.scripted Samples.adapter
              (py "hola") [] (GeminiService.CtxStr []) script _ _ E1) as (Hretry & _).
  destruct (Hretry Samples.model_not_found eq_refl eq_refl (Samples.said "   ") []
              eq_refl) as (Hrun & _ & _ & Hblank & _).
  rewrite Hrun. rewrite (Hblank (py "   ") eq_refl eq_refl). reflexivity.
Defined.

Lemma fallback_is_sticky_witness :
  let rt := InMemory.ascii_runtime in
  let script := [ Err Samples.model_not_found; Samples.said "Hola";
                  Samples.said "Claro"; Samples.said "42" ] in
  let first :=
    run Samples.scripted
      (GeminiService.generate_response (py "hola") [] (GeminiService.CtxStr [])
         Samples.adapter) script in
  let later :=
    run Samples.scripted
      (GeminiService.generate_responses
         [ (py "precio", [], GeminiService.CtxStr []);
           (py "talla", [], GeminiService.CtxStr []) ]
         (snd (fst (fst first)))) (snd (fst first)) in
  (GeminiService.attempt (Err Samples.model_not_found) = Err Samples.model_not_found
   /\ GeminiService.model_unavailable Samples.model_not_found = true)
  /\ GeminiService.model (snd (fst (fst first))) = GeminiService.fallback_model
  /\ List.length (snd later) = 2%nat
  /\ Forall (fun o => GeminiService.target o = py "gemini-1.5-flash") (snd later).
Proof.
  intros rt script first later.
  split; [split; reflexivity|].
  subst later.
  destruct first as [[[out self1] w2] calls1] eqn:E1. subst first.
  cbn [fst snd].
  destruct (fallback_is_sticky Samples.scripted Samples.adapter (py "hola") []
              (GeminiService.CtxStr []) script _ _ _ eq_refl eq_refl eq_refl
              out self1 w2 calls1 E1) as (Hm & Hlater).
  split; [exact Hm|].
  destruct (run Samples.scripted
              (GeminiService.generate_responses
                 [ (py "precio", [], GeminiService.CtxStr []);
                   (py "talla", [], GeminiService.CtxStr []) ] self1) w2)
    as [[[outs selfN] wN] callsN] eqn:E2.
  destruct (Hlater _ _ _ _ _ E2) as (_ & Hall & _).
  split; [|exact Hall].
  vm_compute in E1. inversion E1; subst. vm_compute in E2. inversion E2; subst.
  reflexivity.
Defined.

(* ================================================================== *)
(** * Further properties                                               *)
(* ================================================================== *)

(** ** Product: construction and stock *)

Lemma blank_false_iff (v : str) :
  blank v = false <-> v <> [] /\ py_strip v <> [].
Proof.
  unfold blank. rewrite orb_false_iff. split.
  - intros [H1 H2]. split; intros E; rewrite E in *; discriminate.
  - intros [H1 H2]. split.
    + destruct v; [contradiction|reflexivity].
    + destruct (py_strip v); [contradiction|reflexivity].
Qed.

Lemma product_init_ok (id : option Z) (name brand category size color : str)
    (price : num) (stock : Z) (description : option str) :
  blank name = false -> num_le_zero price = false -> 0 <= stock ->
  Product.init id name brand category size color price stock description
  = Ok {| Product.id := id; Product.name := name; Product.brand := brand;
          Product.category := category; Product.size := size;
          Product.color := color; Product.price := price; Product.stock := stock;
          Product.description := with_default [] description |}.
Proof.
  unfold Product.init, Product.__post_init__, blank.
  cbn [Product.name Product.price Product.stock].
  intros -> -> Hs. apply Z.ltb_ge in Hs. now rewrite Hs.
Qed.

(** X1: [Product(...)] succeeds exactly when the name is not blank, the price is
    not [<= 0] and the stock is not negative, and then the product holds the
    values it was given: nothing is trimmed or converted. *)
Theorem product_init_succeeds_iff (id : option Z)
    (name brand category size color : str) (price : num) (stock : Z)
    (description : option str) (p : Product.t) :
  Product.init id name brand category size color price stock description = Ok p
  <-> (blank name = false /\ num_le_zero price = false /\ 0 <= stock
       /\ p = {| Product.id := id; Product.name := name; Product.brand := brand;
                 Product.category := category; Product.size := size;
                 Product.color := color; Product.price := price;
                 Product.stock := stock;
                 Product.description := with_default [] description |}).
Proof.
  unfold Product.init, Product.__post_init__, blank.
  cbn [Product.name Product.price Product.stock].
  destruct (py_not name || py_not (py_strip name)).
  - split; [discriminate|]. intros (? & _). discriminate.
  - destruct (num_le_zero price).
    + split; [discriminate|]. intros (_ & ? & _). discriminate.
    + destruct (stock <? 0) eqn:Es.
      * split; [discriminate|]. apply Z.ltb_lt in Es. intros (_ & _ & ? & _). lia.
      * apply Z.ltb_ge in Es. split.
        -- intros E. inversion E. auto.
        -- intros (_ & _ & _ & ->). reflexivity.
Qed.

Lemma post_init_ok_stock (p : Product.t) :
  Product.__post_init__ p = Ok tt -> 0 <= Product.stock p.
Proof.
  unfold Product.__post_init__.
  destruct (py_not _ || py_not _); [discriminate|].
  destruct (num_le_zero _); [discriminate|].
  destruct (Product.stock p <? 0) eqn:E; [discriminate|].
  apply Z.ltb_ge in E. auto.
Qed.

Lemma post_init_set_stock (p : Product.t) (v : Z) :
  Product.__post_init__ p = Ok tt -> 0 <= v ->
  Product.__post_init__ (Product.set_stock p v) = Ok tt.
Proof.
  unfold Product.__post_init__. destruct p; cbn.
  destruct (py_not _ || py_not _); [discriminate|].
  destruct (num_le_zero _); [discriminate|].
  intros _ Hv. apply Z.ltb_ge in Hv. now rewrite Hv.
Qed.

Lemma apply_op_valid (p : Product.t) (o : Scenarios.stock_op) :
  Product.__post_init__ p = Ok tt ->
  Product.__post_init__ (Scenarios.apply_op p o) = Ok tt.
Proof.
  intros Hp. pose proof (post_init_ok_stock p Hp) as Hs.
  destruct o as [q|q]; cbn [Scenarios.apply_op].
  - unfold Product.reduce_stock.
    destruct (q <=? 0) eqn:E1; [exact Hp|].
    destruct (Product.stock p <? q) eqn:E2; [exact Hp|].
    apply Z.ltb_ge in E2. cbn [snd]. apply post_init_set_stock; [exact Hp|lia].
  - unfold Product.increase_stock.
    destruct (q <=? 0) eqn:E1; [exact Hp|].
    apply Z.leb_gt in E1. cbn [snd]. apply post_init_set_stock; [exact Hp|lia].
Qed.

(** X2: The checks of the constructor keep holding under the stock operations:
    whatever sequence of [reduce_stock] and [increase_stock] calls is made
    on a product that passed them, accepted or rejected, the product still
    passes them, so its stock never goes below zero. *)
Theorem stock_operations_keep_product_valid (ops : list Scenarios.stock_op)
    (p : Product.t) :
  Product.__post_init__ p = Ok tt ->
  Product.__post_init__ (Scenarios.apply_ops ops p) = Ok tt
  /\ 0 <= Product.stock (Scenarios.apply_ops ops p).
Proof.
  intros Hp.
  assert (H : Product.__post_init__ (Scenarios.apply_ops ops p) = Ok tt).
  { revert p Hp; induction ops as [|o ops IH]; intros p Hp; [exact Hp|].
    cbn. apply IH. now apply apply_op_valid. }
  split; [exact H|now apply post_init_ok_stock].
Qed.

Lemma stock_operations_keep_product_valid_witness :
  let ops := [Scenarios.Reduce 6; Scenarios.Reduce 2; Scenarios.Increase 0;
              Scenarios.Reduce 3; Scenarios.Increase 4; Scenarios.Reduce 1] in
  Product.__post_init__ InMemory.Pegasus = Ok tt
  /\ Product.stock (Scenarios.apply_ops ops InMemory.Pegasus) = 3
  /\ 0 <= Product.stock (Scenarios.apply_ops ops InMemory.Pegasus).
Proof.
  intros ops.
  assert (Hp : Product.__post_init__ InMemory.Pegasus = Ok tt) by reflexivity.
  split; [exact Hp|]. split; [reflexivity|].
  exact (proj2 (stock_operations_keep_product_valid ops InMemory.Pegasus Hp)).
Defined.

(** X3: [reduce_stock] is accepted exactly for 0 < quantity <= stock; it then
    takes the quantity off the stock and changes nothing else, and the
    product is still available afterwards exactly when the quantity was
    less than the stock. *)
Theorem reduce_stock_accepted_iff (p : Product.t) (quantity : Z) :
  (fst (Product.reduce_stock quantity p) = Ok tt <-> 0 < quantity <= Product.stock p)
  /\ (0 < quantity <= Product.stock p ->
      let p' := snd (Product.reduce_stock quantity p) in
      p' = Product.set_stock p (Product.stock p - quantity)
      /\ Product.stock p' = Product.stock p - quantity
      /\ (Product.is_available p' = true <-> quantity < Product.stock p)).
Proof.
  split.
  - split.
    + unfold Product.reduce_stock.
      destruct (quantity <=? 0) eqn:E1; [discriminate|].
      destruct (Product.stock p <? quantity) eqn:E2; [discriminate|].
      apply Z.leb_gt in E1. apply Z.ltb_ge in E2. intros _. lia.
    + intros Hq. now rewrite reduce_stock_accepts.
  - intros Hq. rewrite reduce_stock_accepts by exact Hq. cbn [snd].
    split; [reflexivity|]. split; [reflexivity|].
    unfold Product.is_available. cbn. rewrite Z.ltb_lt. lia.
Qed.

Lemma reduce_stock_accepted_iff_witness :
  0 < 5 <= Product.stock InMemory.Pegasus
  /\ Product.stock (snd (Product.reduce_stock 5 InMemory.Pegasus)) = 0
  /\ ~ Product.is_available (snd (Product.reduce_stock 5 InMemory.Pegasus)) = true.
Proof.
  assert (Hq : 0 < 5 <= Product.stock InMemory.Pegasus) by (simpl; lia).
  split; [exact Hq|].
  destruct (proj2 (reduce_stock_accepted_iff InMemory.Pegasus 5) Hq)
    as (_ & Hs & Ha).
  split; [exact Hs|]. intros Hav. apply Ha in Hav. simpl in Hav. lia.
Defined.

(** X4: Adding a quantity and taking it off again gives back the product as it
    was: for a product whose stock is not negative and a quantity > 0, both
    calls are accepted and the result is the original product. *)
Theorem increase_then_reduce_restores (p : Product.t) (quantity : Z) :
  0 <= Product.stock p -> 0 < quantity ->
  exists p1,
    Product.increase_stock quantity p = (Ok tt, p1)
    /\ Product.stock p1 = Product.stock p + quantity
    /\ Product.reduce_stock quantity p1 = (Ok tt, p).
Proof.
  intros Hs Hq. unfold Product.increase_stock.
  destruct (quantity <=? 0) eqn:E; [apply Z.leb_le in E; lia|].
  eexists. split; [reflexivity|]. split; [reflexivity|].
  rewrite reduce_stock_accepts
    by (unfold Product.set_stock; cbn [Product.stock]; lia).
  f_equal. destruct p; unfold Product.set_stock; cbn. f_equal. lia.
Qed.

Lemma increase_then_reduce_restores_witness :
  (0 <= Product.stock InMemory.Ultraboost /\ 0 < 7)
  /\ exists p1,
       Product.increase_stock 7 InMemory.Ultraboost = (Ok tt, p1)
       /\ Product.stock p1 = 7
       /\ Product.reduce_stock 7 p1 = (Ok tt, InMemory.Ultraboost).
Proof.
  assert (Hs : 0 <= Product.stock InMemory.Ultraboost) by (simpl; lia).
  assert (Hq : 0 < 7) by lia.
  split; [split; assumption|].
  destruct (increase_then_reduce_restores InMemory.Ultraboost 7 Hs Hq)
    as (p1 & H1 & H2 & H3).
  exists p1. split; [exact H1|]. split; [exact H2|exact H3].
Defined.

Lemma product_init_succeeds_iff_witness :
  (blank (py "Pegasus") = false /\ num_le_zero (PyFloat float_120) = false /\ 0 <= 5)
  /\ Product.init (Some 1) (py "Pegasus") (py "Nike") (py "Running") (py "42")
       (py "Negro") (PyFloat float_120) 5 None = Ok InMemory.Pegasus.
Proof.
  assert (H : blank (py "Pegasus") = false
              /\ num_le_zero (PyFloat float_120) = false /\ 0 <= 5)
    by (repeat split; lia).
  split; [exact H|]. destruct H as (H1 & H2 & H3).
  apply (proj2 (product_init_succeeds_iff (Some 1) (py "Pegasus") (py "Nike")
                  (py "Running") (py "42") (py "Negro") (PyFloat float_120) 5 None
                  InMemory.Pegasus)).
  repeat split; assumption.
Defined.

(** ** ChatMessage *)

Lemma chat_message_init_role id session_id role message timestamp m :
  ChatMessage.init id session_id role message timestamp = Ok m ->
  (role = py "user" \/ role = py "assistant")
  /\ m = {| ChatMessage.id := id; ChatMessage.session_id := session_id;
            ChatMessage.role := role; ChatMessage.message := message;
            ChatMessage.timestamp := timestamp |}.
Proof.
  intros E. pose proof (chat_message_init_inv _ _ _ _ _ _ E) as (-> & _ & _).
  split; [|reflexivity].
  unfold ChatMessage.init, ChatMessage.__post_init__ in E.
  cbn [ChatMessage.role] in E.
  destruct (str_eqb role (py "user")) eqn:E1.
  - left. now apply str_eqb_eq.
  - destruct (str_eqb role (py "assistant")) eqn:E2.
    + right. now apply str_eqb_eq.
    + discriminate.
Qed.

(** X5: [ChatMessage(...)] succeeds exactly when the role is literally [user]
    or [assistant], and neither the message nor the session identifier is
    blank; the message then holds the values given, untrimmed.  The role
    check is exact: the spellings the transcript formatter tolerates
    ([User], [usuario], ...) are rejected here. *)
Theorem chat_message_init_succeeds_iff (id : option Z)
    (session_id role message : str) (timestamp : datetime) (m : ChatMessage.t) :
  (ChatMessage.init id session_id role message timestamp = Ok m
   <-> ((role = py "user" \/ role = py "assistant")
        /\ blank message = false /\ blank session_id = false
        /\ m = {| ChatMessage.id := id; ChatMessage.session_id := session_id;
                  ChatMessage.role := role; ChatMessage.message := message;
                  ChatMessage.timestamp := timestamp |}))
  /\ raises ValueError
       (ChatMessage.init id session_id (py "User") message timestamp)
  /\ raises ValueError
       (ChatMessage.init id session_id (py "usuario") message timestamp).
Proof.
  split; [|split; eexists; split; reflexivity].
  split.
  - intros E. pose proof (chat_message_init_inv _ _ _ _ _ _ E) as (_ & Hm & Hs).
    destruct (chat_message_init_role _ _ _ _ _ _ E) as (Hr & ->). auto.
  - intros (Hr & Hm & Hs & ->). now apply chat_message_init_ok.
Qed.

Lemma chat_message_init_succeeds_iff_witness :
  let m := Samples.msg 3 "user" "m3" in
  ((py "user" = py "user" \/ py "user" = py "assistant")
   /\ blank (py "m3") = false /\ blank (py "s") = false)
  /\ ChatMessage.init (Some 3) (py "s") (py "user") (py "m3") (Samples.at_minute 3)
     = Ok m.
Proof.
  intros m.
  assert (H : (py "user" = py "user" \/ py "user" = py "assistant")
              /\ blank (py "m3") = false /\ blank (py "s") = false)
    by (split; [left; reflexivity|split; reflexivity]).
  split; [exact H|]. destruct H as (H1 & H2 & H3).
  apply (proj2 (proj1 (chat_message_init_succeeds_iff (Some 3) (py "s") (py "user")
                         (py "m3") (Samples.at_minute 3) m))).
  repeat split; assumption.
Defined.

(** X6: A message the constructor accepted is from the user or from the
    assistant and never both, and in a transcript its line carries exactly
    the role it has: normalization changes nothing for it. *)
Theorem constructed_message_keeps_its_role `{Runtime} (id : option Z)
    (session_id role message : str) (timestamp : datetime) (m : ChatMessage.t) :
  ChatMessage.init id session_id role message timestamp = Ok m ->
  ChatMessage.is_from_user m = negb (ChatMessage.is_from_assistant m)
  /\ ChatContext.line m = ChatMessage.role m ++ py ": " ++ ChatMessage.message m.
Proof.
  intros E.
  destruct (chat_message_init_role _ _ _ _ _ _ E) as (Hr & ->).
  unfold ChatMessage.is_from_user, ChatMessage.is_from_assistant.
  cbn [ChatMessage.role ChatMessage.message].
  destruct Hr as [-> | ->]; split; reflexivity.
Qed.

Lemma constructed_message_keeps_its_role_witness :
  let rt := InMemory.ascii_runtime in
  let m := Samples.msg 4 "assistant" "m4" in
  ChatMessage.init (Some 4) (py "s") (py "assistant") (py "m4") (Samples.at_minute 4)
  = Ok m
  /\ ChatMessage.is_from_user m = false
  /\ ChatContext.line m = py "assistant" ++ py ": " ++ py "m4".
Proof.
  intros rt m.
  assert (E : ChatMessage.init (Some 4) (py "s") (py "assistant") (py "m4")
                (Samples.at_minute 4) = Ok m) by reflexivity.
  split; [exact E|].
  destruct (constructed_message_keeps_its_role (Some 4) (py "s") (py "assistant")
              (py "m4") (Samples.at_minute 4) m E) as (H1 & H2).
  split; [rewrite H1; reflexivity|exact H2].
Defined.

(** ** ChatContext: the other bounds *)

Lemma py_slice_from_pos {A} (k : Z) (l : list A) :
  0 <= k -> py_slice_from k l = skipn (Z.to_nat k) l.
Proof.
  intros Hk. unfold py_slice_from.
  destruct (k <? 0) eqn:E; [apply Z.ltb_lt in E; lia|].
  destruct (Z.le_gt_cases k (Z.of_nat (List.length l))) as [Hle|Hgt].
  - now rewrite Z.min_l by lia.
  - rewrite Z.min_r by lia. rewrite Nat2Z.id.
    rewrite skipn_all. symmetry. apply skipn_all2. lia.
Qed.

(** X7: A negative bound does not give an empty window: with max_messages =
    -j (j >= 1) the slice [messages[j:]] is taken, so the window is the
    list without its j oldest messages, and the transcript is built from
    that. *)
Theorem negative_bound_drops_oldest `{Runtime} (messages : list ChatMessage.t)
    (j : Z) :
  1 <= j ->
  let ctx := {| ChatContext.messages := messages;
                ChatContext.max_messages := - j |} in
  ChatContext.get_recent_messages ctx = skipn (Z.to_nat j) messages
  /\ len (ChatContext.get_recent_messages ctx) = Z.max (len messages - j) 0
  /\ ChatContext.format_for_prompt ctx
     = py_join NL (List.map ChatContext.line (skipn (Z.to_nat j) messages)).
Proof.
  intros Hj ctx.
  assert (E : ChatContext.get_recent_messages ctx = skipn (Z.to_nat j) messages).
  { unfold ChatContext.get_recent_messages, ctx. cbn. rewrite Z.opp_involutive.
    apply py_slice_from_pos. lia. }
  split; [exact E|]. split.
  - rewrite E, len_skipn. pose proof (len_nonneg messages). lia.
  - now rewrite format_for_prompt_lines, E.
Qed.

Lemma negative_bound_drops_oldest_witness :
  let rt := InMemory.ascii_runtime in
  1 <= 6
  /\ ChatContext.get_recent_messages
       {| ChatContext.messages := Samples.eight; ChatContext.max_messages := - 6 |}
     = [Samples.msg 7 "user" "m7"; Samples.msg 8 "assistant" "m8"].
Proof.
  intros rt. split; [lia|].
  exact (proj1 (negative_bound_drops_oldest Samples.eight 6 ltac:(lia))).
Defined.

(** X8: Taking the window of a window changes nothing: for a bound K >= 0 the
    context built from [get_recent_messages] with the same bound has the
    same window and the same transcript.  (The chat service relies on it:
    it formats, with bound 6, the six messages it asked the repository
    for.) *)
Theorem window_of_window `{Runtime} (ctx : ChatContext.t) :
  0 <= ChatContext.max_messages ctx ->
  let ctx' := {| ChatContext.messages := ChatContext.get_recent_messages ctx;
                 ChatContext.max_messages := ChatContext.max_messages ctx |} in
  ChatContext.get_recent_messages ctx' = ChatContext.get_recent_messages ctx
  /\ ChatContext.format_for_prompt ctx' = ChatContext.format_for_prompt ctx.
Proof.
  intros HK ctx'.
  assert (E : ChatContext.get_recent_messages ctx'
              = ChatContext.get_recent_messages ctx).
  { unfold ctx'. destruct ctx as [ms K]. cbn in HK.
    unfold ChatContext.get_recent_messages at 1. cbn.
    destruct (Z.eq_dec K 0) as [-> | Hne].
    - apply py_slice_from_zero.
    - apply py_slice_from_short.
      destruct (recent_window ms K ltac:(lia)) as [Hlen _]. cbn zeta in Hlen. lia. }
  split; [exact E|]. now rewrite !format_for_prompt_lines, E.
Qed.

Lemma window_of_window_witness :
  let rt := InMemory.ascii_runtime in
  let ctx := ChatContext.init Samples.eight (Some 3) in
  0 <= ChatContext.max_messages ctx
  /\ ChatContext.format_for_prompt
       {| ChatContext.messages := ChatContext.get_recent_messages ctx;
          ChatContext.max_messages := 3 |}
     = ChatContext.format_for_prompt ctx.
Proof.
  intros rt ctx.
  assert (H : 0 <= ChatContext.max_messages ctx) by (simpl; lia).
  split; [exact H|].
  exact (proj2 (window_of_window ctx H)).
Defined.

(** ** The in-memory chat repository and the history methods *)



Lemma items_app (session_id : str) (a b : FakeChatRepo.t) :
  FakeChatRepo.items session_id (a ++ b)
  = FakeChatRepo.items session_id a ++ FakeChatRepo.items session_id b.
Proof. apply filter_app. Qed.

Lemma str_eqb_refl (a : str) : str_eqb a a = true.
Proof. now apply str_eqb_eq. Qed.

Lemma items_after_delete (session_id other : str) (_msgs : FakeChatRepo.t) :
  let kept := snd (FakeChatRepo.delete_session_history session_id _msgs) in
  FakeChatRepo.items session_id kept = []
  /\ (other <> session_id ->
      FakeChatRepo.items other kept = FakeChatRepo.items other _msgs)
  /\ fst (FakeChatRepo.delete_session_history session_id _msgs)
     = Ok (len (FakeChatRepo.items session_id _msgs)).
Proof.
  cbn [FakeChatRepo.delete_session_history snd fst]. unfold FakeChatRepo.items.
  induction _msgs as [|m l (IH1 & IH2 & IH3)]; [repeat split|].
  cbn [filter]. destruct (str_eqb (ChatMessage.session_id m) session_id) eqn:E;
    cbn [negb].
  - split; [exact IH1|]. split.
    + intros Hne. rewrite (IH2 Hne).
      apply str_eqb_eq in E.
      rewrite (str_eqb_neq (ChatMessage.session_id m) other) by congruence.
      reflexivity.
    + inversion IH3 as [IH3']. f_equal. unfold len in *. cbn [List.length]. lia.
  - cbn [filter]. rewrite E. split; [exact IH1|]. split.
    + intros Hne. now rewrite (IH2 Hne).
    + inversion IH3 as [IH3']. f_equal. unfold len in *. cbn [List.length]. lia.
Qed.

Section HistoryFacts.
Context {A : Type}.
Import ChatService InMemory.

(** X10: [clear_session_history] removes all the messages of the session and
    only those, and returns how many there were: afterwards the history of
    that session is empty whatever the limit, and the history of any other
    session is what it was. *)
Theorem clear_session_history_purges (w : World A) (session_id : str) :
  exists w',
    run history_collaborators (clear_session_history session_id) w
    = (Ok (len (FakeChatRepo.items session_id (_msgs w))), w',
       [chat_repo_delete_session_history session_id])
    /\ (forall limit,
          FakeChatRepo.get_session_history session_id limit (_msgs w') = [])
    /\ (forall other limit, other <> session_id ->
          FakeChatRepo.get_session_history other limit (_msgs w')
          = FakeChatRepo.get_session_history other limit (_msgs w))
    /\ _data w' = _data w.
Proof.
  pose proof (fun other => items_after_delete session_id other (_msgs w)) as Hd.
  cbn zeta in Hd.
  exists (set_msgs w (snd (FakeChatRepo.delete_session_history session_id (_msgs w)))).
  split.
  - unfold clear_session_history.
    cbn [perform run op ret HistorySig history_ret logged history_collaborators].
    destruct (Hd session_id) as (_ & _ & Hn).
    destruct (FakeChatRepo.delete_session_history session_id (_msgs w)) as [r kept].
    cbn [fst snd] in *. rewrite Hn. reflexivity.
  - cbn [_msgs set_msgs _data]. split; [|split; [|reflexivity]].
    + intros limit. unfold FakeChatRepo.get_session_history.
      destruct (Hd session_id) as (-> & _ & _).
      destruct limit; [unfold py_slice_from; apply skipn_nil|reflexivity].
    + intros other limit Hne. unfold FakeChatRepo.get_session_history.
      destruct (Hd other) as (_ & Ho & _). now rewrite (Ho Hne).
Qed.

(** X11: [get_session_history] returns the messages of the session in the order
    they were stored and leaves the store alone.  Without a limit it
    returns all of them; with a limit k >= 1 the last min(n, k); and with
    the limit 0 all of them again, not none. *)
Theorem get_session_history_limits (w : World A) (session_id : str)
    (limit : option Z) :
  let items := FakeChatRepo.items session_id (_msgs w) in
  exists history,
    run history_collaborators (get_session_history session_id limit) w
    = (Ok history, w, [chat_repo_get_session_history session_id limit])
    /\ (limit = None -> history = items)
    /\ (limit = Some 0 -> history = items)
    /\ (forall k, limit = Some k -> 1 <= k ->
          history = skipn (Z.to_nat (len items - Z.min (len items) k)) items
          /\ len history = Z.min (len items) k).
Proof.
  intros items. eexists. split; [reflexivity|].
  unfold FakeChatRepo.get_session_history. fold items.
  split; [intros ->; reflexivity|]. split.
  - intros ->. apply py_slice_from_zero.
  - intros k -> Hk. rewrite py_slice_from_neg by exact Hk.
    split; [reflexivity|]. rewrite len_skipn. pose proof (len_nonneg items). lia.
Qed.

End HistoryFacts.

Lemma get_session_history_limits_witness :
  let w := MoreSamples.mixed_world in
  (Some 2 = Some 2 /\ 1 <= 2)
  /\ run InMemory.history_collaborators
       (ChatService.get_session_history (py "s") (Some 2)) w
     = (Ok [Samples.msg 3 "assistant" "m2"; Samples.msg 5 "user" "m3"], w,
        [ChatService.chat_repo_get_session_history (py "s") (Some 2)]).
Proof.
  intros w. split; [split; [reflexivity|lia]|].
  destruct (get_session_history_limits w (py "s") (Some 2))
    as (history & Hrun & _ & _ & Hk).
  rewrite Hrun. destruct (Hk 2 eq_refl ltac:(lia)) as (-> & _). reflexivity.
Defined.

Lemma clear_session_history_purges_witness :
  let w := MoreSamples.mixed_world in
  (py "t" <> py "s")
  /\ exists w',
       run InMemory.history_collaborators
         (ChatService.clear_session_history (py "s")) w
       = (Ok 3, w', [ChatService.chat_repo_delete_session_history (py "s")])
       /\ FakeChatRepo.get_session_history (py "t") None (InMemory._msgs w')
          = [MoreSamples.other 2 "user" "n1"; MoreSamples.other 4 "assistant" "n2"].
Proof.
  intros w.
  assert (Hne : py "t" <> py "s") by discriminate.
  split; [exact Hne|].
  destruct (clear_session_history_purges w (py "s")) as (w' & Hrun & _ & Hother & _).
  exists w'. split; [exact Hrun|].
  rewrite (Hother (py "t") None Hne). reflexivity.
Defined.


(** ** The turn and the store *)

Lemma chat_message_init_blank_message id session_id role message timestamp :
  role = py "user" \/ role = py "assistant" ->
  blank message = true ->
  raises ValueError (ChatMessage.init id session_id role message timestamp).
Proof.
  intros Hr Hb. unfold ChatMessage.init, ChatMessage.__post_init__.
  cbn [ChatMessage.role ChatMessage.message]. unfold blank in Hb. rewrite Hb.
  destruct Hr as [-> | ->]; eexists; split; reflexivity.
Qed.

Section TurnAndStore.
Context `{Runtime}.
Context {A : Type} (ai : InMemory.responder A).
Import ChatService InMemory.

(** X12: A completed turn shows in the history: the history of the session is
    what it was followed by the user message and the assistant message,
    clearing the session then reports two more messages than before, and
    the history of every other session is unchanged. *)
Theorem completed_turn_extends_history (w w' : World A)
    (request : ChatMessageRequestDTO.t) (T : str) (a' : A) dto calls :
  let session_id := ChatMessageRequestDTO.session_id request in
  let message := ChatMessageRequestDTO.message request in
  let recent := FakeChatRepo.get_recent_messages session_id 6 (_msgs w) in
  let context := ChatContext.format_for_prompt (ChatContext.init recent (Some 6)) in
  blank session_id = false -> blank message = false ->
  ai message (_data w) context (ai_state w) = (Ok T, a') ->
  run (collaborators ai) (process_message request) w = (Ok dto, w', calls) ->
  (exists u a,
     FakeChatRepo.get_session_history session_id None (_msgs w')
     = FakeChatRepo.get_session_history session_id None (_msgs w) ++ [u; a]
     /\ ChatMessage.role u = py "user" /\ ChatMessage.message u = message
     /\ ChatMessage.role a = py "assistant" /\ ChatMessage.message a = T)
  /\ fst (FakeChatRepo.delete_session_history session_id (_msgs w'))
     = Ok (len (FakeChatRepo.items session_id (_msgs w)) + 2)
  /\ (forall other limit, other <> session_id ->
        FakeChatRepo.get_session_history other limit (_msgs w')
        = FakeChatRepo.get_session_history other limit (_msgs w)).
Proof.
  intros session_id message recent context Hs Hm Hai Hrun.
  destruct (in_memory_completed_turn ai w w' request T a' dto calls Hs Hm Hai Hrun)
    as ((u & a & Hmsgs & (Hu1 & Hu2 & Hu3) & (Ha1 & Ha2 & Ha3) & _) & _).
  fold session_id message in Hu2, Hu3, Ha3.
  assert (Hitems : FakeChatRepo.items session_id (_msgs w')
                   = FakeChatRepo.items session_id (_msgs w) ++ [u; a]).
  { rewrite Hmsgs, items_app. f_equal. unfold FakeChatRepo.items. cbn [filter].
    rewrite Hu3, Ha3, str_eqb_refl. reflexivity. }
  split; [|split].
  - exists u, a. unfold FakeChatRepo.get_session_history. auto.
  - destruct (items_after_delete session_id session_id (_msgs w')) as (_ & _ & ->).
    rewrite Hitems. f_equal. unfold len. rewrite length_app. cbn [List.length]. lia.
  - intros other limit Hne. unfold FakeChatRepo.get_session_history.
    assert (Ho : FakeChatRepo.items other (_msgs w')
                 = FakeChatRepo.items other (_msgs w)).
    { rewrite Hmsgs, items_app. unfold FakeChatRepo.items at 2. cbn [filter].
      rewrite Hu3, Ha3, (str_eqb_neq session_id other) by congruence.
      apply app_nil_r. }
    now rewrite Ho.
Qed.

(** X13: Whatever the AI service does and however the turn ends, the turn only
    appends to the store, at most two messages, all of them of the
    request's session; it removes or rewrites nothing, and it does not
    touch the products. *)
Theorem turn_only_appends_to_its_session (w w' : World A)
    (request : ChatMessageRequestDTO.t) outcome calls :
  run (collaborators ai) (process_message request) w = (outcome, w', calls) ->
  exists added,
    _msgs w' = _msgs w ++ added
    /\ (List.length added <= 2)%nat
    /\ Forall (fun m => ChatMessage.session_id m
                        = ChatMessageRequestDTO.session_id request) added
    /\ _data w' = _data w.
Proof.
  intros Hrun. unfold process_message in Hrun. run_step Hrun.
  destruct (ai _ _ _ _) as [[T|e] a'] eqn:Hai; run_step Hrun.
  2:{ inversion Hrun; subst. exists []. rewrite app_nil_r. repeat split; auto. }
  destruct (ChatMessage.init None _ (py "user") _ _) as [u0|e] eqn:Eu;
    run_step Hrun.
  2:{ inversion Hrun; subst. exists []. rewrite app_nil_r. repeat split; auto. }
  apply chat_message_init_inv in Eu as (-> & _ & _).
  destruct (ChatMessage.init None _ (py "assistant") _ _) as [a0|e] eqn:Ea;
    run_step Hrun.
  - apply chat_message_init_inv in Ea as (-> & _ & _).
    inversion Hrun; subst. eexists. split; [cbn; rewrite <- app_assoc; reflexivity|].
    split; [cbn; lia|]. split; [|reflexivity].
    constructor; [reflexivity|]. constructor; [reflexivity|constructor].
  - inversion Hrun; subst. eexists. split; [reflexivity|].
    split; [cbn; lia|]. split; [|reflexivity].
    constructor; [reflexivity|constructor].
Qed.

(** X14: When the AI service answers with a blank text, the turn fails at the
    construction of the assistant message, after the user message has been
    saved: the call raises [ValueError] and the store has one more message,
    the user's, with no assistant message after it. *)
Theorem blank_answer_leaves_user_message_alone (w : World A)
    (request : ChatMessageRequestDTO.t) (T : str) (a' : A) :
  let session_id := ChatMessageRequestDTO.session_id request in
  let message := ChatMessageRequestDTO.message request in
  let recent := FakeChatRepo.get_recent_messages session_id 6 (_msgs w) in
  let context := ChatContext.format_for_prompt (ChatContext.init recent (Some 6)) in
  blank session_id = false -> blank message = false ->
  ai message (_data w) context (ai_state w) = (Ok T, a') ->
  blank T = true ->
  exists e w' u,
    run (collaborators ai) (process_message request) w
    = (Err e, w',
       [ product_repo_get_all;
         chat_repo_get_recent_messages session_id 6;
         ai_service_generate_response message (_data w) context;
         datetime_now_UTC;
         chat_repo_save_message (ChatMessage.set_id u None);
         datetime_utcnow ])
    /\ exn_class_of e = ValueError
    /\ _msgs w' = _msgs w ++ [u]
    /\ ChatMessage.role u = py "user" /\ ChatMessage.message u = message
    /\ ChatMessage.session_id u = session_id.
Proof.
  intros session_id message recent context Hs Hm Hai HT.
  unfold process_message. fold session_id message.
  cbn [bind perform lift seq run op ret ChatSig chat_ret logged collaborators].
  fold recent. fold context. rewrite Hai.
  cbn [bind perform lift seq run op ret ChatSig chat_ret logged collaborators].
  rewrite (chat_message_init_ok None session_id (py "user") message _
             (or_introl eq_refl) Hm Hs).
  cbn [bind perform lift seq run op ret ChatSig chat_ret logged collaborators
       FakeChatRepo.save_message].
  match goal with
  | |- context [ChatMessage.init None session_id (py "assistant") T ?ts] =>
      destruct (chat_message_init_blank_message None session_id (py "assistant") T ts
                  (or_intror eq_refl) HT) as (e & He & Hc); rewrite He
  end.
  cbn [bind perform lift seq run op ret ChatSig chat_ret logged collaborators].
  exists e. eexists.
  exists (ChatMessage.set_id
            {| ChatMessage.id := None; ChatMessage.session_id := session_id;
               ChatMessage.role := py "user"; ChatMessage.message := message;
               ChatMessage.timestamp := {| instant := clock w; tz_aware := true |} |}
            (Some (FakeChatRepo.next_id (_msgs w)))).
  split; [reflexivity|].
  split; [exact Hc|]. repeat split.
Qed.

End TurnAndStore.

Lemma completed_turn_extends_history_witness :
  let rt := InMemory.ascii_runtime in
  let T := py "[AI] hola (2 productos)" in
  (blank (py "s") = false /\ blank (py "hola") = false)
  /\ exists dto w' calls,
       run (InMemory.collaborators InMemory.FakeAI)
           (ChatService.process_message Samples.hola) MoreSamples.mixed_world
       = (Ok dto, w', calls)
       /\ fst (FakeChatRepo.delete_session_history (py "s") (InMemory._msgs w'))
          = Ok 5.
Proof.
  intros rt T.
  assert (Hs : blank (py "s") = false) by reflexivity.
  assert (Hm : blank (py "hola") = false) by reflexivity.
  split; [split; assumption|].
  pose proof (in_memory_turn InMemory.FakeAI MoreSamples.mixed_world Samples.hola T tt
                Hs Hm eq_refl eq_refl) as Hturn.
  cbn zeta in Hturn.
  eexists. eexists. eexists. split; [exact Hturn|].
  destruct (completed_turn_extends_history InMemory.FakeAI MoreSamples.mixed_world _
              Samples.hola T tt _ _ Hs Hm eq_refl Hturn) as (_ & Hdel & _).
  exact Hdel.
Defined.

Lemma turn_only_appends_to_its_session_witness :
  let rt := InMemory.ascii_runtime in
  let x := run (InMemory.collaborators MoreSamples.BlankAI)
               (ChatService.process_message Samples.hola) MoreSamples.mixed_world in
  exists added,
    InMemory._msgs (snd (fst x)) = MoreSamples.mixed ++ added
    /\ (List.length added <= 2)%nat.
Proof.
  intros rt x.
  destruct x as [[outcome w'] calls] eqn:E. subst x.
  destruct (turn_only_appends_to_its_session MoreSamples.BlankAI
              MoreSamples.mixed_world w' Samples.hola outcome calls E)
    as (added & H1 & H2 & _).
  exists added. split; [exact H1|exact H2].
Defined.

Lemma blank_answer_leaves_user_message_alone_witness :
  let rt := InMemory.ascii_runtime in
  (blank (py "s") = false /\ blank (py "hola") = false /\ blank (py "   ") = true)
  /\ exists e w' u,
       fst (run (InMemory.collaborators MoreSamples.BlankAI)
              (ChatService.process_message Samples.hola) MoreSamples.mixed_world)
       = (Err e, w')
       /\ exn_class_of e = ValueError
       /\ InMemory._msgs w' = MoreSamples.mixed ++ [u]
       /\ ChatMessage.message u = py "hola".
Proof.
  intros rt.
  assert (Hs : blank (py "s") = false) by reflexivity.
  assert (Hm : blank (py "hola") = false) by reflexivity.
  assert (HT : blank (py "   ") = true) by reflexivity.
  split; [repeat split; assumption|].
  destruct (blank_answer_leaves_user_message_alone MoreSamples.BlankAI
              MoreSamples.mixed_world Samples.hola (py "   ") tt Hs Hm eq_refl HT)
    as (e & w' & u & Hrun & Hc & Hmsgs & _ & Hmsg & _).
  exists e, w', u. rewrite Hrun. repeat split; assumption.
Defined.

(** ** Stripping *)

Lemma lstrip_head (s : str) (c : N) :
  hd_error (lstrip s) = Some c -> py_isspace c = false.
Proof.
  induction s as [|x s IH]; cbn; [discriminate|].
  destruct (py_isspace x) eqn:E; [exact IH|].
  cbn. intros [= <-]. exact E.
Qed.

Lemma lstrip_id (s : str) :
  (forall c, hd_error s = Some c -> py_isspace c = false) -> lstrip s = s.
Proof.
  destruct s as [|x s]; [reflexivity|]. intros Hh. cbn.
  now rewrite (Hh x eq_refl).
Qed.

Lemma lstrip_suffix (s : str) : exists sp, s = sp ++ lstrip s.
Proof.
  induction s as [|x s (sp & IH)]; [now exists []|]. cbn.
  destruct (py_isspace x).
  - exists (x :: sp). cbn. now f_equal.
  - now exists [].
Qed.

Lemma py_strip_head (s : str) (c : N) :
  hd_error (py_strip s) = Some c -> py_isspace c = false.
Proof.
  unfold py_strip. intros Hc.
  destruct (lstrip_suffix (rev (lstrip s))) as (sp & Hsp).
  apply (f_equal (@rev N)) in Hsp. rewrite rev_involutive, rev_app_distr in Hsp.
  apply (lstrip_head s c). rewrite Hsp.
  destruct (rev (lstrip (rev (lstrip s)))) as [|y t]; [discriminate|exact Hc].
Qed.

Lemma py_strip_idempotent (s : str) : py_strip (py_strip s) = py_strip s.
Proof.
  pose proof (py_strip_head s) as Hh. unfold py_strip in *.
  rewrite (lstrip_id _ Hh), rev_involutive.
  rewrite (lstrip_id (lstrip (rev (lstrip s)))); [reflexivity|].
  apply lstrip_head.
Qed.

Lemma blank_py_strip (s : str) : py_strip s <> [] -> blank (py_strip s) = false.
Proof.
  intros Hne. apply blank_false_iff. now rewrite py_strip_idempotent.
Qed.

(** ** The Gemini adapter, further *)

Lemma attempt_ok_clean (r : result GeminiService.Response) (s : str) :
  GeminiService.attempt r = Ok s -> blank s = false /\ py_strip s = s.
Proof.
  assert (Hp : blank GeminiService.PLACEHOLDER = false
               /\ py_strip GeminiService.PLACEHOLDER = GeminiService.PLACEHOLDER)
    by (split; vm_compute; reflexivity).
  unfold GeminiService.attempt. destruct r as [resp|e]; [|discriminate].
  destruct (GeminiService.getattr_text resp) as [[s0|]|e]; [| |discriminate].
  - cbn [GeminiService.text_or_placeholder].
    destruct (py_not (py_strip s0)) eqn:E; cbn [negb].
    + intros [= <-]. exact Hp.
    + intros [= <-]. split; [|apply py_strip_idempotent].
      apply blank_py_strip. intros E0. rewrite E0 in E. discriminate.
  - cbn. intros [= <-]. exact Hp.
Qed.

Section GeminiFurther.
Context `{Runtime}.
Context {W : Type} (h : handler GeminiService.GeminiSig W).
Import GeminiService.

(** The shape of every call of [generate_response]. *)
Lemma generate_response_shape (self self' : t) (user_message : str)
    (products : list Product.t) (ctx : context) (w w' : W) out calls :
  let prompt := _build_prompt user_message products ctx in
  run h (generate_response user_message products ctx self) w
  = ((out, self'), w', calls) ->
  (exists r1, (attempt r1 = out
               \/ exists e, attempt r1 = Err e /\ model_unavailable e = false
                            /\ out = Err e)
              /\ self' = self
              /\ calls = [generate_content (model self) prompt])
  \/ (exists r2, attempt r2 = out
                 /\ self' = set_model self fallback_model
                 /\ calls = [generate_content (model self) prompt;
                             generate_content fallback_model prompt]).
Proof.
  intros prompt Hrun. unfold generate_response in Hrun. fold prompt in Hrun.
  destruct (h (generate_content (model self) prompt) w) as [r1 w1] eqn:E1.
  destruct (attempt r1) as [s|e] eqn:Ha.
  - rewrite (call_first_attempt_ok h self prompt w w1 r1 s E1 Ha) in Hrun.
    inversion Hrun; subst. left. exists r1. auto.
  - destruct (model_unavailable e) eqn:Hu.
    + destruct (h (generate_content fallback_model prompt) w1) as [r2 w2] eqn:E2.
      rewrite (call_falls_back h self prompt w w1 w2 r1 r2 e E1 Ha Hu E2) in Hrun.
      inversion Hrun; subst. right. exists r2. auto.
    + rewrite (call_other_failure h self prompt w w1 r1 e E1 Ha Hu) in Hrun.
      inversion Hrun; subst. left. exists r1. split; [|auto].
      right. exists e. auto.
Qed.

Lemma generate_response_ok_clean (self self' : t) (user_message : str)
    (products : list Product.t) (ctx : context) (w w' : W) s calls :
  run h (generate_response user_message products ctx self) w
  = ((Ok s, self'), w', calls) ->
  blank s = false /\ py_strip s = s.
Proof.
  intros Hrun.
  destruct (generate_response_shape _ _ _ _ _ _ _ _ _ Hrun)
    as [(r1 & [Ha | (e & _ & _ & He)] & _) | (r2 & Ha & _)];
    try discriminate; eapply attempt_ok_clean; eassumption.
Qed.

(** X15: Whenever [generate_response] returns a text, the text is not blank and
    has no whitespace at either end: it is the stripped text of a provider
    answer, or the placeholder sentence.  An empty or whitespace-only
    answer is never handed to the caller. *)
Theorem generate_response_text_is_never_blank (self self' : t)
    (user_message : str) (products : list Product.t) (ctx : context)
    (w w' : W) s calls :
  run h (generate_response user_message products ctx self) w
  = ((Ok s, self'), w', calls) ->
  s <> [] /\ blank s = false /\ py_strip s = s.
Proof.
  intros Hrun.
  destruct (generate_response_ok_clean _ _ _ _ _ _ _ _ _ Hrun) as (Hb & Hs).
  split; [|auto]. now apply blank_false_iff in Hb.
Qed.

(** X16: One call of [generate_response] makes one provider call, or two: the
    first to the adapter's active model, the second, if any, to the
    fallback model, both with the same prompt.  The adapter is left exactly
    as it was unless the fallback was taken, and its [model_name] attribute
    is never changed, so after a fallback it no longer names the active
    model. *)
Theorem generate_response_calls_once_or_twice (self self' : t)
    (user_message : str) (products : list Product.t) (ctx : context)
    (w w' : W) out calls :
  let prompt := _build_prompt user_message products ctx in
  run h (generate_response user_message products ctx self) w
  = ((out, self'), w', calls) ->
  ((calls = [generate_content (model self) prompt] /\ self' = self)
   \/ (calls = [generate_content (model self) prompt;
                generate_content fallback_model prompt]
       /\ model self' = fallback_model))
  /\ model_name self' = model_name self.
Proof.
  intros prompt Hrun.
  destruct (generate_response_shape _ _ _ _ _ _ _ _ _ Hrun)
    as [(r1 & _ & -> & ->) | (r2 & _ & -> & ->)].
  - split; [left; auto|reflexivity].
  - split; [right; auto|reflexivity].
Qed.

(** X17: The context may be handed over as a [ChatContext] or as the string it
    formats to: the prompt is the same, and so is everything the call
    does. *)
Theorem context_object_or_its_transcript (self : t) (user_message : str)
    (products : list Product.t) (c : ChatContext.t) (w : W) :
  _build_prompt user_message products (CtxObj c)
  = _build_prompt user_message products (CtxStr (ChatContext.format_for_prompt c))
  /\ run h (generate_response user_message products (CtxObj c) self) w
     = run h (generate_response user_message products
                (CtxStr (ChatContext.format_for_prompt c)) self) w.
Proof.
  assert (E : _build_prompt user_message products (CtxObj c)
              = _build_prompt user_message products
                  (CtxStr (ChatContext.format_for_prompt c))).
  { unfold _build_prompt. now rewrite py_or_empty. }
  split; [exact E|]. unfold generate_response. now rewrite E.
Qed.

End GeminiFurther.

Lemma generate_response_text_is_never_blank_witness :
  let rt := InMemory.ascii_runtime in
  let script := [Samples.said "  Hola, tenemos Pegasus.  "] in
  exists calls,
    run Samples.scripted
      (GeminiService.generate_response (py "hola") [] (GeminiService.CtxStr [])
         Samples.adapter) script
    = ((Ok (py "Hola, tenemos Pegasus."), Samples.adapter), [], calls)
    /\ blank (py "Hola, tenemos Pegasus.") = false.
Proof.
  intros rt script. eexists.
  assert (E : run Samples.scripted
                (GeminiService.generate_response (py "hola") []
                   (GeminiService.CtxStr []) Samples.adapter) script
              = ((Ok (py "Hola, tenemos Pegasus."), Samples.adapter), [],
                 [GeminiService.generate_content
                    (GeminiService.model Samples.adapter)
                    (GeminiService._build_prompt (py "hola") []
                       (GeminiService.CtxStr []))]))
    by (vm_compute; reflexivity).
  split; [exact E|].
  exact (proj1 (proj2 (generate_response_text_is_never_blank Samples.scripted
                         _ _ _ _ _ _ _ _ _ E))).
Defined.

Lemma generate_response_calls_once_or_twice_witness :
  let rt := InMemory.ascii_runtime in
  let script := [Err Samples.model_not_found; Samples.said "Hola"] in
  let x := run Samples.scripted
             (GeminiService.generate_response (py "hola") []
                (GeminiService.CtxStr []) Samples.adapter) script in
  GeminiService.model_name (snd (fst (fst x))) = py "gemini-2.5-flash"
  /\ GeminiService.model (snd (fst (fst x))) = GeminiService.fallback_model.
Proof.
  intros rt script x.
  destruct x as [[[out self'] w'] calls] eqn:E. subst x. cbn [fst snd].
  destruct (generate_response_calls_once_or_twice Samples.scripted Samples.adapter
              self' (py "hola") [] (GeminiService.CtxStr []) script w' out calls E)
    as (_ & Hn).
  split; [exact Hn|].
  vm_compute in E. inversion E. reflexivity.
Defined.

(** X18: [GeminiService(...)] refuses to start without an API key, missing or
    empty, whatever model is asked for.  With a key it starts, its active
    model carries the configured name, and that name is the [model_name]
    argument when one is given and not empty, else the value of
    GEMINI_MODEL when that variable is set (even to the empty string),
    else [gemini-2.5-flash]. *)
Theorem gemini_service_init_configuration (environ : str -> option str)
    (model_name : option str) :
  ((environ (py "GEMINI_API_KEY") = None \/ environ (py "GEMINI_API_KEY") = Some []) ->
   raises RuntimeError (GeminiService.__init__ environ model_name))
  /\ (forall key, environ (py "GEMINI_API_KEY") = Some key -> key <> [] ->
      exists self,
        GeminiService.__init__ environ model_name = Ok self
        /\ GeminiService.gm_model_name (GeminiService.model self)
           = GeminiService.model_name self
        /\ (forall n, model_name = Some n -> n <> [] ->
              GeminiService.model_name self = n)
        /\ (model_name = None \/ model_name = Some [] ->
            forall v, environ (py "GEMINI_MODEL") = Some v ->
              GeminiService.model_name self = v)
        /\ (model_name = None \/ model_name = Some [] ->
            environ (py "GEMINI_MODEL") = None ->
            GeminiService.model_name self = py "gemini-2.5-flash")).
Proof.
  unfold GeminiService.__init__. split.
  - intros [-> | ->]; eexists; split; reflexivity.
  - intros key -> Hk. destruct key as [|c key]; [contradiction|].
    cbn [py_not]. eexists. split; [reflexivity|]. cbn [GeminiService.model
      GeminiService.model_name GeminiService.gm_model_name].
    split; [reflexivity|]. split; [|split].
    + intros n -> Hn. destruct n; [contradiction|reflexivity].
    + intros Hm v Hv. unfold GeminiService.getenv. rewrite Hv.
      destruct Hm as [-> | ->]; reflexivity.
    + intros Hm Hv. unfold GeminiService.getenv. rewrite Hv.
      destruct Hm as [-> | ->]; reflexivity.
Qed.

Lemma gemini_service_init_configuration_witness :
  (MoreSamples.env_with_model (py "GEMINI_API_KEY") = Some (py "k") /\ py "k" <> [])
  /\ GeminiService.__init__ MoreSamples.env_key_only None = Ok Samples.adapter
  /\ exists self,
       GeminiService.__init__ MoreSamples.env_with_model None = Ok self
       /\ GeminiService.model_name self = py "gemini-2.0-pro".
Proof.
  assert (Hk : MoreSamples.env_with_model (py "GEMINI_API_KEY") = Some (py "k"))
    by reflexivity.
  assert (Hne : py "k" <> []) by discriminate.
  split; [split; assumption|]. split; [reflexivity|].
  destruct (proj2 (gemini_service_init_configuration MoreSamples.env_with_model None)
              (py "k") Hk Hne) as (self & Hinit & _ & _ & Henv & _).
  exists self. split; [exact Hinit|].
  exact (Henv (or_introl eq_refl) (py "gemini-2.0-pro") eq_refl).
Defined.

(** ** The turn with the Gemini adapter as AI service *)

Section TurnWithGemini.
Context `{Runtime}.
Context {P : Type} (provider : handler GeminiService.GeminiSig P).
Import ChatService InMemory.

(** X19: With a [GeminiService] as the AI service and the in-memory store, a
    turn for a valid request is all or nothing: either it completes and the
    store has the user message and the assistant message appended, or it
    raises and the store is what it was.  A user message is never left
    without its answer, because the adapter never returns a blank text. *)
Theorem turn_with_gemini_is_all_or_nothing
    (w w' : World (GeminiService.t * P)) (request : ChatMessageRequestDTO.t)
    outcome calls :
  blank (ChatMessageRequestDTO.session_id request) = false ->
  blank (ChatMessageRequestDTO.message request) = false ->
  run (collaborators (gemini_responder provider)) (process_message request) w
  = (outcome, w', calls) ->
  (exists dto u a,
     outcome = Ok dto
     /\ _msgs w' = _msgs w ++ [u; a]
     /\ ChatMessage.role u = py "user"
     /\ ChatMessage.message u = ChatMessageRequestDTO.message request
     /\ ChatMessage.role a = py "assistant"
     /\ ChatMessage.message a = ChatMessageResponseDTO.assistant_message dto
     /\ blank (ChatMessageResponseDTO.assistant_message dto) = false)
  \/ (exists e, outcome = Err e /\ _msgs w' = _msgs w).
Proof.
  intros Hs Hm Hrun.
  set (session_id := ChatMessageRequestDTO.session_id request) in *.
  set (message := ChatMessageRequestDTO.message request) in *.
  set (recent := FakeChatRepo.get_recent_messages session_id 6 (_msgs w)).
  set (context := ChatContext.format_for_prompt (ChatContext.init recent (Some 6))).
  destruct (gemini_responder provider message (_data w) context (ai_state w))
    as [[T|e] st'] eqn:Hai.
  - assert (HT : blank T = false).
    { unfold gemini_responder in Hai.
      destruct (run provider _ (snd (ai_state w))) as [[[out self'] p'] pcalls] eqn:Ep.
      inversion Hai; subst out.
      exact (proj1 (generate_response_ok_clean provider _ _ _ _ _ _ _ _ _ Ep)). }
    pose proof (in_memory_turn (gemini_responder provider) w request T st'
                  Hs Hm HT Hai) as Hturn.
    cbn zeta in Hturn. rewrite Hturn in Hrun. inversion Hrun; subst. clear Hrun.
    left. eexists. eexists. eexists. split; [reflexivity|].
    split; [cbn [_msgs]; rewrite <- app_assoc; reflexivity|].
    repeat split. exact HT.
  - destruct (in_memory_failed_turn (gemini_responder provider) w request e st' Hai)
      as (w1 & Hfail & Hmsgs & _).
    rewrite Hfail in Hrun. inversion Hrun; subst.
    right. exists e. auto.
Qed.

End TurnWithGemini.

Lemma turn_with_gemini_is_all_or_nothing_witness :
  let rt := InMemory.ascii_runtime in
  let w : InMemory.World (GeminiService.t * list (result GeminiService.Response)) :=
    {| InMemory._data := MoreSamples.catalog; InMemory._msgs := MoreSamples.mixed;
       InMemory.ai_state :=
         (Samples.adapter, [Err Samples.model_not_found; Err Samples.quota_exceeded]);
       InMemory.clock := 1000 |} in
  let x := run (InMemory.collaborators (InMemory.gemini_responder Samples.scripted))
               (ChatService.process_message Samples.hola) w in
  (blank (py "s") = false /\ blank (py "hola") = false)
  /\ fst (fst x) = Err Samples.quota_exceeded
  /\ InMemory._msgs (snd (fst x)) = MoreSamples.mixed.
Proof.
  intros rt w x.
  assert (Hs : blank (py "s") = false) by reflexivity.
  assert (Hm : blank (py "hola") = false) by reflexivity.
  split; [split; assumption|].
  destruct x as [[outcome w'] calls] eqn:E. subst x. cbn [fst snd].
  assert (Ho : outcome = Err Samples.quota_exceeded)
    by (vm_compute in E; inversion E; reflexivity).
  split; [exact Ho|].
  destruct (turn_with_gemini_is_all_or_nothing Samples.scripted w w' Samples.hola
              outcome calls Hs Hm E)
    as [(dto & u & a & Hok & _) | (e & _ & Hmsgs)].
  - rewrite Ho in Hok. discriminate.
  - exact Hmsgs.
Defined.

(** ** Request models *)

(** X20: A chat request is accepted exactly when neither field is blank, and it
    then carries both fields as they were sent, untrimmed.  What the
    request model accepts the message constructor accepts too: the turn's
    user message can always be built from an accepted request. *)
Theorem chat_request_accepted_iff (session_id message : str) (timestamp : datetime) :
  (forall request,
     ChatMessageRequestDTO.init session_id message = Ok request
     <-> (blank session_id = false /\ blank message = false
          /\ request = {| ChatMessageRequestDTO.session_id := session_id;
                          ChatMessageRequestDTO.message := message |}))
  /\ (forall request,
        ChatMessageRequestDTO.init session_id message = Ok request ->
        exists user_msg,
          ChatMessage.init None (ChatMessageRequestDTO.session_id request) (py "user")
            (ChatMessageRequestDTO.message request) timestamp = Ok user_msg).
Proof.
  assert (Hiff : forall request,
     ChatMessageRequestDTO.init session_id message = Ok request
     <-> (blank session_id = false /\ blank message = false
          /\ request = {| ChatMessageRequestDTO.session_id := session_id;
                          ChatMessageRequestDTO.message := message |})).
  { intros request. split.
    - destruct (blank session_id) eqn:Es.
      + destruct (request_init_blank session_id message (or_introl Es))
          as (e & -> & _). discriminate.
      + destruct (blank message) eqn:Em.
        * destruct (request_init_blank session_id message (or_intror Em))
            as (e & -> & _). discriminate.
        * rewrite (request_init_ok _ _ Es Em). intros [= <-]. auto.
    - intros (Es & Em & ->). now apply request_init_ok. }
  split; [exact Hiff|].
  intros request E. apply Hiff in E as (Es & Em & ->). cbn.
  eexists. apply chat_message_init_ok; auto.
Qed.

Lemma chat_request_accepted_iff_witness :
  (blank (py "s1") = false /\ blank (py " hola ") = false)
  /\ ChatMessageRequestDTO.init (py "s1") (py " hola ")
     = Ok {| ChatMessageRequestDTO.session_id := py "s1";
             ChatMessageRequestDTO.message := py " hola " |}.
Proof.
  assert (Hs : blank (py "s1") = false) by reflexivity.
  assert (Hm : blank (py " hola ") = false) by reflexivity.
  split; [split; assumption|].
  apply (proj2 (proj1 (chat_request_accepted_iff (py "s1") (py " hola ")
                         (Samples.at_minute 0)) _)).
  auto.
Defined.

(** ** ProductService *)

Ltac repo_step :=
  cbn [bind perform lift seq run op ret ProductService.RepoSig
       ProductService.repo_ret logged FakeProductRepo.repo raise].

Lemma entity_of_dto_ok (id : option Z) (dto : ProductDTO.t) :
  blank (ProductDTO.name dto) = false ->
  SFleb (ProductDTO.price dto) (S754_zero false) = false ->
  0 <= ProductDTO.stock dto ->
  ProductService.entity_of_dto id dto
  = Ok {| Product.id := id; Product.name := ProductDTO.name dto;
          Product.brand := ProductDTO.brand dto;
          Product.category := ProductDTO.category dto;
          Product.size := ProductDTO.size dto; Product.color := ProductDTO.color dto;
          Product.price := PyFloat (ProductDTO.price dto);
          Product.stock := ProductDTO.stock dto;
          Product.description := ProductDTO.description dto |}.
Proof.
  intros Hn Hp Hs. unfold ProductService.entity_of_dto.
  match goal with
  | |- match ?i with _ => _ end = Ok ?p =>
      assert (E : i = Ok p) by (apply product_init_ok; auto)
  end.
  now rewrite E.
Qed.

Lemma entity_of_dto_invalid (id : option Z) (dto : ProductDTO.t) :
  blank (ProductDTO.name dto) = true
  \/ SFleb (ProductDTO.price dto) (S754_zero false) = true
  \/ ProductDTO.stock dto < 0 ->
  exists e, ProductService.entity_of_dto id dto = Err e
            /\ exn_class_of e = Exceptions.InvalidProductDataError_class.
Proof.
  intros Hbad. unfold ProductService.entity_of_dto.
  match goal with
  | |- context [match ?i with _ => _ end] =>
      assert (E : raises ValueError i)
  end.
  { destruct Hbad as [Hn | [Hp | Hs]].
    - apply init_blank_name. unfold blank in Hn. apply orb_true_iff in Hn.
      destruct Hn as [Hn | Hn]; [left|right].
      + now destruct (ProductDTO.name dto).
      + now destruct (py_strip (ProductDTO.name dto)).
    - now apply init_bad_price.
    - now apply init_bad_stock. }
  destruct E as (e & -> & Hc). unfold Exceptions.is_ValueError. rewrite Hc.
  eexists. split; reflexivity.
Qed.

Section ProductServiceAnyRepo.
Context {W : Type} (h : handler ProductService.RepoSig W).
Import ProductService.

(** X21: [create_product] builds the entity before it touches the repository:
    with a blank name, a price [<= 0] or a negative stock it raises
    [InvalidProductDataError] without any repository call; otherwise its
    one call is [save], of a product without identifier that carries the
    description's values, and its outcome is the outcome of that call.
    This holds for every repository. *)
Theorem create_product_validates_before_saving (w : W) (dto : ProductDTO.t) :
  (blank (ProductDTO.name dto) = true
   \/ SFleb (ProductDTO.price dto) (S754_zero false) = true
   \/ ProductDTO.stock dto < 0 ->
   exists e, run h (create_product dto) w = (Err e, w, [])
             /\ exn_class_of e = Exceptions.InvalidProductDataError_class)
  /\ (blank (ProductDTO.name dto) = false ->
      SFleb (ProductDTO.price dto) (S754_zero false) = false ->
      0 <= ProductDTO.stock dto ->
      exists prod,
        Product.id prod = None
        /\ Product.name prod = ProductDTO.name dto
        /\ Product.price prod = PyFloat (ProductDTO.price dto)
        /\ Product.stock prod = ProductDTO.stock dto
        /\ run h (create_product dto) w
           = (fst (h (repo_save prod) w), snd (h (repo_save prod) w),
              [repo_save prod])).
Proof.
  split.
  - intros Hbad. destruct (entity_of_dto_invalid None dto Hbad) as (e & He & Hc).
    exists e. split; [|exact Hc]. unfold create_product. rewrite He. reflexivity.
  - intros Hn Hp Hs.
    exists {| Product.id := None; Product.name := ProductDTO.name dto;
              Product.brand := ProductDTO.brand dto;
              Product.category := ProductDTO.category dto;
              Product.size := ProductDTO.size dto;
              Product.color := ProductDTO.color dto;
              Product.price := PyFloat (ProductDTO.price dto);
              Product.stock := ProductDTO.stock dto;
              Product.description := ProductDTO.description dto |}.
    repeat (split; [reflexivity|]).
    unfold create_product. rewrite (entity_of_dto_ok None dto Hn Hp Hs).
    cbn [bind perform lift seq run op ret RepoSig repo_ret logged].
    destruct (h (repo_save _) w) as [r w1]. destruct r; reflexivity.
Qed.

(** X22: [get_product_by_id], [update_product] and [delete_product] turn a
    missing product into [ProductNotFoundError], naming the identifier, for
    every repository; [update_product] then has asked [get_by_id] only, and
    it saves nothing either when the new data is invalid. *)
Theorem missing_product_is_reported (w w1 : W) (product_id : Z)
    (dto : ProductDTO.t) :
  let not_found := Exceptions.ProductNotFoundError (Some product_id) in
  exn_str not_found
    = py "Producto con ID " ++ str_of_int product_id ++ py " no encontrado"
  /\ (h (repo_get_by_id product_id) w = (Ok None, w1) ->
      run h (get_product_by_id product_id) w
        = (Err not_found, w1, [repo_get_by_id product_id])
      /\ run h (update_product product_id dto) w
         = (Err not_found, w1, [repo_get_by_id product_id]))
  /\ (h (repo_delete product_id) w = (Ok false, w1) ->
      run h (delete_product product_id) w
        = (Err not_found, w1, [repo_delete product_id]))
  /\ (forall existing,
        h (repo_get_by_id product_id) w = (Ok (Some existing), w1) ->
        run h (get_product_by_id product_id) w
          = (Ok existing, w1, [repo_get_by_id product_id])
        /\ (blank (ProductDTO.name dto) = true
            \/ SFleb (ProductDTO.price dto) (S754_zero false) = true
            \/ ProductDTO.stock dto < 0 ->
            exists e,
              run h (update_product product_id dto) w
                = (Err e, w1, [repo_get_by_id product_id])
              /\ exn_class_of e = Exceptions.InvalidProductDataError_class)).
Proof.
  intros not_found. split; [reflexivity|]. split; [|split].
  - intros E. unfold get_product_by_id, update_product.
    cbn [bind perform lift seq run op ret RepoSig repo_ret logged].
    rewrite E. split; reflexivity.
  - intros E. unfold delete_product.
    cbn [bind perform lift seq run op ret RepoSig repo_ret logged].
    rewrite E. reflexivity.
  - intros existing E. split.
    + unfold get_product_by_id.
      cbn [bind perform lift seq run op ret RepoSig repo_ret logged].
      rewrite E. reflexivity.
    + intros Hbad.
      destruct (entity_of_dto_invalid (Some product_id) dto Hbad) as (e & He & Hc).
      exists e. split; [|exact Hc]. unfold update_product.
      cbn [bind perform lift seq run op ret RepoSig repo_ret logged].
      rewrite E. cbn [bind perform lift seq run op ret RepoSig repo_ret logged].
      rewrite He. reflexivity.
Qed.

End ProductServiceAnyRepo.

Lemma create_product_validates_before_saving_witness :
  (blank (ProductDTO.name MoreSamples.nameless) = true
   \/ SFleb (ProductDTO.price MoreSamples.nameless) (S754_zero false) = true
   \/ ProductDTO.stock MoreSamples.nameless < 0)
  /\ exists e,
       run FakeProductRepo.repo (ProductService.create_product MoreSamples.nameless)
         MoreSamples.catalog
       = (Err e, MoreSamples.catalog, [])
       /\ exn_class_of e = Exceptions.InvalidProductDataError_class.
Proof.
  assert (Hbad : blank (ProductDTO.name MoreSamples.nameless) = true
                 \/ SFleb (ProductDTO.price MoreSamples.nameless) (S754_zero false)
                    = true
                 \/ ProductDTO.stock MoreSamples.nameless < 0)
    by (left; reflexivity).
  split; [exact Hbad|].
  exact (proj1 (create_product_validates_before_saving FakeProductRepo.repo
                  MoreSamples.catalog MoreSamples.nameless) Hbad).
Defined.

Lemma missing_product_is_reported_witness :
  FakeProductRepo.repo (ProductService.repo_get_by_id 999) MoreSamples.catalog
  = (Ok None, MoreSamples.catalog)
  /\ run FakeProductRepo.repo (ProductService.get_product_by_id 999)
       MoreSamples.catalog
     = (Err (Exn Exceptions.ProductNotFoundError_class
               (py "Producto con ID 999 no encontrado")),
        MoreSamples.catalog, [ProductService.repo_get_by_id 999]).
Proof.
  assert (E : FakeProductRepo.repo (ProductService.repo_get_by_id 999)
                MoreSamples.catalog = (Ok None, MoreSamples.catalog))
    by reflexivity.
  split; [exact E|].
  destruct (missing_product_is_reported FakeProductRepo.repo MoreSamples.catalog
              MoreSamples.catalog 999 MoreSamples.VaporFly) as (_ & Hget & _).
  exact (proj1 (Hget E)).
Defined.

(** ** ProductService over the in-memory repository *)



Lemma find_app_miss {X} (f : X -> bool) (l l' : list X) :
  (forall x, In x l -> f x = false) -> find f (l ++ l') = find f l'.
Proof.
  induction l as [|x l IH]; intros Hf; [reflexivity|]. cbn.
  rewrite (Hf x (or_introl eq_refl)). apply IH. intros y Hy. apply Hf. now right.
Qed.

Lemma id_is_true (product_id : Z) (p : Product.t) :
  FakeProductRepo.id_is product_id p = true <-> Product.id p = Some product_id.
Proof.
  unfold FakeProductRepo.id_is. destruct (Product.id p) as [i|].
  - rewrite Z.eqb_eq. split; congruence.
  - split; discriminate.
Qed.

Lemma replace_first_found (product_id : Z) (product : Product.t)
    (_data : FakeProductRepo.t) (existing : Product.t) :
  find (FakeProductRepo.id_is product_id) _data = Some existing ->
  Product.id product = Some product_id ->
  exists _data',
    FakeProductRepo.replace_first product_id product _data = Some _data'
    /\ List.length _data' = List.length _data
    /\ find (FakeProductRepo.id_is product_id) _data' = Some product.
Proof.
  intros Hfind Hid. apply id_is_true in Hid.
  induction _data as [|p l IH]; [discriminate|]. cbn in Hfind |- *.
  destruct (FakeProductRepo.id_is product_id p) eqn:E.
  - eexists. split; [reflexivity|]. split; [reflexivity|]. cbn. now rewrite Hid.
  - destruct (IH Hfind) as (l' & -> & Hlen & Hf).
    eexists. split; [reflexivity|]. split; [cbn; lia|]. cbn. now rewrite E.
Qed.

(** Where the first product with the identifier stands, and what replacing
    it gives. *)
Lemma replace_first_split (product_id : Z) (product : Product.t)
    (_data : FakeProductRepo.t) (existing : Product.t) :
  find (FakeProductRepo.id_is product_id) _data = Some existing ->
  exists before after,
    _data = before ++ existing :: after
    /\ (forall p, In p before -> Product.id p <> Some product_id)
    /\ Product.id existing = Some product_id
    /\ FakeProductRepo.replace_first product_id product _data
       = Some (before ++ product :: after).
Proof.
  induction _data as [|p l IH]; [discriminate|]. cbn.
  destruct (FakeProductRepo.id_is product_id p) eqn:E.
  - intros [= <-]. exists [], l. split; [reflexivity|].
    split; [intros q []|]. split; [now apply id_is_true|reflexivity].
  - intros Hfind. destruct (IH Hfind) as (before & after & -> & Hb & He & ->).
    exists (p :: before), after. split; [reflexivity|].
    split; [|split; [exact He|reflexivity]].
    intros q [<- | Hq]; [|now apply Hb].
    intros Hid. apply id_is_true in Hid. congruence.
Qed.

Lemma filter_all {X} (f : X -> bool) (l : list X) :
  (forall x, In x l -> f x = true) -> filter f l = l.
Proof.
  induction l as [|x l IH]; intros Hf; [reflexivity|]. cbn.
  rewrite (Hf x (or_introl eq_refl)). f_equal. apply IH. intros y Hy.
  apply Hf. now right.
Qed.

Lemma filter_shorter {X} (f : X -> bool) (l : list X) (x : X) :
  In x l -> f x = false -> (List.length (filter f l) < List.length l)%nat.
Proof.
  induction l as [|y l IH]; intros Hin Hx; [contradiction|]. cbn.
  pose proof (filter_length_le f l) as Hle.
  destruct Hin as [-> | Hin].
  - rewrite Hx. lia.
  - specialize (IH Hin Hx). destruct (f y); cbn; lia.
Qed.

Section ProductServiceInMemory.
Import ProductService.


(** X24: Updating a product the in-memory repository has: with valid data
    the first stored product with that identifier is replaced where it
    stands, the products before it and after it staying as they were and
    in their order, so the repository keeps its size; the new product
    carries the identifier asked for and the description's values, and
    [get_by_id] then returns it. *)
Theorem update_product_replaces_in_place (_data : FakeProductRepo.t)
    (product_id : Z) (dto : ProductDTO.t) (existing : Product.t) :
  FakeProductRepo.get_by_id product_id _data = Some existing ->
  blank (ProductDTO.name dto) = false ->
  SFleb (ProductDTO.price dto) (S754_zero false) = false ->
  0 <= ProductDTO.stock dto ->
  let updated :=
    {| Product.id := Some product_id; Product.name := ProductDTO.name dto;
       Product.brand := ProductDTO.brand dto;
       Product.category := ProductDTO.category dto;
       Product.size := ProductDTO.size dto; Product.color := ProductDTO.color dto;
       Product.price := PyFloat (ProductDTO.price dto);
       Product.stock := ProductDTO.stock dto;
       Product.description := ProductDTO.description dto |} in
  exists before after,
    _data = before ++ existing :: after
    /\ (forall p, In p before -> Product.id p <> Some product_id)
    /\ Product.id existing = Some product_id
    /\ run FakeProductRepo.repo (update_product product_id dto) _data
       = (Ok updated, before ++ updated :: after,
          [repo_get_by_id product_id; repo_save updated])
    /\ List.length (before ++ updated :: after) = List.length _data
    /\ FakeProductRepo.get_by_id product_id (before ++ updated :: after)
       = Some updated.
Proof.
  intros Hfind Hn Hp Hs updated.
  pose proof (entity_of_dto_ok (Some product_id) dto Hn Hp Hs) as He.
  fold updated in He.
  destruct (replace_first_split product_id updated _data existing Hfind)
    as (before & after & Hdata & Hbefore & Hid & Hrep).
  exists before, after. split; [exact Hdata|]. split; [exact Hbefore|].
  split; [exact Hid|]. split; [|split].
  - unfold update_product. repo_step. rewrite Hfind. repo_step. rewrite He.
    repo_step. unfold FakeProductRepo.save. cbn [Product.id updated].
    rewrite Hrep. reflexivity.
  - rewrite Hdata, !length_app. reflexivity.
  - unfold FakeProductRepo.get_by_id. rewrite find_app_miss.
    + cbn. rewrite Z.eqb_refl. reflexivity.
    + intros p Hin. destruct (FakeProductRepo.id_is product_id p) eqn:E;
        [|reflexivity]. apply id_is_true in E. now apply Hbefore in Hin.
Qed.

(** X25: Deleting from the in-memory repository: when a product has the
    identifier, [delete_product] returns [True], every product with that
    identifier is gone and the others stay in their order, so a later
    [get_product_by_id] raises [ProductNotFoundError]; when none has it,
    [delete_product] raises [ProductNotFoundError] and the repository is
    unchanged. *)
Theorem delete_product_removes_or_reports (_data : FakeProductRepo.t)
    (product_id : Z) :
  let not_found := Exceptions.ProductNotFoundError (Some product_id) in
  let kept := filter (fun p => negb (FakeProductRepo.id_is product_id p)) _data in
  ((exists p, In p _data /\ Product.id p = Some product_id) ->
   run FakeProductRepo.repo (delete_product product_id) _data
     = (Ok true, kept, [repo_delete product_id])
   /\ (forall q, In q kept <-> In q _data /\ Product.id q <> Some product_id)
   /\ run FakeProductRepo.repo (get_product_by_id product_id) kept
      = (Err not_found, kept, [repo_get_by_id product_id]))
  /\ ((forall p, In p _data -> Product.id p <> Some product_id) ->
      run FakeProductRepo.repo (delete_product product_id) _data
      = (Err not_found, _data, [repo_delete product_id])).
Proof.
  intros not_found kept.
  assert (Hkept : forall q, In q kept <-> In q _data /\ Product.id q <> Some product_id).
  { intros q. unfold kept. rewrite filter_In, negb_true_iff.
    rewrite <- id_is_true. destruct (FakeProductRepo.id_is product_id q);
      intuition congruence. }
  split.
  - intros (p & Hin & Hid). split; [|split; [exact Hkept|]].
    + unfold delete_product. repo_step. unfold FakeProductRepo.delete. fold kept.
      assert (Hlt : (len kept <? len _data) = true).
      { apply Z.ltb_lt. unfold len, kept. apply inj_lt.
        apply (filter_shorter _ _ p Hin). apply id_is_true in Hid. now rewrite Hid. }
      rewrite Hlt. reflexivity.
    + unfold get_product_by_id. repo_step. unfold FakeProductRepo.get_by_id.
      assert (Hnone : find (FakeProductRepo.id_is product_id) kept = None).
      { destruct (find _ kept) as [q|] eqn:Ef; [|reflexivity].
        apply find_some in Ef as (Hq & Hidq). apply Hkept in Hq as (_ & Hq).
        apply id_is_true in Hidq. contradiction. }
      rewrite Hnone. reflexivity.
  - intros Hnone. unfold delete_product. repo_step. unfold FakeProductRepo.delete.
    assert (Hall : filter (fun p => negb (FakeProductRepo.id_is product_id p)) _data
                   = _data).
    { apply filter_all. intros x Hx. apply negb_true_iff.
      destruct (FakeProductRepo.id_is product_id x) eqn:E; [|reflexivity].
      apply id_is_true in E. now apply Hnone in Hx. }
    rewrite Hall, Z.ltb_irrefl. reflexivity.
Qed.

(** [get_available_products] returns exactly the products of the
    repository whose stock is positive, in the repository's order, and
    changes nothing. *)
Theorem get_available_products_have_stock (_data : FakeProductRepo.t) :
  exists available,
    run FakeProductRepo.repo get_available_products _data
    = (Ok available, _data, [repo_get_all])
    /\ available = filter Product.is_available _data
    /\ (forall p, In p available <-> In p _data /\ 0 < Product.stock p).
Proof.
  eexists. split; [reflexivity|]. split; [reflexivity|].
  intros p. unfold FakeProductRepo.get_all. rewrite filter_In.
  unfold Product.is_available. now rewrite Z.ltb_lt.
Qed.

End ProductServiceInMemory.


Lemma update_product_replaces_in_place_witness :
  let catalog := MoreSamples.catalog ++ [InMemory.Pegasus] in
  (FakeProductRepo.get_by_id 2 catalog = Some InMemory.Ultraboost
   /\ blank (ProductDTO.name MoreSamples.VaporFly) = false
   /\ SFleb (ProductDTO.price MoreSamples.VaporFly) (S754_zero false) = false
   /\ 0 <= ProductDTO.stock MoreSamples.VaporFly)
  /\ exists updated,
       Product.name updated = py "VaporFly" /\ Product.id updated = Some 2
       /\ fst (run FakeProductRepo.repo
                 (ProductService.update_product 2 MoreSamples.VaporFly) catalog)
          = (Ok updated, [InMemory.Pegasus; updated; InMemory.Pegasus]).
Proof.
  intros catalog.
  assert (Hf : FakeProductRepo.get_by_id 2 catalog = Some InMemory.Ultraboost)
    by reflexivity.
  assert (Hn : blank (ProductDTO.name MoreSamples.VaporFly) = false) by reflexivity.
  assert (Hp : SFleb (ProductDTO.price MoreSamples.VaporFly) (S754_zero false) = false)
    by reflexivity.
  assert (Hs : 0 <= ProductDTO.stock MoreSamples.VaporFly) by (simpl; lia).
  split; [repeat split; assumption|].
  destruct (update_product_replaces_in_place catalog 2
              MoreSamples.VaporFly InMemory.Ultraboost Hf Hn Hp Hs)
    as (before & after & Hdata & Hbefore & _ & Hrun & _).
  eexists. split; [|split]; [| |rewrite Hrun; cbn [fst]; f_equal].
  - reflexivity.
  - reflexivity.
  - destruct before as [|b0 before].
    + cbn in Hdata. inversion Hdata.
    + cbn in Hdata. inversion Hdata as [[Hb0 Hrest]].
      destruct before as [|b1 before].
      * cbn in Hrest. inversion Hrest; subst. reflexivity.
      * cbn in Hrest. inversion Hrest as [[Hb1 Hrest']]. exfalso.
        apply (Hbefore b1); [right; left; reflexivity|]. rewrite <- Hb1. reflexivity.
Defined.

Lemma delete_product_removes_or_reports_witness :
  (exists p, In p MoreSamples.catalog /\ Product.id p = Some 1)
  /\ run FakeProductRepo.repo (ProductService.delete_product 1) MoreSamples.catalog
     = (Ok true, [InMemory.Ultraboost], [ProductService.repo_delete 1]).
Proof.
  assert (He : exists p, In p MoreSamples.catalog /\ Product.id p = Some 1)
    by (exists InMemory.Pegasus; split; [left; reflexivity|reflexivity]).
  split; [exact He|].
  exact (proj1 (proj1 (delete_product_removes_or_reports MoreSamples.catalog 1) He)).
Defined.

Lemma get_available_products_have_stock_witness :
  (In InMemory.Pegasus MoreSamples.catalog /\ 0 < Product.stock InMemory.Pegasus)
  /\ exists available,
       run FakeProductRepo.repo ProductService.get_available_products
         MoreSamples.catalog
       = (Ok available, MoreSamples.catalog, [ProductService.repo_get_all])
       /\ In InMemory.Pegasus available.
Proof.
  assert (H : In InMemory.Pegasus MoreSamples.catalog
              /\ 0 < Product.stock InMemory.Pegasus)
    by (split; [left; reflexivity|simpl; lia]).
  split; [exact H|].
  destruct (get_available_products_have_stock MoreSamples.catalog)
    as (available & Hrun & _ & Hin).
  exists available. split; [exact Hrun|]. now apply Hin.
Defined.

(** ** Searching *)

Lemma given_some (v : option str) :
  ProductService.given v = true -> v = Some (with_default [] v).
Proof. destruct v; [reflexivity|discriminate]. Qed.

Lemma id_eqb_eq (a b : option Z) : ProductService.id_eqb a b = true <-> a = b.
Proof.
  destruct a as [x|], b as [y|]; cbn; try (split; congruence).
  rewrite Z.eqb_eq. split; congruence.
Qed.

Lemma ok_true (f : ProductService.filters) (p : Product.t) :
  ProductService.ok f p = true ->
  (ProductService.given (ProductService.f_size f) = true ->
   Some (Product.size p) = ProductService.f_size f)
  /\ (ProductService.given (ProductService.f_color f) = true ->
      Some (Product.color p) = ProductService.f_color f)
  /\ (forall x, ProductService.f_min_price f = Some x ->
        ProductService.price_lt (Product.price p) x = false)
  /\ (forall x, ProductService.f_max_price f = Some x ->
        ProductService.price_gt (Product.price p) x = false).
Proof.
  unfold ProductService.ok. intros Hok.
  destruct (ProductService.given (ProductService.f_size f)) eqn:Gs; cbn [andb] in Hok.
  - destruct (str_eqb (Product.size p) _) eqn:Es; cbn [negb] in Hok; [|discriminate].
    apply str_eqb_eq in Es.
    split; [intros _; rewrite (given_some _ Gs); now f_equal|].
    revert Hok.
    destruct (ProductService.given (ProductService.f_color f)) eqn:Gc; cbn [andb].
    + destruct (str_eqb (Product.color p) _) eqn:Ec; cbn [negb]; [|discriminate].
      apply str_eqb_eq in Ec. intros Hok.
      split; [intros _; rewrite (given_some _ Gc); now f_equal|].
      destruct (ProductService.f_min_price f) as [x|];
        destruct (ProductService.f_max_price f) as [y|];
        repeat match type of Hok with
               | (if ?b then _ else _) = true => destruct b eqn:?; try discriminate
               end;
        split; intros z Hz; inversion Hz; subst; auto.
    + intros Hok. split; [discriminate|].
      destruct (ProductService.f_min_price f) as [x|];
        destruct (ProductService.f_max_price f) as [y|];
        repeat match type of Hok with
               | (if ?b then _ else _) = true => destruct b eqn:?; try discriminate
               end;
        split; intros z Hz; inversion Hz; subst; auto.
  - split; [discriminate|]. revert Hok.
    destruct (ProductService.given (ProductService.f_color f)) eqn:Gc; cbn [andb].
    + destruct (str_eqb (Product.color p) _) eqn:Ec; cbn [negb]; [|discriminate].
      apply str_eqb_eq in Ec. intros Hok.
      split; [intros _; rewrite (given_some _ Gc); now f_equal|].
      destruct (ProductService.f_min_price f) as [x|];
        destruct (ProductService.f_max_price f) as [y|];
        repeat match type of Hok with
               | (if ?b then _ else _) = true => destruct b eqn:?; try discriminate
               end;
        split; intros z Hz; inversion Hz; subst; auto.
    + intros Hok. split; [discriminate|].
      destruct (ProductService.f_min_price f) as [x|];
        destruct (ProductService.f_max_price f) as [y|];
        repeat match type of Hok with
               | (if ?b then _ else _) = true => destruct b eqn:?; try discriminate
               end;
        split; intros z Hz; inversion Hz; subst; auto.
Qed.

Section SearchInMemory.
Import ProductService.

(** What [search_products] returns from the in-memory repository, and what
    it asks of it. *)
Lemma search_products_run (_data : FakeProductRepo.t) (f : filters) :
  let brand := with_default [] (f_brand f) in
  let category := with_default [] (f_category f) in
  let base :=
    if given (f_brand f) && given (f_category f) then
      filter (fun p => existsb (fun q => id_eqb (Product.id q) (Product.id p))
                         (FakeProductRepo.get_by_brand brand _data))
        (FakeProductRepo.get_by_category category _data)
    else if given (f_brand f) then FakeProductRepo.get_by_brand brand _data
    else if given (f_category f) then FakeProductRepo.get_by_category category _data
    else _data in
  let calls :=
    if given (f_brand f) && given (f_category f) then
      [repo_get_by_brand brand; repo_get_by_category category]
    else if given (f_brand f) then [repo_get_by_brand brand]
    else if given (f_category f) then [repo_get_by_category category]
    else [repo_get_all] in
  run FakeProductRepo.repo (search_products (Some f)) _data
  = (Ok (filter (ok f) base), _data, calls).
Proof.
  unfold search_products. cbn [with_default].
  destruct (given (f_brand f)), (given (f_category f)); reflexivity.
Qed.

(** X26: [search_products] only reads, and every product it returns is in the
    repository and meets every filter that was given: the category and, by
    itself, the brand; the size and the color; and a price that is neither
    below [min_price] nor above [max_price].  A filter given as an empty
    string counts as not given.  When brand and category are both given
    the brand is matched through the identifier: the product has the
    category and shares its identifier with a product of the brand.  With
    neither brand nor category given, the result is all the products that
    pass the other filters, in the repository's order. *)
Theorem search_products_meets_filters (_data : FakeProductRepo.t) (f : filters) :
  exists found calls,
    run FakeProductRepo.repo (search_products (Some f)) _data
    = (Ok found, _data, calls)
    /\ (forall product, ~ In (repo_save product) calls)
    /\ (forall product_id, ~ In (repo_delete product_id) calls)
    /\ (forall p, In p found ->
          In p _data
          /\ (given (f_category f) = true ->
              Some (Product.category p) = f_category f)
          /\ (given (f_brand f) = true ->
              exists q, In q _data /\ Some (Product.brand q) = f_brand f
                        /\ Product.id q = Product.id p)
          /\ (given (f_brand f) = true -> given (f_category f) = false ->
              Some (Product.brand p) = f_brand f)
          /\ (given (f_size f) = true -> Some (Product.size p) = f_size f)
          /\ (given (f_color f) = true -> Some (Product.color p) = f_color f)
          /\ (forall x, f_min_price f = Some x ->
                price_lt (Product.price p) x = false)
          /\ (forall x, f_max_price f = Some x ->
                price_gt (Product.price p) x = false))
    /\ (given (f_brand f) = false -> given (f_category f) = false ->
        found = filter (ok f) _data).
Proof.
  pose proof (search_products_run _data f) as Hrun. cbn zeta in Hrun.
  eexists. eexists. split; [exact Hrun|].
  split; [|split; [|split]].
  - intros product.
    destruct (given (f_brand f)), (given (f_category f)); cbn;
      intuition discriminate.
  - intros product_id.
    destruct (given (f_brand f)), (given (f_category f)); cbn;
      intuition discriminate.
  - intros p Hin. apply filter_In in Hin as (Hbase & Hok).
    destruct (ok_true f p Hok) as (Hsize & Hcolor & Hmin & Hmax).
    unfold FakeProductRepo.get_by_brand, FakeProductRepo.get_by_category in Hbase.
    destruct (given (f_brand f)) eqn:Gb, (given (f_category f)) eqn:Gc;
      cbn [andb] in Hbase.
    + apply filter_In in Hbase as (Hcat & Hex).
      apply filter_In in Hcat as (Hd & Hcat). apply str_eqb_eq in Hcat.
      apply existsb_exists in Hex as (q & Hq & Hid).
      apply filter_In in Hq as (Hqd & Hqb). apply str_eqb_eq in Hqb.
      apply id_eqb_eq in Hid.
      split; [exact Hd|]. split; [intros _; rewrite (given_some _ Gc); now f_equal|].
      split; [intros _; exists q; rewrite (given_some _ Gb);
              split; [exact Hqd|split; [now f_equal|exact Hid]]|].
      split; [discriminate|]. auto.
    + apply filter_In in Hbase as (Hd & Hb). apply str_eqb_eq in Hb.
      split; [exact Hd|]. split; [discriminate|].
      split; [intros _; exists p; rewrite (given_some _ Gb);
              split; [exact Hd|split; [now f_equal|reflexivity]]|].
      split; [intros _ _; rewrite (given_some _ Gb); now f_equal|]. auto.
    + apply filter_In in Hbase as (Hd & Hcat). apply str_eqb_eq in Hcat.
      split; [exact Hd|]. split; [intros _; rewrite (given_some _ Gc); now f_equal|].
      split; [discriminate|]. split; [discriminate|]. auto.
    + split; [exact Hbase|]. split; [discriminate|].
      split; [discriminate|]. split; [discriminate|]. auto.
  - intros -> ->. reflexivity.
Qed.

(** Without filters, with [None] or with a dictionary that gives none,
    [search_products] returns what [get_all_products] returns: every
    product of the repository. *)
Theorem search_without_filters_is_get_all (_data : FakeProductRepo.t) :
  run FakeProductRepo.repo (search_products None) _data
  = run FakeProductRepo.repo get_all_products _data
  /\ run FakeProductRepo.repo (search_products (Some no_filters)) _data
     = run FakeProductRepo.repo get_all_products _data
  /\ run FakeProductRepo.repo get_all_products _data
     = (Ok _data, _data, [repo_get_all]).
Proof.
  assert (E : run FakeProductRepo.repo (search_products (Some no_filters)) _data
              = (Ok _data, _data, [repo_get_all])).
  { rewrite search_products_run. cbn. f_equal. f_equal. f_equal.
    apply filter_all. reflexivity. }
  split; [exact E|]. split; [exact E|reflexivity].
Qed.

End SearchInMemory.

Lemma search_products_meets_filters_witness :
  let f := {| ProductService.f_brand := Some (py "Nike");
              ProductService.f_category := None;
              ProductService.f_size := Some [];
              ProductService.f_color := None;
              ProductService.f_min_price := Some float_120;
              ProductService.f_max_price := None |} in
  (ProductService.given (ProductService.f_brand f) = true
   /\ ProductService.given (ProductService.f_category f) = false)
  /\ exists calls,
       run FakeProductRepo.repo (ProductService.search_products (Some f))
         MoreSamples.catalog
       = (Ok [InMemory.Pegasus], MoreSamples.catalog, calls)
       /\ Some (Product.brand InMemory.Pegasus) = Some (py "Nike").
Proof.
  intros f.
  assert (Gb : ProductService.given (ProductService.f_brand f) = true) by reflexivity.
  assert (Gc : ProductService.given (ProductService.f_category f) = false)
    by reflexivity.
  split; [split; assumption|].
  destruct (search_products_meets_filters MoreSamples.catalog f)
    as (found & calls & Hrun & _ & _ & Hall & _).
  assert (Hf : found = [InMemory.Pegasus])
    by (vm_compute in Hrun; inversion Hrun; reflexivity).
  exists calls. rewrite <- Hf. split; [exact Hrun|].
  destruct (Hall InMemory.Pegasus) as (_ & _ & _ & Hb & _);
    [rewrite Hf; left; reflexivity|].
  exact (Hb Gb Gc).
Defined.

(** ** The product description *)

(** X27: A product description is accepted exactly when its price is not [<= 0]
    and its stock is not negative; the name is not looked at, so a
    description with a blank name is accepted and only the entity rejects
    it.  The price test is a comparison, so a price that is not a number
    passes it, in the description and in the entity alike. *)
Theorem product_dto_accepted_iff (id : option Z)
    (name brand category size color : str) (price : spec_float) (stock : Z)
    (description : str) :
  (forall dto,
     ProductDTO.init id name brand category size color price stock description
     = Ok dto
     <-> (SFleb price (S754_zero false) = false /\ 0 <= stock
          /\ dto = {| ProductDTO.id := id; ProductDTO.name := name;
                      ProductDTO.brand := brand; ProductDTO.category := category;
                      ProductDTO.size := size; ProductDTO.color := color;
                      ProductDTO.price := price; ProductDTO.stock := stock;
                      ProductDTO.description := description |}))
  /\ (SFleb price (S754_zero false) = true \/ stock < 0 ->
      raises ValidationError
        (ProductDTO.init id name brand category size color price stock description))
  /\ (0 <= stock ->
      exists dto,
        ProductDTO.init id name brand category size color S754_nan stock description
        = Ok dto
        /\ (blank name = false ->
            exists prod, ProductService.entity_of_dto None dto = Ok prod
                         /\ Product.price prod = PyFloat S754_nan)).
Proof.
  unfold ProductDTO.init, ProductDTO.price_must_be_positive,
    ProductDTO.stock_must_be_non_negative.
  split; [|split].
  - intros dto. destruct (SFleb price (S754_zero false)).
    + split; [destruct (stock <? 0); discriminate|]. intros (? & _). discriminate.
    + destruct (stock <? 0) eqn:Es.
      * split; [discriminate|]. apply Z.ltb_lt in Es. intros (_ & ? & _). lia.
      * apply Z.ltb_ge in Es. split.
        -- intros [= <-]. auto.
        -- intros (_ & _ & ->). reflexivity.
  - intros [-> | Hs].
    + destruct (stock <? 0); eexists; split; reflexivity.
    + apply Z.ltb_lt in Hs. rewrite Hs.
      destruct (SFleb price (S754_zero false)); eexists; split; reflexivity.
  - intros Hs. cbn [SFleb SFcompare]. apply Z.ltb_ge in Hs. rewrite Hs.
    eexists. split; [reflexivity|]. intros Hn. eexists.
    split; [apply entity_of_dto_ok; [exact Hn|reflexivity|now apply Z.ltb_ge]|].
    reflexivity.
Qed.

Lemma product_dto_accepted_iff_witness :
  (SFleb float_120 (S754_zero false) = false /\ 0 <= 1)
  /\ ProductDTO.init None (py "  ") (py "Nike") (py "Running") (py "42") (py "Azul")
       float_120 1 [] = Ok MoreSamples.nameless.
Proof.
  assert (Hp : SFleb float_120 (S754_zero false) = false) by reflexivity.
  assert (Hs : 0 <= 1) by lia.
  split; [split; assumption|].
  apply (proj2 (proj1 (product_dto_accepted_iff None (py "  ") (py "Nike")
                         (py "Running") (py "42") (py "Azul") float_120 1 []) _)).
  auto.
Defined.

(** ** The row-entity converters *)

(** X28: A product that passed the constructor's checks becomes a row
    with the same values, its description always present, and reads back
    from that row unchanged.  A row that reads back as a product converts
    to the same row again, except that a missing description has become
    the empty string.  A row that breaks a rule of the constructor (blank
    name, price [<= 0], negative stock) cannot be read: the conversion
    raises [ValueError]. *)
Theorem product_row_round_trip :
  (forall e,
     SQLProductRepository._entity_to_model e
     = {| SQLProductRepository.id := Product.id e;
          SQLProductRepository.name := Product.name e;
          SQLProductRepository.brand := Product.brand e;
          SQLProductRepository.category := Product.category e;
          SQLProductRepository.size := Product.size e;
          SQLProductRepository.color := Product.color e;
          SQLProductRepository.price := Product.price e;
          SQLProductRepository.stock := Product.stock e;
          SQLProductRepository.description := Some (Product.description e) |})
  /\ (forall e, Product.__post_init__ e = Ok tt ->
        SQLProductRepository._model_to_entity
          (SQLProductRepository._entity_to_model e) = Ok e)
  /\ (forall m e, SQLProductRepository._model_to_entity m = Ok e ->
        e = {| Product.id := SQLProductRepository.id m;
               Product.name := SQLProductRepository.name m;
               Product.brand := SQLProductRepository.brand m;
               Product.category := SQLProductRepository.category m;
               Product.size := SQLProductRepository.size m;
               Product.color := SQLProductRepository.color m;
               Product.price := SQLProductRepository.price m;
               Product.stock := SQLProductRepository.stock m;
               Product.description :=
                 with_default [] (SQLProductRepository.description m) |}
        /\ SQLProductRepository._entity_to_model e
           = {| SQLProductRepository.id := SQLProductRepository.id m;
                SQLProductRepository.name := SQLProductRepository.name m;
                SQLProductRepository.brand := SQLProductRepository.brand m;
                SQLProductRepository.category := SQLProductRepository.category m;
                SQLProductRepository.size := SQLProductRepository.size m;
                SQLProductRepository.color := SQLProductRepository.color m;
                SQLProductRepository.price := SQLProductRepository.price m;
                SQLProductRepository.stock := SQLProductRepository.stock m;
                SQLProductRepository.description :=
                  Some (with_default [] (SQLProductRepository.description m)) |}
        /\ (SQLProductRepository.description m <> None ->
            SQLProductRepository._entity_to_model e = m)
        /\ SQLProductRepository._model_to_entity
             (SQLProductRepository._entity_to_model e) = Ok e)
  /\ (forall m,
        blank (SQLProductRepository.name m) = true
        \/ num_le_zero (SQLProductRepository.price m) = true
        \/ SQLProductRepository.stock m < 0 ->
        raises ValueError (SQLProductRepository._model_to_entity m)).
Proof.
  assert (Hrow : forall e,
     SQLProductRepository._entity_to_model e
     = {| SQLProductRepository.id := Product.id e;
          SQLProductRepository.name := Product.name e;
          SQLProductRepository.brand := Product.brand e;
          SQLProductRepository.category := Product.category e;
          SQLProductRepository.size := Product.size e;
          SQLProductRepository.color := Product.color e;
          SQLProductRepository.price := Product.price e;
          SQLProductRepository.stock := Product.stock e;
          SQLProductRepository.description := Some (Product.description e) |}).
  { intros e. unfold SQLProductRepository._entity_to_model.
    now rewrite py_or_empty. }
  assert (Hrt : forall e, Product.__post_init__ e = Ok tt ->
     SQLProductRepository._model_to_entity
       (SQLProductRepository._entity_to_model e) = Ok e).
  { intros e He. rewrite Hrow. unfold SQLProductRepository._model_to_entity,
      Product.init.
    cbn [SQLProductRepository.id SQLProductRepository.name SQLProductRepository.brand
         SQLProductRepository.category SQLProductRepository.size
         SQLProductRepository.color SQLProductRepository.price
         SQLProductRepository.stock SQLProductRepository.description with_default].
    rewrite !py_or_empty. destruct e. cbn in He |- *.
    unfold Product.__post_init__ in *. cbn in He |- *.
    destruct (py_not _ || py_not _); [discriminate|].
    destruct (num_le_zero _); [discriminate|].
    destruct (_ <? 0); [discriminate|]. reflexivity. }
  split; [exact Hrow|]. split; [exact Hrt|]. split.
  - intros m e Hm. unfold SQLProductRepository._model_to_entity in Hm.
    unfold Product.init in Hm.
    match type of Hm with
    | match Product.__post_init__ ?x with _ => _ end = _ =>
        destruct (Product.__post_init__ x) as [[]|] eqn:Hp; [|discriminate]
    end.
    injection Hm as <-.
    assert (Hd : match SQLProductRepository.description m with
                 | Some d => py_or d []
                 | None => []
                 end = with_default [] (SQLProductRepository.description m))
      by (destruct (SQLProductRepository.description m);
          [apply py_or_empty|reflexivity]).
    cbn [with_default] in Hp |- *. rewrite Hd in Hp |- *.
    split; [reflexivity|]. split; [|split].
    + rewrite Hrow. reflexivity.
    + intros Hsome. rewrite Hrow. destruct m as [? ? ? ? ? ? ? ? [d|]];
        [reflexivity|contradiction].
    + apply Hrt. exact Hp.
  - intros m Hbad. unfold SQLProductRepository._model_to_entity.
    destruct Hbad as [Hn | [Hp | Hs]].
    + apply init_blank_name. unfold blank in Hn. apply orb_true_iff in Hn.
      destruct Hn as [Hn | Hn]; [left|right].
      * now destruct (SQLProductRepository.name m).
      * now destruct (py_strip (SQLProductRepository.name m)).
    + now apply init_bad_price.
    + now apply init_bad_stock.
Qed.

Lemma product_row_round_trip_witness :
  let row :=
    {| SQLProductRepository.id := Some 1; SQLProductRepository.name := py "Pegasus";
       SQLProductRepository.brand := py "Nike";
       SQLProductRepository.category := py "Running";
       SQLProductRepository.size := py "42"; SQLProductRepository.color := py "Negro";
       SQLProductRepository.price := PyFloat float_120;
       SQLProductRepository.stock := 5;
       SQLProductRepository.description := None |} in
  (Product.__post_init__ InMemory.Pegasus = Ok tt
   /\ SQLProductRepository._model_to_entity row = Ok InMemory.Pegasus)
  /\ SQLProductRepository._model_to_entity
       (SQLProductRepository._entity_to_model InMemory.Pegasus) = Ok InMemory.Pegasus
  /\ SQLProductRepository.description
       (SQLProductRepository._entity_to_model InMemory.Pegasus) = Some [].
Proof.
  intros row.
  assert (H : Product.__post_init__ InMemory.Pegasus = Ok tt) by reflexivity.
  assert (Hm : SQLProductRepository._model_to_entity row = Ok InMemory.Pegasus)
    by reflexivity.
  split; [split; assumption|].
  destruct product_row_round_trip as (_ & Hrt & Hback & _).
  split; [exact (Hrt InMemory.Pegasus H)|].
  destruct (Hback row InMemory.Pegasus Hm) as (_ & Hrow & _).
  rewrite Hrow. reflexivity.
Defined.

(** X29: A chat message that passed the constructor's checks survives the trip
    to a row and back unchanged, and a row with a role other than [user] or
    [assistant], or with a blank message, cannot be read back: the
    conversion raises [ValueError]. *)
Theorem chat_row_round_trip :
  (forall e, ChatMessage.__post_init__ e = Ok tt ->
     SQLChatRepository._model_to_entity (SQLChatRepository._entity_to_model e) = Ok e)
  /\ (forall m, blank (SQLChatRepository.message m) = true ->
        SQLChatRepository.role m = py "user"
        \/ SQLChatRepository.role m = py "assistant" ->
        raises ValueError (SQLChatRepository._model_to_entity m))
  /\ (forall m, SQLChatRepository.role m <> py "user" ->
        SQLChatRepository.role m <> py "assistant" ->
        raises ValueError (SQLChatRepository._model_to_entity m)).
Proof.
  split; [|split].
  - intros e He. unfold SQLChatRepository._model_to_entity,
      SQLChatRepository._entity_to_model, ChatMessage.init.
    cbn [SQLChatRepository.id SQLChatRepository.session_id SQLChatRepository.role
         SQLChatRepository.message SQLChatRepository.timestamp].
    destruct e. cbn in He |- *. unfold ChatMessage.__post_init__ in *.
    cbn in He |- *.
    destruct (negb _); [discriminate|].
    destruct (py_not _ || py_not _); [discriminate|].
    destruct (py_not _ || py_not _); [discriminate|]. reflexivity.
  - intros m Hb Hr. unfold SQLChatRepository._model_to_entity.
    now apply chat_message_init_blank_message.
  - intros m N1 N2. unfold SQLChatRepository._model_to_entity, ChatMessage.init,
      ChatMessage.__post_init__. cbn [ChatMessage.role].
    rewrite (str_eqb_neq _ _ N1), (str_eqb_neq _ _ N2). cbn.
    eexists. split; reflexivity.
Qed.

Lemma chat_row_round_trip_witness :
  let e := Samples.msg 2 "assistant" "m2" in
  ChatMessage.__post_init__ e = Ok tt
  /\ SQLChatRepository._model_to_entity (SQLChatRepository._entity_to_model e) = Ok e.
Proof.
  intros e.
  assert (H : ChatMessage.__post_init__ e = Ok tt) by reflexivity.
  split; [exact H|].
  exact (proj1 chat_row_round_trip e H).
Defined.
